(** * Field enhancement and autosave of the resume server

    A shallow embedding of [server/controllers/temp2controller.js]
    (validation, save, debounced autosave, change tracking, the create
    handler and the field-enhancement handler) and of the pre-save hook of
    [server/models/Temp2Model.js], followed by the properties of the
    specification that concern them.

    Modelling conventions.
    - JavaScript values are the inductive [value]; objects are association
      lists in insertion order, numbers are integers, dates are epoch
      numbers. A string is the [string] of the bytes of its UTF-8
      encoding: a character is a byte with the continuation bytes that
      follow it, and [trim] and the class [\s] know the white space of
      ECMAScript.
    - Asynchronous functions run to completion in one step: a handler is a
      computation in the monad [M] of a [world] (database, console, change
      trackers, pending debounced call, clock) that returns or throws.
    - What the sources do not contain is a field of [Env]: [JSON.parse],
      the case mapping of [toLowerCase], the generation model, and the
      messages of the validators that Mongoose runs.
    - The model [Resume] is the one of [server/models/Temp2Model.js]. Of
      Mongoose it has the queries the controller makes, the casting by
      the schema (strict mode, the types of the paths, the setters [trim]
      and [lowercase], also on the filter of a query), the timestamps,
      the unique index on [email], the validation before a [save] and the
      [save] middleware. Its virtuals and its version key are left out,
      and so is the wrapping of a value that is no array into one.
    - The console is the list of the lines written, without their emoji. *)

From Stdlib Require Import ZArith String Ascii List Bool Lia.
From Stdlib Require Import DecimalString.
From stdpp Require Import base option list gmap strings.

Local Open Scope string_scope.
Local Open Scope Z_scope.

(** ** JavaScript values *)

#[local] Set Warnings "-register-all".

Inductive value :=
| VUndef
| VNull
| VBool (b : bool)
| VNum (n : Z)
| VStr (s : string)
| VArr (l : list value)
| VObj (o : list (string * value)).

(** An object: its own properties, in insertion order. *)
Abbreviation obj := (list (string * value)).

Inductive exn :=
| TypeError (msg : string)
| ReferenceError (msg : string)
| SyntaxError (msg : string)
| JsError (msg : string)
| CastError (msg : string)
| MongoError (msg : string)
| ValidationError (errs : list string)
| ServiceError (msg : string).

Inductive result (A : Type) :=
| Ok (a : A)
| Throw (e : exn).
Arguments Ok {A} a.
Arguments Throw {A} e.

Module Js.

(** [o[k]] for an own property. *)
Fixpoint lookup (o : obj) (k : string) : option value :=
  match o with
  | [] => None
  | (k', v) :: o' => if String.eqb k' k then Some v else lookup o' k
  end.

(** [o[k] = v]: an existing key keeps its place, a new one goes last. *)
Fixpoint set (o : obj) (k : string) (v : value) : obj :=
  match o with
  | [] => [(k, v)]
  | (k', v') :: o' =>
      if String.eqb k' k then (k', v) :: o' else (k', v') :: set o' k v
  end.

(** [{...a, ...b}] where [a] is already an object under construction. *)
Definition assign (a b : obj) : obj :=
  fold_left (fun acc kv => set acc (fst kv) (snd kv)) b a.

Definition string_of_nat (n : nat) : string :=
  NilZero.string_of_uint (Nat.to_uint n).

Definition string_of_Z (z : Z) : string :=
  match z with
  | Z0 => "0"
  | Zpos p => string_of_nat (Pos.to_nat p)
  | Zneg p => "-" ++ string_of_nat (Pos.to_nat p)
  end.

Fixpoint indexed (i : nat) (l : list value) : obj :=
  match l with
  | [] => []
  | v :: l' => (string_of_nat i, v) :: indexed (S i) l'
  end.

(** A continuation byte of UTF-8, [10xxxxxx]. *)
Definition is_cont (c : ascii) : bool :=
  let n := nat_of_ascii c in (128 <=? n)%nat && (n <? 192)%nat.

Definition starts_cont (s : string) : bool :=
  match s with
  | String c _ => is_cont c
  | EmptyString => false
  end.

(** The characters of a string: each is a byte with the continuation
    bytes that follow it. *)
Fixpoint points (s : string) : list string :=
  match s with
  | EmptyString => []
  | String c s' =>
      if starts_cont s' then
        match points s' with
        | p :: ps => String c p :: ps
        | [] => [String c EmptyString]
        end
      else String c EmptyString :: points s'
  end.

(** The string of a list of characters. *)
Fixpoint glue (l : list string) : string :=
  match l with
  | [] => EmptyString
  | c :: l' => c ++ glue l'
  end.

(** [s.length], in UTF-16 code units: a character of four bytes takes
    two. *)
Definition units (s : string) : nat :=
  fold_right
    (fun c n =>
       (match c with
        | String a _ => if (240 <=? nat_of_ascii a)%nat then 2 else 1
        | EmptyString => 0
        end + n)%nat)
    0%nat (points s).

Definition chars (s : string) : list value := map VStr (points s).

(** The own enumerable properties a spread [...v] copies. *)
Definition spread (v : value) : obj :=
  match v with
  | VObj o => o
  | VArr l => indexed 0 l
  | VStr s => indexed 0 (chars s)
  | _ => []
  end.

Definition truthy (v : value) : bool :=
  match v with
  | VUndef | VNull => false
  | VBool b => b
  | VNum n => negb (n =? 0)
  | VStr s => negb (String.eqb s EmptyString)
  | VArr _ | VObj _ => true
  end.

(** [a || b] *)
Definition or (a b : value) : value := if truthy a then a else b.

Definition join (sep : string) (parts : list string) : string :=
  String.concat sep parts.

(** [String(v)], as a template literal applies it. *)
Fixpoint to_string (v : value) : string :=
  match v with
  | VUndef => "undefined"
  | VNull => "null"
  | VBool true => "true"
  | VBool false => "false"
  | VNum n => string_of_Z n
  | VStr s => s
  | VArr l =>
      join "," (map (fun x => match x with
                              | VUndef | VNull => EmptyString
                              | _ => to_string x
                              end) l)
  | VObj _ => "[object Object]"
  end.

(** [arr.join(sep)] *)
Definition join_values (sep : string) (l : list value) : string :=
  join sep (map (fun x => match x with
                          | VUndef | VNull => EmptyString
                          | _ => to_string x
                          end) l).

(** [v.k] and [v[k]]: a property read throws on [undefined] and [null];
    primitives and arrays have the property [length] and their indices
    only through [get_index]. *)
Definition get (v : value) (k : string) : result value :=
  match v with
  | VUndef => Throw (TypeError "Cannot read properties of undefined")
  | VNull => Throw (TypeError "Cannot read properties of null")
  | VObj o => Ok (default VUndef (lookup o k))
  | VArr l =>
      Ok (if String.eqb k "length" then VNum (Z.of_nat (length l)) else VUndef)
  | VStr s =>
      Ok (if String.eqb k "length" then VNum (Z.of_nat (units s))
          else VUndef)
  | _ => Ok VUndef
  end.

(** [arr[i]] for an integer [i]. *)
Definition get_index (l : list value) (i : Z) : value :=
  if i <? 0 then VUndef else default VUndef (l !! Z.to_nat i).

(** [arr[i] = v] on a fresh copy: in range it replaces, past the end the
    array grows with holes, and a negative [i] names a property that is
    no element. *)
Definition set_index (l : list value) (i : Z) (v : value) : list value :=
  if i <? 0 then l
  else if i <? Z.of_nat (length l) then <[Z.to_nat i := v]> l
  else l ++ replicate (Z.to_nat i - length l) VUndef ++ [v].

Definition bytes (l : list nat) : string :=
  string_of_list_ascii (map ascii_of_nat l).

(** WhiteSpace and LineTerminator of ECMAScript, which [trim] removes
    and [\s] matches: U+0009 to U+000D, U+0020, U+00A0, U+1680, U+2000 to
    U+200A, U+2028, U+2029, U+202F, U+205F, U+3000 and U+FEFF. *)
Definition white : list string :=
  map bytes
    [[9]; [10]; [11]; [12]; [13]; [32]; [194; 160]; [225; 154; 128];
     [226; 128; 128]; [226; 128; 129]; [226; 128; 130]; [226; 128; 131];
     [226; 128; 132]; [226; 128; 133]; [226; 128; 134]; [226; 128; 135];
     [226; 128; 136]; [226; 128; 137]; [226; 128; 138]; [226; 128; 168];
     [226; 128; 169]; [226; 128; 175]; [226; 129; 159]; [227; 128; 128];
     [239; 187; 191]]%nat.

Definition is_space (c : string) : bool := existsb (String.eqb c) white.

(** A list of characters without its leading white space. *)
Fixpoint drop_space (l : list string) : list string :=
  match l with
  | [] => []
  | c :: l' => if is_space c then drop_space l' else l
  end.

(** [s.trim()] *)
Definition trim (s : string) : string :=
  glue (rev (drop_space (rev (drop_space (points s))))).

(** [s.split(',')] *)
Fixpoint split_comma (s : string) : list string :=
  match s with
  | EmptyString => [EmptyString]
  | String c s' =>
      if Ascii.eqb c ","%char then EmptyString :: split_comma s'
      else match split_comma s' with
           | h :: t => String c h :: t
           | [] => [String c EmptyString]
           end
  end.

End Js.

(** ** Regular expressions over characters, by derivatives *)

Module Regex.

Inductive re :=
| Void
| Eps
| Cls (p : string -> bool)
| Cat (r1 r2 : re)
| Alt (r1 r2 : re)
| Star (r : re).

Definition Plus (r : re) : re := Cat r (Star r).

Fixpoint nullable (r : re) : bool :=
  match r with
  | Void | Cls _ => false
  | Eps | Star _ => true
  | Cat r1 r2 => nullable r1 && nullable r2
  | Alt r1 r2 => nullable r1 || nullable r2
  end.

Fixpoint deriv (c : string) (r : re) : re :=
  match r with
  | Void | Eps => Void
  | Cls p => if p c then Eps else Void
  | Cat r1 r2 =>
      if nullable r1 then Alt (Cat (deriv c r1) r2) (deriv c r2)
      else Cat (deriv c r1) r2
  | Alt r1 r2 => Alt (deriv c r1) (deriv c r2)
  | Star r1 => Cat (deriv c r1) (Star r1)
  end.

Fixpoint run (r : re) (l : list string) : bool :=
  match l with
  | [] => nullable r
  | c :: l' => run (deriv c r) l'
  end.

(** [/^r$/.test(s)], character by character. *)
Definition test (r : re) (s : string) : bool := run r (Js.points s).

Definition chr (a : string) : re := Cls (String.eqb a).

(** [[^\s@]] *)
Definition not_space_at : re :=
  Cls (fun c => negb (Js.is_space c || String.eqb c "@")).

(** [/^[^\s@]+@[^\s@]+\.[^\s@]+$/] *)
Definition email_re : re :=
  Cat (Plus not_space_at)
    (Cat (chr "@")
       (Cat (Plus not_space_at) (Cat (chr ".") (Plus not_space_at)))).

End Regex.

(** ** JSON.stringify *)

Module Json.

Definition dq : string := String (ascii_of_nat 34) EmptyString.
Definition bs : string := String (ascii_of_nat 92) EmptyString.

Definition hex_digit (n : nat) : string :=
  String.substring n 1 "0123456789abcdef".

Definition escape_char (c : ascii) : string :=
  let n := nat_of_ascii c in
  if (n =? 34)%nat then bs ++ dq
  else if (n =? 92)%nat then bs ++ bs
  else if (n =? 8)%nat then bs ++ "b"
  else if (n =? 12)%nat then bs ++ "f"
  else if (n =? 10)%nat then bs ++ "n"
  else if (n =? 13)%nat then bs ++ "r"
  else if (n =? 9)%nat then bs ++ "t"
  else if (n <? 32)%nat then
    bs ++ "u00" ++ hex_digit (n / 16) ++ hex_digit (n mod 16)
  else String c EmptyString.

Fixpoint escape (s : string) : string :=
  match s with
  | EmptyString => EmptyString
  | String c s' => escape_char c ++ escape s'
  end.

Definition quote (s : string) : string := dq ++ escape s ++ dq.

(** [JSON.stringify(v)]; [None] is the result [undefined]. An array
    prints [undefined] as [null], an object leaves such a property out. *)
Fixpoint stringify (v : value) : option string :=
  match v with
  | VUndef => None
  | VNull => Some "null"
  | VBool true => Some "true"
  | VBool false => Some "false"
  | VNum n => Some (Js.string_of_Z n)
  | VStr s => Some (quote s)
  | VArr l =>
      Some ("[" ++ Js.join "," (map (fun x => default "null" (stringify x)) l)
            ++ "]")
  | VObj o =>
      Some ("{" ++ Js.join ","
              (flat_map (fun kv =>
                           match kv with
                           | (k, x) =>
                               match stringify x with
                               | Some sx => [quote k ++ ":" ++ sx]
                               | None => []
                               end
                           end) o)
            ++ "}")
  end.

End Json.

(** ** The environment of the controller *)

(** What the controller calls and the sources do not define. *)
Record Env := {
  (** [JSON.parse]; [None] when it throws a [SyntaxError]. *)
  JSON_parse : string -> option value;
  (** [String.prototype.toLowerCase] *)
  toLowerCase : string -> string;
  (** [model.generateContent(prompt)] followed by [response.text()]. *)
  generateContent : string -> result string;
  (** The messages of the schema validation that [save()] runs. *)
  schema_errors : obj -> list string;
  (** The messages of the update validators ([runValidators: true]). *)
  update_errors : obj -> list string;
  (** [process.env.NODE_ENV === 'development'] *)
  development : bool
}.

(** ** The world of a request *)

Inductive write :=
| WInsert (doc : obj)
| WUpdate (id : string) (fields : obj).

(** The collection behind the Mongoose model [Resume]. [db_up] tells
    whether the server is reachable and [db_writes] is the journal of the
    writes it accepted, oldest first. *)
Record db := {
  db_docs : list obj;
  db_next : nat;
  db_up : bool;
  db_writes : list write
}.

(** An entry of [changeTrackers]. *)
Record tracker := {
  lastData : value;
  pendingSave : bool;
  lastSavedAt : value
}.

(** The call that [lodash.debounce] holds back: when it is due and the
    arguments of the latest call. *)
Record pending_call := {
  due : Z;
  call_userId : option string;
  call_resumeData : value
}.

Record world := {
  w_db : db;
  w_console : list string;
  changeTrackers : gmap (option string) tracker;
  w_timer : option pending_call;
  w_now : Z
}.

Definition AUTO_SAVE_INTERVAL : Z := 30000.
Definition AUTO_SAVE_DEBOUNCE : Z := 5000.

(** ** State and exceptions *)

Definition M (A : Type) : Type := world -> result A * world.

Definition ret {A} (a : A) : M A := fun w => (Ok a, w).

Definition bind {A B} (m : M A) (k : A -> M B) : M B :=
  fun w => match m w with
           | (Ok a, w') => k a w'
           | (Throw e, w') => (Throw e, w')
           end.

Definition throw {A} (e : exn) : M A := fun w => (Throw e, w).

(** [try { m } catch (e) { h e }] *)
Definition try_catch {A} (m : M A) (h : exn -> M A) : M A :=
  fun w => match m w with
           | (Ok a, w') => (Ok a, w')
           | (Throw e, w') => h e w'
           end.

Definition lift {A} (r : result A) : M A := fun w => (r, w).

Notation "'let*' x := m 'in' k" := (bind m (fun x => k))
  (at level 10, x name, m at level 100, k at level 200).
Notation "'do' m 'then' k" := (bind m (fun _ => k))
  (at level 10, m at level 100, k at level 200).

Definition gets {A} (f : world -> A) : M A := fun w => (Ok (f w), w).

Definition set_db (d : db) : M unit :=
  fun w => (Ok tt, {| w_db := d; w_console := w_console w;
                      changeTrackers := changeTrackers w;
                      w_timer := w_timer w; w_now := w_now w |}).

Definition set_trackers (t : gmap (option string) tracker) : M unit :=
  fun w => (Ok tt, {| w_db := w_db w; w_console := w_console w;
                      changeTrackers := t;
                      w_timer := w_timer w; w_now := w_now w |}).

Definition set_timer (t : option pending_call) : M unit :=
  fun w => (Ok tt, {| w_db := w_db w; w_console := w_console w;
                      changeTrackers := changeTrackers w;
                      w_timer := t; w_now := w_now w |}).

Definition set_now (t : Z) : M unit :=
  fun w => (Ok tt, {| w_db := w_db w; w_console := w_console w;
                      changeTrackers := changeTrackers w;
                      w_timer := w_timer w; w_now := t |}).

(** [console.log] and [console.error] *)
Definition console (line : string) : M unit :=
  fun w => (Ok tt, {| w_db := w_db w; w_console := w_console w ++ [line];
                      changeTrackers := changeTrackers w;
                      w_timer := w_timer w; w_now := w_now w |}).

Definition message (e : exn) : string :=
  match e with
  | TypeError m | ReferenceError m | SyntaxError m | JsError m
  | CastError m | MongoError m | ServiceError m => m
  | ValidationError errs => "Resume validation failed: " ++ Js.join ", " errs
  end.

(** ** The schema of Temp2Model.js, as Mongoose casts by it *)

Notation "'let?' x := r 'in' k" :=
  (match r with Ok x => k | Throw e => Throw e end)
  (at level 10, x name, r at level 100, k at level 200).

Module Cast.

(** The paths of type [String] of [resumeSchema]. All have [trim: true],
    and [email] has [lowercase: true] too. *)
Definition strings : list string :=
  ["name"; "role"; "phone"; "email"; "linkedin"; "location"; "summary"].

(** The arrays of sub-documents with the paths of their schemas, which
    are strings with [trim: true]. *)
Definition arrays : list (string * list string) :=
  [("experience",
    ["title"; "companyName"; "date"; "companyLocation"; "description";
     "accomplishment"]);
   ("education", ["degree"; "institution"; "duration"; "grade"]);
   ("achievements", ["keyAchievements"; "describe"]);
   ("courses", ["title"; "description"]);
   ("projects", ["title"; "duration"; "description"])].

(** The setters of [email], which run last declared first: [trim], then
    [lowercase]. *)
Definition address (E : Env) (s : string) : string :=
  toLowerCase E (Js.trim s).

(** The cast to a string: a string is one, a number and a boolean are
    printed, [null] and [undefined] stay, an array and an object fail. *)
Definition text (v : value) : result value :=
  match v with
  | VStr _ | VNull | VUndef => Ok v
  | VNum _ | VBool _ => Ok (VStr (Js.to_string v))
  | VArr _ | VObj _ => Throw (CastError "Cast to string failed")
  end.

(** A path of type [String] with its setters. *)
Definition trimmed (E : Env) (lowercase : bool) (v : value) : result value :=
  let? c := text v in
  Ok (match c with
      | VStr s => VStr (if lowercase then address E s else Js.trim s)
      | _ => c
      end).

(** The properties of an object by the paths of a schema. Strict mode
    drops a key that is no path, and an [undefined] value is no
    property. *)
Fixpoint props (path : string -> option (value -> result value)) (o : obj)
    : result obj :=
  match o with
  | [] => Ok []
  | (k, v) :: o' =>
      match path k with
      | None => props path o'
      | Some cast =>
          let? c := cast v in
          let? rest := props path o' in
          Ok (match c with
              | VUndef => rest
              | _ => (k, c) :: rest
              end)
      end
  end.

Fixpoint all (cast : value -> result value) (l : list value)
    : result (list value) :=
  match l with
  | [] => Ok []
  | v :: l' =>
      let? c := cast v in
      let? rest := all cast l' in
      Ok (c :: rest)
  end.

(** A path whose type is an array. *)
Definition many (cast : value -> result value) (v : value) : result value :=
  match v with
  | VArr l => let? c := all cast l in Ok (VArr c)
  | VNull | VUndef => Ok v
  | _ => Throw (CastError "Cast to array failed")
  end.

(** A sub-document of a schema with the paths [keys]. *)
Definition entry (E : Env) (keys : list string) (v : value) : result value :=
  match v with
  | VObj o =>
      let? c :=
        props (fun k => if existsb (String.eqb k) keys
                        then Some (trimmed E false) else None) o in
      Ok (VObj c)
  | _ => Throw (CastError "Cast to embedded failed")
  end.

(** [_id]: the model keeps an id as the string that names it. *)
Definition object_id (v : value) : result value :=
  match v with
  | VStr _ | VUndef => Ok v
  | VNull => Ok VUndef
  | _ => Throw (CastError "Cast to ObjectId failed")
  end.

(** The paths of [resumeSchema] that a client can set. The timestamps
    are set by Mongoose, see [Resume] below. *)
Definition path (E : Env) (k : string) : option (value -> result value) :=
  if existsb (String.eqb k) strings
  then Some (trimmed E (String.eqb k "email"))
  else match find (fun p => String.eqb (fst p) k) arrays with
       | Some (_, keys) => Some (many (entry E keys))
       | None =>
           if String.eqb k "skills" then Some (many text)
           else if String.eqb k "_id" then Some object_id
           else None
       end.

(** The fields given to [new Resume] or to [$set], as the schema casts
    them. *)
Definition fields (E : Env) (o : obj) : result obj := props (path E) o.

(** The document of an update: the fields and [updatedAt]. *)
Definition update (sent : obj) (now : Z) : obj :=
  Js.assign sent [("updatedAt", VNum now)].

(** The document of an insert: the fields, the id and the timestamps. *)
Definition insert (cleaned : obj) (key : string) (now : Z) : obj :=
  Js.assign cleaned
    [("_id", VStr key); ("createdAt", VNum now); ("updatedAt", VNum now)].

End Cast.

(** ** The Mongoose model [Resume] *)

Module Resume.

Definition id_of (d : obj) : option string :=
  match Js.lookup d "_id" with
  | Some (VStr s) => Some s
  | _ => None
  end.

Definition email_of (d : obj) : option string :=
  match Js.lookup d "email" with
  | Some (VStr s) => Some s
  | _ => None
  end.

Definition has_id (id : string) (d : obj) : bool :=
  match id_of d with
  | Some s => String.eqb s id
  | None => false
  end.

Definition has_email (e : string) (d : obj) : bool :=
  match email_of d with
  | Some s => String.eqb s e
  | None => false
  end.

(** The unique index on [email]: does a document other than [id] hold
    the address of [d]? *)
Definition email_taken (docs : list obj) (id : string) (d : obj) : bool :=
  match email_of d with
  | Some e => existsb (fun d' => has_email e d' && negb (has_id id d')) docs
  | None => false
  end.

(** An update meets the index only when it changes the address. *)
Definition email_clash (docs : list obj) (id : string) (old new : obj)
    : bool :=
  negb (bool_decide (email_of old = email_of new)) && email_taken docs id new.

Definition connected : M db :=
  let* d := gets w_db in
  if db_up d then ret d else throw (MongoError "connection refused").

(** An id is a string; any other value fails the cast to ObjectId. *)
Definition cast_id (id : value) : M string :=
  match id with
  | VStr s => ret s
  | _ => throw (CastError "Cast to ObjectId failed")
  end.

(** [Resume.findById(id)] *)
Definition findById (id : value) : M (option obj) :=
  let* s := cast_id id in
  let* d := connected in
  ret (find (has_id s) (db_docs d)).

(** [Resume.findOne({ email: e })]: the filter is cast by the schema, so
    the address is looked up trimmed and in lower case. *)
Definition findOne_email (E : Env) (e : value) : M (option obj) :=
  let* filter := lift (Cast.trimmed E true e) in
  let* d := connected in
  ret (match filter with
       | VStr s => find (has_email s) (db_docs d)
       | _ => None
       end).

Fixpoint replace (id : string) (d' : obj) (docs : list obj) : list obj :=
  match docs with
  | [] => []
  | d :: rest => if has_id id d then d' :: rest else d :: replace id d' rest
  end.

(** [Resume.findByIdAndUpdate(id, { $set: fields }, { new: true,
    runValidators })]: the document after the update, or [null]. The
    fields are cast by the schema and [updatedAt] is set with them. No
    [save] middleware runs on this path. *)
Definition findByIdAndUpdate (E : Env) (id : value) (fields : obj)
    (runValidators : bool) : M (option obj) :=
  let* s := cast_id id in
  let* sent := lift (Cast.fields E fields) in
  match (if runValidators then update_errors E sent else []) with
  | _ :: _ as errs => throw (ValidationError errs)
  | [] =>
      let* now := gets w_now in
      let* d := connected in
      match find (has_id s) (db_docs d) with
      | None => ret None
      | Some old =>
          let new := Js.assign old (Cast.update sent now) in
          if email_clash (db_docs d) s old new
          then throw (MongoError "E11000 duplicate key error")
          else
            do set_db {| db_docs := replace s new (db_docs d);
                         db_next := db_next d; db_up := db_up d;
                         db_writes := db_writes d
                                      ++ [WUpdate s (Cast.update sent now)] |}
            then ret (Some new)
      end
  end.

Fixpoint trim_all (l : list value) : result (list string) :=
  match l with
  | [] => Ok []
  | VStr s :: l' =>
      match trim_all l' with
      | Ok t => Ok (Js.trim s :: t)
      | Throw e => Throw e
      end
  | _ :: _ => Throw (TypeError "skill.trim is not a function")
  end.

(** [resumeSchema.pre('save', ...)]: clean the skills array. *)
Definition pre_save (this : obj) : result obj :=
  match Js.lookup this "skills" with
  | Some (VArr skills) =>
      match trim_all skills with
      | Ok t =>
          Ok (Js.set this "skills"
                (VArr (map VStr
                         (filter (fun skill => (0 < String.length skill)%nat)
                            t))))
      | Throw e => Throw e
      end
  | _ => Ok this
  end.

Definition fresh_id (d : db) : string := "r" ++ Js.string_of_nat (db_next d).

(** [new Resume(data).save()]: the data are cast by the schema, where a
    failure is reported by the validation; then the validation, the
    [save] middleware and the insert with the id and the timestamps. *)
Definition save_new (E : Env) (data : obj) : M obj :=
  match Cast.fields E data with
  | Throw e => throw (ValidationError [message e])
  | Ok sent =>
      match schema_errors E sent with
      | _ :: _ => throw (ValidationError (schema_errors E sent))
      | [] =>
          let* cleaned := lift (pre_save sent) in
          let* now := gets w_now in
          let* d := connected in
          let id := default (fresh_id d) (id_of cleaned) in
          let doc := Cast.insert cleaned id now in
          if email_taken (db_docs d) id doc || existsb (has_id id) (db_docs d)
          then throw (MongoError "E11000 duplicate key error")
          else
            do set_db {| db_docs := db_docs d ++ [doc];
                         db_next := S (db_next d); db_up := db_up d;
                         db_writes := db_writes d ++ [WInsert doc] |}
            then ret doc
      end
  end.

End Resume.

(** ** temp2controller.js: validation and saving *)

Definition uid_value (userId : option string) : value :=
  match userId with
  | Some s => VStr s
  | None => VUndef
  end.

(** [!v || v.trim().length === 0] *)
Definition is_blank (v : value) : result bool :=
  if negb (Js.truthy v) then Ok true
  else match v with
       | VStr s => Ok (String.length (Js.trim s) =? 0)%nat
       | _ => Throw (TypeError "trim is not a function")
       end.

(** [!v || !/^[^\s@]+@[^\s@]+\.[^\s@]+$/.test(v)] *)
Definition is_bad_email (v : value) : bool :=
  negb (Js.truthy v) || negb (Regex.test Regex.email_re (Js.to_string v)).

Definition validateResumeData (resumeData : value) : result (list string) :=
  let? name := Js.get resumeData "name" in
  let? no_name := is_blank name in
  let? email := Js.get resumeData "email" in
  let? phone := Js.get resumeData "phone" in
  let? no_phone := is_blank phone in
  Ok ((if no_name then ["Name is required"] else [])
      ++ (if is_bad_email email then ["Valid email is required"] else [])
      ++ (if no_phone then ["Phone number is required"] else []))%list.

Definition saveResumeData (E : Env) (resumeData : value)
    (isAutoSave : bool) (userId : option string) : M obj :=
  try_catch
    (let* validationErrors := lift (validateResumeData resumeData) in
     if negb isAutoSave && (0 <? length validationErrors)%nat
     then throw (JsError ("Validation failed: "
                          ++ Js.join ", " validationErrors))
     else
       let* id := lift (Js.get resumeData "_id") in
       let* savedResume :=
         if Js.truthy id then
           (* Update existing resume by ID *)
           let* now := gets w_now in
           let* found :=
             Resume.findByIdAndUpdate E id
               (Js.assign (Js.spread resumeData) [("lastSavedAt", VNum now)])
               (negb isAutoSave) in
           match found with
           | None => throw (JsError "Resume not found")
           | Some d => ret (Some d)
           end
         else
           (* Look for existing resume by email *)
           let* email := lift (Js.get resumeData "email") in
           let* existingResume := Resume.findOne_email E email in
           let* now := gets w_now in
           match existingResume with
           | Some existing =>
               Resume.findByIdAndUpdate E
                 (default VUndef (Js.lookup existing "_id"))
                 (Js.assign (Js.spread resumeData) [("lastSavedAt", VNum now)])
                 (negb isAutoSave)
           | None =>
               let* d :=
                 Resume.save_new E
                   (Js.assign (Js.spread resumeData)
                      [("createdBy", uid_value userId);
                       ("lastSavedAt", VNum now)]) in
               ret (Some d)
           end in
       match savedResume with
       | None => throw (TypeError "Cannot read properties of null")
       | Some d =>
           do console ("Resume "
                       ++ (if isAutoSave then "auto-saved" else "saved")
                       ++ " successfully with ID: "
                       ++ Js.to_string (default VUndef (Js.lookup d "_id")))
           then ret d
       end)
    (fun error =>
       do console ("Error "
                   ++ (if isAutoSave then "auto-saving" else "saving")
                   ++ " resume: " ++ message error)
       then throw error).

(** ** temp2controller.js: change tracking and the debounced autosave *)

(** The function handed to [debounce]. *)
Definition autoSave (E : Env) (userId : option string) (resumeData : value)
    : M unit :=
  try_catch
    (let* trackers := gets changeTrackers in
     match trackers !! userId with
     | None => ret tt
     | Some t =>
         (* Only save if there are pending changes *)
         if pendingSave t
            && negb (bool_decide (Json.stringify (lastData t)
                                  = Json.stringify resumeData))
         then
           do console ("Auto-saving resume for user "
                       ++ Js.to_string (uid_value userId)) then
           do saveResumeData E resumeData true userId then
           let* now := gets w_now in
           let* current := gets changeTrackers in
           set_trackers
             (<[userId := {| lastData := resumeData; pendingSave := false;
                             lastSavedAt := VNum now |}]> current)
         else ret tt
     end)
    (fun error => console ("Auto-save failed: " ++ message error)).

(** A call of [debouncedAutoSave]: the pending call takes the new
    arguments and is due [AUTO_SAVE_DEBOUNCE] after this call. *)
Definition debouncedAutoSave (userId : option string) (resumeData : value)
    : M unit :=
  let* now := gets w_now in
  set_timer (Some {| due := now + AUTO_SAVE_DEBOUNCE;
                     call_userId := userId;
                     call_resumeData := resumeData |}).

Definition trackChanges (userId : option string) (resumeData : value)
    : M unit :=
  let* trackers := gets changeTrackers in
  do match trackers !! userId with
     | None =>
         set_trackers
           (<[userId := {| lastData := resumeData; pendingSave := false;
                           lastSavedAt := VNull |}]> trackers)
     | Some tracker =>
         set_trackers
           (<[userId := {| lastData := lastData tracker; pendingSave := true;
                           lastSavedAt := lastSavedAt tracker |}]> trackers)
     end
  then
  (* Trigger debounced auto-save *)
  debouncedAutoSave userId resumeData.

(** The event loop reaches time [t]: a pending call that is due runs, at
    the time it is due. *)
Definition advance (E : Env) (t : Z) : M unit :=
  let* timer := gets w_timer in
  match timer with
  | Some c =>
      if due c <=? t then
        do set_timer None then
        do set_now (due c) then
        do autoSave E (call_userId c) (call_resumeData c) then
        set_now t
      else set_now t
  | None => set_now t
  end.

(** ** temp2controller.js: the handlers *)

Record response := {
  status : Z;
  body : obj
}.

Definition json (code : Z) (props : obj) : M response :=
  ret {| status := code; body := props |}.

(** What a handler leaves behind: a response, or a rejected promise that
    nothing handles. *)
Inductive outcome :=
| Responded (r : response)
| Rejected (e : exn).

Definition handle (h : M response) (w : world) : outcome * world :=
  match h w with
  | (Ok r, w') => (Responded r, w')
  | (Throw e, w') => (Rejected e, w')
  end.

Definition error_detail (E : Env) (error : exn) : value :=
  if development E then VStr (message error) else VUndef.

(** The answers of [createResume] that the properties below name. *)
Definition validation_failed (validationErrors : list string) : response :=
  {| status := 400;
     body := [("success", VBool false);
              ("message", VStr "Validation failed");
              ("errors", VArr (map VStr validationErrors))] |}.

Definition email_exists (existing : obj) : response :=
  {| status := 409;
     body := [("success", VBool false);
              ("message", VStr "Resume with this email already exists");
              ("data", VObj existing)] |}.

Definition createResume (E : Env) (resumeData : value)
    (userId : option string) : M response :=
  try_catch
    (if negb (Js.truthy resumeData) then
       json 400 [("success", VBool false);
                 ("message", VStr "Resume data is required")]
     else
       (* Validate resume data *)
       let* validationErrors := lift (validateResumeData resumeData) in
       if (0 <? length validationErrors)%nat then
         ret (validation_failed validationErrors)
       else
         (* Check if resume with this email already exists *)
         let* email := lift (Js.get resumeData "email") in
         let* existingResume := Resume.findOne_email E email in
         match existingResume with
         | Some existing => ret (email_exists existing)
         | None =>
             (* Create new resume *)
             let* savedResume :=
               saveResumeData E
                 (VObj (Js.assign (Js.spread resumeData)
                          [("createdBy", uid_value userId)]))
                 false None in
             (* Initialize auto-save tracking *)
             do trackChanges userId (VObj savedResume) then
             json 201 [("success", VBool true);
                       ("message", VStr "Resume created successfully");
                       ("data", VObj savedResume);
                       ("resumeId", default VUndef (Js.lookup savedResume "_id"));
                       ("autoSaveEnabled", VBool true)]
         end)
    (fun error =>
       do console ("Error creating resume: " ++ message error) then
       json 500 [("success", VBool false);
                 ("message", VStr "Failed to create resume");
                 ("error", error_detail E error)]).

Definition saveResume (E : Env) (resumeData : value)
    (userId : option string) : M response :=
  try_catch
    (if negb (Js.truthy resumeData) then
       json 400 [("success", VBool false);
                 ("message", VStr "Resume data is required")]
     else
       let* validationErrors := lift (validateResumeData resumeData) in
       if (0 <? length validationErrors)%nat then
         json 400 [("success", VBool false);
                   ("message", VStr "Validation failed");
                   ("errors", VArr (map VStr validationErrors))]
       else
         let* savedResume := saveResumeData E resumeData false userId in
         (* Update auto-save tracking *)
         do trackChanges userId (VObj savedResume) then
         json 200 [("success", VBool true);
                   ("message", VStr "Resume saved successfully");
                   ("data", VObj savedResume);
                   ("resumeId",
                    VStr (Js.to_string
                            (default VUndef (Js.lookup savedResume "_id"))));
                   ("canEnhance", VBool true);
                   ("isSaved", VBool true);
                   ("autoSaveEnabled", VBool true);
                   ("lastSavedAt",
                    default VUndef (Js.lookup savedResume "lastSavedAt"))])
    (fun error =>
       do console ("Error saving resume: " ++ message error) then
       json 500 [("success", VBool false);
                 ("message", VStr "Failed to save resume");
                 ("error", error_detail E error)]).

Definition loadResume (E : Env) (email : value) (userId : option string)
    : M response :=
  try_catch
    (if negb (Js.truthy email) then
       json 400 [("success", VBool false);
                 ("message", VStr "Email is required")]
     else
       let* found := Resume.findOne_email E email in
       match found with
       | None =>
           json 404 [("success", VBool false);
                     ("message", VStr "Resume not found")]
       | Some resume =>
           (* Initialize auto-save tracking *)
           do trackChanges userId (VObj resume) then
           json 200 [("success", VBool true);
                     ("message", VStr "Resume loaded successfully");
                     ("data", VObj resume);
                     ("resumeId",
                      VStr (Js.to_string
                              (default VUndef (Js.lookup resume "_id"))));
                     ("canEnhance", VBool true);
                     ("isSaved", VBool true);
                     ("autoSaveEnabled", VBool true);
                     ("lastSavedAt",
                      default VUndef (Js.lookup resume "lastSavedAt"))]
       end)
    (fun error =>
       do console ("Error loading resume: " ++ message error) then
       json 500 [("success", VBool false);
                 ("message", VStr "Failed to load resume");
                 ("error", error_detail E error)]).

(** ** temp2controller.js: the enhancement prompts *)

Module Prompt.

Definition nl : string := String (ascii_of_nat 10) EmptyString.

(** The lines of a template literal. *)
Definition lines (l : list string) : string := Js.join nl l.

(** [${v || d}] *)
Definition show (v : value) (d : string) : string :=
  Js.to_string (Js.or v (VStr d)).

Definition experience (entry : value) : result string :=
  let? title := Js.get entry "title" in
  let? companyName := Js.get entry "companyName" in
  let? date := Js.get entry "date" in
  let? companyLocation := Js.get entry "companyLocation" in
  let? description := Js.get entry "description" in
  let? accomplishment := Js.get entry "accomplishment" in
  Ok (lines
        ["Enhance this work experience entry for a professional resume. Keep it concise but impactful. Here are the current details:";
         "          - Job Title: " ++ show title "Not specified";
         "          - Company: " ++ show companyName "Not specified";
         "          - Dates: " ++ show date "Not specified";
         "          - Location: " ++ show companyLocation "Not specified";
         "          - Description: "
           ++ show description "No description provided";
         "          - Accomplishments: "
           ++ show accomplishment "No accomplishments provided";
         "          ";
         "          Please return enhanced versions of both the description and accomplishment in JSON format:";
         "          {";
         "            " ++ Json.dq ++ "description" ++ Json.dq ++ ": "
           ++ Json.dq ++ "Enhanced job description..." ++ Json.dq ++ ",";
         "            " ++ Json.dq ++ "accomplishment" ++ Json.dq ++ ": "
           ++ Json.dq ++ "Enhanced accomplishment..." ++ Json.dq;
         "          }"]).

Definition education (entry : value) : result string :=
  let? degree := Js.get entry "degree" in
  let? institution := Js.get entry "institution" in
  let? duration := Js.get entry "duration" in
  let? grade := Js.get entry "grade" in
  Ok (lines
        ["Enhance this education entry for a professional resume:";
         "          - Degree: " ++ show degree "Not specified";
         "          - Institution: " ++ show institution "Not specified";
         "          - Dates: " ++ show duration "Not specified";
         "          - Grade: " ++ show grade "Not specified";
         "          ";
         "          Return enhanced degree and institution description in JSON format:";
         "          {";
         "            " ++ Json.dq ++ "degree" ++ Json.dq ++ ": " ++ Json.dq
           ++ "Enhanced degree description..." ++ Json.dq ++ ",";
         "            " ++ Json.dq ++ "institution" ++ Json.dq ++ ": "
           ++ Json.dq ++ "Enhanced institution description..." ++ Json.dq;
         "          }"]).

Definition achievements (entry : value) : result string :=
  let? keyAchievements := Js.get entry "keyAchievements" in
  let? describe := Js.get entry "describe" in
  Ok (lines
        ["Enhance this achievement for a professional resume:";
         "          - Achievement: "
           ++ show keyAchievements "Not specified";
         "          - Description: "
           ++ show describe "No description provided";
         "          ";
         "          Return enhanced achievement and description in JSON format:";
         "          {";
         "            " ++ Json.dq ++ "keyAchievements" ++ Json.dq ++ ": "
           ++ Json.dq ++ "Enhanced achievement..." ++ Json.dq ++ ",";
         "            " ++ Json.dq ++ "describe" ++ Json.dq ++ ": "
           ++ Json.dq ++ "Enhanced description..." ++ Json.dq;
         "          }"]).

Definition projects (entry : value) : result string :=
  let? title := Js.get entry "title" in
  let? duration := Js.get entry "duration" in
  let? description := Js.get entry "description" in
  Ok (lines
        ["Enhance this project description for a professional resume:";
         "          - Project: " ++ show title "Not specified";
         "          - Duration: " ++ show duration "Not specified";
         "          - Description: "
           ++ show description "No description provided";
         "          ";
         "          Return enhanced description in JSON format:";
         "          {";
         "            " ++ Json.dq ++ "description" ++ Json.dq ++ ": "
           ++ Json.dq ++ "Enhanced project description..." ++ Json.dq;
         "          }"]).

Definition courses (entry : value) : result string :=
  let? title := Js.get entry "title" in
  let? description := Js.get entry "description" in
  Ok (lines
        ["Enhance this course description for a professional resume:";
         "          - Course: " ++ show title "Not specified";
         "          - Description: "
           ++ show description "No description provided";
         "          ";
         "          Return enhanced description in JSON format:";
         "          {";
         "            " ++ Json.dq ++ "description" ++ Json.dq ++ ": "
           ++ Json.dq ++ "Enhanced course description..." ++ Json.dq;
         "          }"]).

(** [resume.skills?.join(', ')] *)
Definition skills_joined (skills : value) : result value :=
  match skills with
  | VUndef | VNull => Ok VUndef
  | VArr l => Ok (VStr (Js.join_values ", " l))
  | _ => Throw (TypeError "resume.skills.join is not a function")
  end.

Definition summary (resume : obj) : string :=
  "Enhance this resume summary to make it more professional and tailored for a "
  ++ show (default VUndef (Js.lookup resume "role")) "job"
  ++ " position. Keep it concise (3-4 sentences). Current summary: "
  ++ show (default VUndef (Js.lookup resume "summary")) "No summary provided".

Definition skills (resume : obj) : result string :=
  let? joined := skills_joined (default VUndef (Js.lookup resume "skills")) in
  Ok ("Enhance and categorize these skills for a resume. Current skills: "
      ++ show joined "No skills provided"
      ++ ". Return only a comma-separated list of enhanced skills.").

(** [switch (field)] compares with [===]: only a string selects a case. *)
Definition case_of (field : value) (label : string) : bool :=
  match field with
  | VStr s => String.eqb s label
  | _ => false
  end.

(** The [switch] of the entry branch; [None] is its [default] case. *)
Definition for_entry (field : value) (entry : value)
    : option (result string) :=
  if case_of field "experience" then Some (experience entry)
  else if case_of field "education" then Some (education entry)
  else if case_of field "achievements" then Some (achievements entry)
  else if case_of field "projects" then Some (projects entry)
  else if case_of field "courses" then Some (courses entry)
  else None.

(** The [switch] of the whole-field branch; [None] is its [default]
    case. *)
Definition for_field (field : value) (resume : obj)
    : option (result string) :=
  if case_of field "summary" then Some (Ok (summary resume))
  else if case_of field "skills" then Some (skills resume)
  else None.

End Prompt.

(** ** temp2controller.js: enhanceField *)

(** The body of an enhancement request. [index] is a JSON integer when it
    is there; [None] stands for [undefined] and for [null]. *)
Record enhance_body := {
  resumeId : value;
  field : value;
  index : option Z
}.

(** The answers of the handler that the properties below name. *)
Definition invalid_index : response :=
  {| status := 400;
     body := [("success", VBool false);
              ("message", VStr "Invalid index for field array")] |}.

Definition parse_failure : response :=
  {| status := 500;
     body := [("success", VBool false);
              ("message", VStr "Failed to parse AI enhancement response")] |}.

Definition entry_unsupported : response :=
  {| status := 400;
     body := [("success", VBool false);
              ("message",
               VStr "Field not supported for individual entry enhancement")] |}.

Definition field_unsupported : response :=
  {| status := 400;
     body := [("success", VBool false);
              ("message", VStr "Field not supported for enhancement")] |}.

(** [entry.toObject()] *)
Definition toObject (entry : value) : result obj :=
  match entry with
  | VObj o => Ok o
  | VUndef | VNull => Throw (TypeError "Cannot read properties of undefined")
  | _ => Throw (TypeError "entry.toObject is not a function")
  end.

(** [v[i]] for a value [v] that should be an array. *)
Definition at_index (v : value) (i : Z) : result value :=
  match v with
  | VArr l => Ok (Js.get_index l i)
  | VUndef | VNull => Throw (TypeError "Cannot read properties of undefined")
  | _ => Ok VUndef
  end.

Definition saved_value (saved : option obj) : value :=
  match saved with
  | Some d => VObj d
  | None => VNull
  end.

(** The merge of the entry branch: [{ ...entry.toObject(),
    ...enhancedData }]. *)
Definition updatedEntry (entry : obj) (enhancedData : value) : obj :=
  Js.assign entry (Js.spread enhancedData).

(** [const updatedArray = [...fieldData]; updatedArray[index] =
    updatedEntry] *)
Definition updatedArray (fieldData : list value) (i : Z) (e : obj)
    : list value :=
  Js.set_index fieldData i (VObj e).

(** The entry branch from the read of [fieldData[index]] on. *)
Definition enhanceEntry (E : Env) (req : enhance_body) (i : Z)
    (fieldData : list value) (entry : value) : M response :=
  let key := Js.to_string (field req) in
  match Prompt.for_entry (field req) entry with
  | None => ret entry_unsupported
  | Some built =>
      let* prompt := lift built in
      (* Call Gemini AI *)
      let* text := lift (generateContent E prompt) in
      (* Parse the response *)
      match JSON_parse E text with
      | None =>
          do console "Failed to parse AI response" then ret parse_failure
      | Some enhancedData =>
          (* Update the specific entry *)
          let* plain := lift (toObject entry) in
          let array := updatedArray fieldData i (updatedEntry plain enhancedData) in
          (* Save the enhanced resume *)
          let* savedResume :=
            Resume.findByIdAndUpdate E (resumeId req) [(key, VArr array)]
              false in
          let* savedField := lift (Js.get (saved_value savedResume) key) in
          let* data := lift (at_index savedField i) in
          json 200 [("success", VBool true);
                    ("message", VStr ("Enhanced " ++ key ++ " entry successfully"));
                    ("data", data);
                    ("enhancedField", field req);
                    ("enhancedIndex", VNum i)]
      end
  end.

(** [enhancedText.split(',').map(skill => skill.trim())] *)
Definition parse_skills (enhancedText : string) : list string :=
  map Js.trim (Js.split_comma enhancedText).

(** The same step in the other resume controller of the repository, in
    its [getAIEnhancement]: [enhancedContent.split(',').map(skill =>
    skill.trim()).filter(skill => skill.length > 0)]. *)
Definition getAIEnhancement_skills (enhancedContent : string) : list string :=
  filter (fun skill => (0 < String.length skill)%nat)
    (map Js.trim (Js.split_comma enhancedContent)).

(** The whole-field branch. *)
Definition enhanceWhole (E : Env) (req : enhance_body) (resume : obj)
    : M response :=
  let key := Js.to_string (field req) in
  match Prompt.for_field (field req) resume with
  | None => ret field_unsupported
  | Some built =>
      let* prompt := lift built in
      (* Call Gemini AI *)
      let* enhancedText := lift (generateContent E prompt) in
      (* Update the resume *)
      let update :=
        if Prompt.case_of (field req) "skills"
        then VArr (map VStr (parse_skills enhancedText))
        else VStr enhancedText in
      let* savedResume :=
        Resume.findByIdAndUpdate E (resumeId req) [(key, update)] false in
      let* data := lift (Js.get (saved_value savedResume) key) in
      json 200 [("success", VBool true);
                ("message", VStr ("Enhanced " ++ key ++ " successfully"));
                ("data", data)]
  end.

(** The [catch] block of the handler names [field], which the [try]
    block declared and which is out of scope there: evaluating the
    template of its first statement throws a [ReferenceError], so whatever
    the [try] block throws ends as a rejection and no response is sent. *)
Definition out_of_scope (error : exn) : M response :=
  throw (ReferenceError "field is not defined").

Definition enhanceField (E : Env) (req : enhance_body) : M response :=
  try_catch
    (if negb (Js.truthy (resumeId req)) then
       json 400 [("success", VBool false);
                 ("message", VStr "Resume ID is required")]
     else if negb (Js.truthy (field req)) then
       json 400 [("success", VBool false);
                 ("message", VStr "Field to enhance is required")]
     else
       (* Get the current resume *)
       let* found := Resume.findById (resumeId req) in
       match found with
       | None =>
           json 404 [("success", VBool false);
                     ("message", VStr "Resume not found")]
       | Some resume =>
           let fieldData :=
             default VUndef (Js.lookup resume (Js.to_string (field req))) in
           match index req, fieldData with
           | Some i, VArr entries =>
               (* Enhance specific entry in an array field *)
               if i >=? Z.of_nat (length entries) then ret invalid_index
               else enhanceEntry E req i entries (Js.get_index entries i)
           | _, _ =>
               (* Enhance the entire field (original functionality) *)
               enhanceWhole E req resume
           end
       end)
    out_of_scope.


(** ** A reader for JSON texts

    A recursive-descent reader of the JSON grammar into [value], used as
    the [JSON.parse] of the concrete environments below. Numbers with a
    fraction or an exponent and escapes beyond one byte have no [value]
    and are refused. *)

Module Reader.

Definition is_digit (c : ascii) : bool :=
  let n := nat_of_ascii c in ((48 <=? n)%nat && (n <=? 57)%nat).

(** JSON white space: space, tab, line feed, carriage return. *)
Definition is_ws (c : ascii) : bool :=
  let n := nat_of_ascii c in
  (n =? 32)%nat || (n =? 9)%nat || (n =? 10)%nat || (n =? 13)%nat.

Fixpoint skip_ws (s : list ascii) : list ascii :=
  match s with
  | c :: r => if is_ws c then skip_ws r else s
  | [] => []
  end.

Fixpoint digits (s : list ascii) (acc : Z) : Z * list ascii :=
  match s with
  | c :: r =>
      if is_digit c
      then digits r (10 * acc + Z.of_nat (nat_of_ascii c - 48))
      else (acc, s)
  | [] => (acc, [])
  end.

Definition ends_number (r : list ascii) : bool :=
  match r with
  | c :: _ => negb (Ascii.eqb c "."%char || Ascii.eqb c "e"%char
                    || Ascii.eqb c "E"%char)
  | [] => true
  end.

(** An integer: an optional minus sign, then 0 or digits that do not
    start with 0. *)
Definition number (s : list ascii) : option (Z * list ascii) :=
  let '(neg, s1) :=
    match s with
    | c :: r => if Ascii.eqb c "-"%char then (true, r) else (false, s)
    | [] => (false, s)
    end in
  match s1 with
  | c :: r =>
      if Ascii.eqb c "0"%char then
        match r with
        | c' :: _ => if is_digit c' then None
                     else if ends_number r then Some (0, r) else None
        | [] => Some (0, r)
        end
      else if is_digit c then
        let '(n, r') := digits s1 0 in
        if ends_number r' then Some (if neg then - n else n, r') else None
      else None
  | [] => None
  end.

Definition hex_value (c : ascii) : option nat :=
  let n := nat_of_ascii c in
  if is_digit c then Some (n - 48)%nat
  else if (97 <=? n)%nat && (n <=? 102)%nat then Some (n - 87)%nat
  else if (65 <=? n)%nat && (n <=? 70)%nat then Some (n - 55)%nat
  else None.

(** The characters of a string literal after its opening quote. *)
Fixpoint chars (s : list ascii) : option (string * list ascii) :=
  match s with
  | [] => None
  | c :: r =>
      let n := nat_of_ascii c in
      if (n =? 34)%nat then Some (EmptyString, r)
      else if (n <? 32)%nat then None
      else if (n =? 92)%nat then
        match r with
        | e :: r' =>
            let plain (a : nat) :=
              match chars r' with
              | Some (t, rest) => Some (String (ascii_of_nat a) t, rest)
              | None => None
              end in
            let m := nat_of_ascii e in
            if (m =? 34)%nat then plain 34%nat
            else if (m =? 92)%nat then plain 92%nat
            else if (m =? 47)%nat then plain 47%nat
            else if (m =? 98)%nat then plain 8%nat
            else if (m =? 102)%nat then plain 12%nat
            else if (m =? 110)%nat then plain 10%nat
            else if (m =? 114)%nat then plain 13%nat
            else if (m =? 116)%nat then plain 9%nat
            else if (m =? 117)%nat then
              match r' with
              | h1 :: h2 :: h3 :: h4 :: r'' =>
                  match hex_value h1, hex_value h2, hex_value h3,
                        hex_value h4, chars r'' with
                  | Some 0%nat, Some 0%nat, Some a, Some b, Some (t, rest) =>
                      Some (String (ascii_of_nat (16 * a + b)) t, rest)
                  | _, _, _, _, _ => None
                  end
              | _ => None
              end
            else None
        | [] => None
        end
      else
        match chars r with
        | Some (t, rest) => Some (String c t, rest)
        | None => None
        end
  end.

Definition literal (word : string) (v : value) (s : list ascii)
    : option (value * list ascii) :=
  let w := list_ascii_of_string word in
  if bool_decide (take (length w) s = w) then Some (v, drop (length w) s)
  else None.

Fixpoint element (fuel : nat) (s : list ascii) : option (value * list ascii) :=
  match fuel with
  | O => None
  | S fuel' =>
      match skip_ws s with
      | c :: r =>
          let n := nat_of_ascii c in
          if (n =? 123)%nat then
            match skip_ws r with
            | c' :: r' =>
                if (nat_of_ascii c' =? 125)%nat then Some (VObj [], skip_ws r')
                else members fuel' r []
            | [] => None
            end
          else if (n =? 91)%nat then
            match skip_ws r with
            | c' :: r' =>
                if (nat_of_ascii c' =? 93)%nat then Some (VArr [], skip_ws r')
                else elements fuel' r []
            | [] => None
            end
          else if (n =? 34)%nat then
            match chars r with
            | Some (t, rest) => Some (VStr t, skip_ws rest)
            | None => None
            end
          else if (n =? 116)%nat then
            option_map (fun p => (fst p, skip_ws (snd p)))
              (literal "true" (VBool true) (c :: r))
          else if (n =? 102)%nat then
            option_map (fun p => (fst p, skip_ws (snd p)))
              (literal "false" (VBool false) (c :: r))
          else if (n =? 110)%nat then
            option_map (fun p => (fst p, skip_ws (snd p)))
              (literal "null" VNull (c :: r))
          else
            match number (c :: r) with
            | Some (z, rest) => Some (VNum z, skip_ws rest)
            | None => None
            end
      | [] => None
      end
  end
with elements (fuel : nat) (s : list ascii) (acc : list value)
    : option (value * list ascii) :=
  match fuel with
  | O => None
  | S fuel' =>
      match element fuel' s with
      | Some (v, c :: r) =>
          if (nat_of_ascii c =? 44)%nat then elements fuel' r (acc ++ [v])
          else if (nat_of_ascii c =? 93)%nat
               then Some (VArr (acc ++ [v]), skip_ws r)
               else None
      | _ => None
      end
  end
with members (fuel : nat) (s : list ascii) (acc : obj)
    : option (value * list ascii) :=
  match fuel with
  | O => None
  | S fuel' =>
      match skip_ws s with
      | q :: r =>
          if (nat_of_ascii q =? 34)%nat then
            match chars r with
            | Some (k, rest) =>
                match skip_ws rest with
                | colon :: r' =>
                    if (nat_of_ascii colon =? 58)%nat then
                      match element fuel' r' with
                      | Some (v, c :: r'') =>
                          if (nat_of_ascii c =? 44)%nat
                          then members fuel' r'' (Js.set acc k v)
                          else if (nat_of_ascii c =? 125)%nat
                               then Some (VObj (Js.set acc k v), skip_ws r'')
                               else None
                      | _ => None
                      end
                    else None
                | [] => None
                end
            | None => None
            end
          else None
      | [] => None
      end
  end.

(** The whole text must be one JSON value. *)
Definition parse (text : string) : option value :=
  let s := list_ascii_of_string text in
  match element (S (length s)) s with
  | Some (v, []) => Some v
  | _ => None
  end.

End Reader.

(** ** The schema of Temp2Model.js, as validation rules

    The rules the schema declares, for documents whose leaves are strings:
    required paths, length bounds, the patterns of [phone] and [email], and
    the non-empty arrays with their required sub-fields. They instantiate
    [schema_errors] and [update_errors] in the concrete environments. *)

Module Schema.

(** [\d]: a decimal digit of ASCII. *)
Definition is_digit (c : string) : bool :=
  match c with
  | String a EmptyString => Reader.is_digit a
  | _ => false
  end.

(** [/^[\d\s\+\-\(\)]+$/] *)
Definition phone_re : Regex.re :=
  Regex.Plus
    (Regex.Cls (fun c => is_digit c || Js.is_space c
                         || existsb (String.eqb c) ["+"; "-"; "("; ")"])).

Definition required (path : string) (v : option value) : list string :=
  match v with
  | Some (VStr s) =>
      if String.eqb (Js.trim s) EmptyString
      then ["Path `" ++ path ++ "` is required."] else []
  | _ => ["Path `" ++ path ++ "` is required."]
  end.

Definition maxlength (path : string) (n : nat) (v : option value)
    : list string :=
  match v with
  | Some (VStr s) =>
      if (n <? Js.units (Js.trim s))%nat
      then ["Path `" ++ path ++ "` is longer than the maximum allowed length."]
      else []
  | _ => []
  end.

Definition pattern (r : Regex.re) (msg : string) (v : option value)
    : list string :=
  match v with
  | Some (VStr s) => if Regex.test r (Js.trim s) then [] else [msg]
  | _ => []
  end.

(** An array of sub-documents: at least one entry, and in each entry the
    required sub-fields. *)
Definition entries (path : string) (keys : list string) (msg : string)
    (v : option value) : list string :=
  match v with
  | Some (VArr []) => [msg]
  | Some (VArr l) =>
      flat_map (fun e =>
                  flat_map (fun k =>
                              required (path ++ "." ++ k)
                                (Js.lookup (Js.spread e) k)) keys) l
  | _ => ["Path `" ++ path ++ "` is required."]
  end.

Definition strings (path : string) (msg : string) (v : option value)
    : list string :=
  match v with
  | Some (VArr []) => [msg]
  | Some (VArr _) => []
  | _ => ["Path `" ++ path ++ "` is required."]
  end.

(** The paths of [resumeSchema], each with its rules. *)
Definition paths : list (string * (option value -> list string)) :=
  [("name", fun v => required "name" v ++ maxlength "name" 100 v);
   ("role", fun v => required "role" v ++ maxlength "role" 100 v);
   ("phone", fun v =>
      required "phone" v
      ++ pattern phone_re "Phone number contains invalid characters" v);
   ("email", fun v =>
      required "email" v
      ++ pattern Regex.email_re "Please enter a valid email address" v);
   ("linkedin", required "linkedin");
   ("location", fun v => required "location" v ++ maxlength "location" 100 v);
   ("summary", fun v => required "summary" v ++ maxlength "summary" 1000 v);
   ("experience",
    entries "experience"
      ["title"; "companyName"; "date"; "companyLocation"; "description";
       "accomplishment"]
      "At least one experience entry is required");
   ("education",
    entries "education" ["degree"; "institution"; "duration"; "grade"]
      "At least one education entry is required");
   ("achievements",
    entries "achievements" ["keyAchievements"; "describe"]
      "At least one achievement entry is required");
   ("courses",
    entries "courses" ["title"; "description"]
      "At least one course entry is required");
   ("skills", strings "skills" "At least one skill is required");
   ("projects",
    entries "projects" ["title"; "duration"; "description"]
      "At least one project entry is required")]%list.

(** Validation of a whole document, as [save()] runs it. *)
Definition validate (doc : obj) : list string :=
  flat_map (fun p => snd p (Js.lookup doc (fst p))) paths.

(** Update validators: the rules of the paths the update sets. *)
Definition validate_update (fields : obj) : list string :=
  flat_map (fun p => match Js.lookup fields (fst p) with
                     | Some v => snd p (Some v)
                     | None => []
                     end) paths.

End Schema.

(** ** Vocabulary of the properties *)

(** The world with one more line on the console. *)
Definition add_console (w : world) (line : string) : world :=
  {| w_db := w_db w; w_console := w_console w ++ [line];
     changeTrackers := changeTrackers w; w_timer := w_timer w;
     w_now := w_now w |}.

(** [w'] differs from [w] in the database and the console at most. *)
Definition same_session (w w' : world) : Prop :=
  changeTrackers w' = changeTrackers w
  /\ w_timer w' = w_timer w
  /\ w_now w' = w_now w.

(** The write that [saveResumeData] makes of [resumeData]: an update that
    sets its fields, as the schema casts them, and the time of the
    update, or the insert of the document built from them. The
    [lastSavedAt] and the [createdBy] that the controller adds are no
    paths of the schema, so the cast leaves them out. *)
Definition write_of (E : Env) (resumeData : value) (wr : write) : Prop :=
  match wr with
  | WUpdate _ fields =>
      exists now sent,
        Cast.fields E
          (Js.assign (Js.spread resumeData) [("lastSavedAt", VNum now)])
        = Ok sent
        /\ fields = Cast.update sent now
  | WInsert doc =>
      exists userId now sent cleaned id,
        Cast.fields E
          (Js.assign (Js.spread resumeData)
             [("createdBy", uid_value userId); ("lastSavedAt", VNum now)])
        = Ok sent
        /\ Resume.pre_save sent = Ok cleaned
        /\ doc = Cast.insert cleaned id now
  end.

(** The data the tracker of [userId] compares an edit with, once
    [resumeData] has been notified in [w]. *)
Definition tracked_data (w : world) (userId : option string)
    (resumeData : value) : value :=
  match changeTrackers w !! userId with
  | Some t => lastData t
  | None => resumeData
  end.

(** The tracker after an edit notification of a user who was tracked. *)
Definition marked (t : tracker) : tracker :=
  {| lastData := lastData t; pendingSave := true;
     lastSavedAt := lastSavedAt t |}.

(** The tracker after a successful autosave of [resumeData] at [now]. *)
Definition settled (resumeData : value) (now : Z) : tracker :=
  {| lastData := resumeData; pendingSave := false; lastSavedAt := VNum now |}.

(** The world with another entry for [userId] in [changeTrackers]. *)
Definition with_tracker (w : world) (userId : option string) (t : tracker)
    : world :=
  {| w_db := w_db w; w_console := w_console w;
     changeTrackers := <[userId := t]> (changeTrackers w);
     w_timer := w_timer w; w_now := w_now w |}.

(** The console line that announces an autosave. *)
Definition announce (userId : option string) : string :=
  "Auto-saving resume for user " ++ Js.to_string (uid_value userId).

(** The tracker of [userId] after a first notification of [resumeData]. *)
Definition first_track (w : world) (userId : option string)
    (resumeData : value) : tracker :=
  match changeTrackers w !! userId with
  | None => {| lastData := resumeData; pendingSave := false;
               lastSavedAt := VNull |}
  | Some t => marked t
  end.

(** The world in which the pending call runs after two edits of the user
    [userId], of [first] and then at the time [t2]: the tracker is
    pending, no call is left and the clock is at the due time. *)
Definition at_flush (w : world) (userId : option string) (first : value)
    (t2 : Z) : world :=
  {| w_db := w_db w; w_console := w_console w;
     changeTrackers :=
       <[userId := marked (first_track w userId first)]> (changeTrackers w);
     w_timer := None; w_now := t2 + AUTO_SAVE_DEBOUNCE |}.

(** ** Concrete environments, documents and worlds *)

Module Sample.

(** The lowering of the letters of ASCII, which is what [toLowerCase]
    does to a string of ASCII characters. *)
Definition lower_char (c : ascii) : ascii :=
  let n := nat_of_ascii c in
  if (65 <=? n)%nat && (n <=? 90)%nat then ascii_of_nat (n + 32) else c.

Fixpoint lower (s : string) : string :=
  match s with
  | EmptyString => EmptyString
  | String c s' => String (lower_char c) (lower s')
  end.

(** Node with the reader above as [JSON.parse], the schema above, and a
    generation model that answers [reply] to every prompt. *)
Definition node (reply : result string) : Env :=
  {| JSON_parse := Reader.parse;
     toLowerCase := lower;
     generateContent := fun _ => reply;
     schema_errors := Schema.validate;
     update_errors := Schema.validate_update;
     development := false |}.

Definition job (title description : string) : value :=
  VObj [("title", VStr title); ("companyName", VStr "Acme");
        ("date", VStr "2020-2022"); ("companyLocation", VStr "Pune");
        ("description", VStr description);
        ("accomplishment", VStr "Shipped it")].

Definition jobs : list value :=
  [job "Developer" "Wrote code"; job "Lead" "Led a team"].

(** The fields a client sends for a resume. *)
Definition fields (name email : string) (skills : list string) : obj :=
  [("name", VStr name); ("role", VStr "Engineer"); ("phone", VStr "+91 98765");
   ("email", VStr email); ("linkedin", VStr "in/asha");
   ("location", VStr "Pune"); ("summary", VStr "Builds things.");
   ("experience", VArr jobs);
   ("education",
    VArr [VObj [("degree", VStr "BSc"); ("institution", VStr "IIT");
                ("duration", VStr "2016-2020"); ("grade", VStr "A")]]);
   ("achievements",
    VArr [VObj [("keyAchievements", VStr "Award"); ("describe", VStr "Won")]]);
   ("courses",
    VArr [VObj [("title", VStr "Rocq"); ("description", VStr "Proofs")]]);
   ("skills", VArr (map VStr skills));
   ("projects",
    VArr [VObj [("title", VStr "Site"); ("duration", VStr "1y");
                ("description", VStr "A site")]])].

(** A resume as it was stored at time 0. *)
Definition asha : obj :=
  Cast.insert (fields "Asha" "asha@example.com" ["Go"; "Rust"]) "r0" 0.

Definition database : db :=
  {| db_docs := [asha]; db_next := 1; db_up := true; db_writes := [] |}.

Definition fresh : world :=
  {| w_db := database; w_console := []; changeTrackers := ∅;
     w_timer := None; w_now := 0 |}.

(** A reply of the model to the prompt for an experience entry. *)
Definition good_reply : string :=
  "{" ++ Json.dq ++ "description" ++ Json.dq ++ ":" ++ Json.dq ++ "Led X"
  ++ Json.dq ++ "," ++ Json.dq ++ "accomplishment" ++ Json.dq ++ ":"
  ++ Json.dq ++ "Cut cost 20%" ++ Json.dq ++ "}".

Definition bad_reply : string := "Sure! Here is the enhanced entry.".

(** A reply with a description in blanks and a key that no entry of
    [experience] has. *)
Definition messy_reply : string :=
  "{" ++ Json.dq ++ "description" ++ Json.dq ++ ":" ++ Json.dq ++ " Led X "
  ++ Json.dq ++ "," ++ Json.dq ++ "note" ++ Json.dq ++ ":"
  ++ Json.dq ++ "n" ++ Json.dq ++ "}".

(** The same world a minute later. *)
Definition later : world :=
  {| w_db := database; w_console := []; changeTrackers := ∅;
     w_timer := None; w_now := 60000 |}.

(** The stored resume as a client edits it, twice. *)
Definition draft : value := VObj (Js.set asha "summary" (VStr "Draft")).

Definition redraft : value :=
  VObj (Js.set asha "summary" (VStr "Second draft")).

(** The tracker of an idle user who loaded the stored resume. *)
Definition loaded : tracker :=
  {| lastData := VObj asha; pendingSave := false; lastSavedAt := VNull |}.

(** The same world once the user ["u1"] is tracked and idle. *)
Definition idle : world :=
  {| w_db := database; w_console := [];
     changeTrackers := {[ Some "u1" := loaded ]};
     w_timer := None; w_now := 0 |}.

(** The same world with the database out of reach. *)
Definition offline : world :=
  {| w_db := {| db_docs := [asha]; db_next := 1; db_up := false;
                db_writes := [] |};
     w_console := [];
     changeTrackers := {[ Some "u1" := marked loaded ]};
     w_timer := None; w_now := 0 |}.

(** The stored resume sent back with a blank skill and an untrimmed one. *)
Definition blank_skills : value :=
  VObj (Js.set (fields "Asha" "asha@example.com" ["Go"; "  "; " Rust "])
          "_id" (VStr "r0")).

(** A new resume with a blank skill and an untrimmed one. *)
Definition newcomer : value :=
  VObj (fields "Bo" "bo@example.com" ["Go"; "  "; " Rust "]).

(** A create request for the address of the stored resume, without a
    name. *)
Definition nameless : value :=
  VObj (fields EmptyString "asha@example.com" ["Go"]).

(** A create request for the address of the stored resume, in another
    case. *)
Definition namesake : value :=
  VObj (fields "Asha B" "ASHA@Example.com" ["Java"]).

Definition entry_request (name : string) (i : Z) : enhance_body :=
  {| resumeId := VStr "r0"; field := VStr name; index := Some i |}.

Definition field_request (name : string) : enhance_body :=
  {| resumeId := VStr "r0"; field := VStr name; index := None |}.

End Sample.

(** * The rest of the controller and the helper

    What follows embeds what the definitions above leave out: the handler
    [generatePdf] of the controller and the helper [getAIEnhancement] of
    the other resume controller of the repository, with the vocabulary of
    the properties stated about them and about the handlers above. *)

(** ** The language of a regular expression *)

Module Lang.

(** [matches r s]: the word [s], a list of characters, is in the language
    of [r]. *)
Inductive matches : Regex.re -> list string -> Prop :=
| MEps : matches Regex.Eps []
| MCls p c : p c = true -> matches (Regex.Cls p) [c]
| MCat r1 r2 s1 s2 :
    matches r1 s1 -> matches r2 s2 -> matches (Regex.Cat r1 r2) (s1 ++ s2)
| MAltL r1 r2 s : matches r1 s -> matches (Regex.Alt r1 r2) s
| MAltR r1 r2 s : matches r2 s -> matches (Regex.Alt r1 r2) s
| MStarNil r : matches (Regex.Star r) []
| MStarApp r s1 s2 :
    matches r s1 -> matches (Regex.Star r) s2 ->
    matches (Regex.Star r) (s1 ++ s2).

(** A character that [[^\s@]] accepts. *)
Definition plain (c : string) : Prop :=
  Js.is_space c = false /\ c <> "@".

(** A character that the pattern of [phone] accepts. *)
Definition dial (c : string) : Prop :=
  c ∈ ["0"; "1"; "2"; "3"; "4"; "5"; "6"; "7"; "8"; "9"]
  \/ Js.is_space c = true
  \/ c ∈ ["+"; "-"; "("; ")"].

End Lang.

(** ** temp2controller.js: generatePdf *)

(** What a handler sends: a JSON answer, or a body with its headers. *)
Inductive reply :=
| Json (r : response)
| Sent (headers : obj) (content : string).

(** The page handed to the browser. *)
Definition htmlContent (resumeData : value) : result string :=
  let? name := Js.get resumeData "name" in
  let? summary := Js.get resumeData "summary" in
  Ok (Prompt.lines
        [EmptyString;
         "      <html>";
         "        <head>";
         "          <style>";
         "            body { font-family: Arial, sans-serif; line-height: 1.6; padding: 20px; }";
         "            h1 { color: #333; }";
         "            .section { margin-bottom: 20px; }";
         "          </style>";
         "        </head>";
         "        <body>";
         "          <h1>" ++ Prompt.show name "Resume" ++ "</h1>";
         "          <div class=" ++ Json.dq ++ "section" ++ Json.dq ++ ">";
         "            <h2>Summary</h2>";
         "            <p>" ++ Prompt.show summary "No summary provided"
           ++ "</p>";
         "          </div>";
         "          <!-- Add more sections as needed -->";
         "        </body>";
         "      </html>";
         "    "]).

(** The handler. [print] stands for the browser: launch, new page,
    [setContent], [pdf] and close; it gives the bytes or throws. *)
Definition generatePdf (E : Env) (print : string -> result string)
    (resumeData : value) : M reply :=
  try_catch
    (if negb (Js.truthy resumeData) then
       ret (Json {| status := 400;
                    body := [("success", VBool false);
                             ("message", VStr "Resume data is required")] |})
     else
       let* html := lift (htmlContent resumeData) in
       let* pdfBuffer := lift (print html) in
       ret (Sent [("Content-Type", VStr "application/pdf");
                  ("Content-Disposition",
                   VStr "attachment; filename=resume.pdf")]
              pdfBuffer))
    (fun error =>
       do console ("Error generating PDF: " ++ message error) then
       ret (Json {| status := 500;
                    body := [("success", VBool false);
                             ("message", VStr "Failed to generate PDF");
                             ("error", error_detail E error)] |})).

(** ** The other resume controller: getAIEnhancement *)

Module Helper.

(** [Array.isArray(content) ? content.join(', ') : content], in a
    template. *)
Definition listed (content : value) : string :=
  match content with
  | VArr l => Js.join_values ", " l
  | _ => Js.to_string content
  end.

(** [JSON.stringify(content)], in a template. *)
Definition printed (content : value) : string :=
  default "undefined" (Json.stringify content).

(** The [switch] that builds the prompt. *)
Definition prompt (content field role : value) : string :=
  let r := Js.to_string role in
  if Prompt.case_of field "summary" then
    "Enhance this professional summary for a " ++ r
    ++ " role. Make it more compelling and ATS-friendly while keeping it concise (2-3 lines): "
    ++ Json.dq ++ Js.to_string content ++ Json.dq
  else if Prompt.case_of field "skills" then
    "Enhance this skills list for a " ++ r
    ++ " role. Add relevant technical and soft skills, organize them better: "
    ++ Json.dq ++ listed content ++ Json.dq
  else if Prompt.case_of field "experience" then
    "Enhance these work experiences for a " ++ r
    ++ " role. Improve descriptions with action verbs and quantified achievements: "
    ++ printed content
  else if Prompt.case_of field "achievements" then
    "Enhance these achievements for a " ++ r
    ++ " role. Make them more impactful with specific metrics and results: "
    ++ printed content
  else if Prompt.case_of field "courses" then
    "Enhance these courses for a " ++ r
    ++ " role. Add relevant courses and improve descriptions: "
    ++ printed content
  else if Prompt.case_of field "projects" then
    "Enhance these projects for a " ++ r
    ++ " role. Improve descriptions with technologies used and outcomes: "
    ++ printed content
  else
    "Enhance this " ++ Js.to_string field ++ " content for a " ++ r
    ++ " role: " ++ Json.dq ++ Js.to_string content ++ Json.dq.

(** [['experience', 'achievements', 'courses', 'projects'].includes(field)] *)
Definition structured (field : value) : bool :=
  Prompt.case_of field "experience" || Prompt.case_of field "achievements"
  || Prompt.case_of field "courses" || Prompt.case_of field "projects".

(** [getAIEnhancement(content, field, role)]; [apiKey] tells whether
    [process.env.GEMINI_API_KEY] is set. *)
Definition getAIEnhancement (E : Env) (apiKey : bool)
    (content field role : value) : M value :=
  try_catch
    (if negb apiKey then throw (JsError "AI API key not configured")
     else
       let* enhancedContent :=
         lift (generateContent E (prompt content field role)) in
       (* Parse response based on field type *)
       if Prompt.case_of field "skills" then
         ret (VArr (map VStr (getAIEnhancement_skills enhancedContent)))
       else if structured field then
         match JSON_parse E enhancedContent with
         | Some parsed => ret parsed
         | None => ret content
         end
       else ret (VStr (Js.trim enhancedContent)))
    (fun error =>
       do console ("AI Enhancement Error: " ++ message error) then
       ret content).

End Helper.

(** ** Vocabulary of the further properties *)

Module Text.

(** A string that neither starts nor ends with a character of white
    space. *)
Definition trimmed (s : string) : Prop :=
  match Js.points s with
  | [] => True
  | c :: _ => Js.is_space c = false
  end
  /\ match rev (Js.points s) with
     | [] => True
     | c :: _ => Js.is_space c = false
     end.

(** The number of commas of a text. *)
Definition commas (s : string) : nat :=
  length (filter (fun c => c = ","%char) (list_ascii_of_string s)).

(** A text without a comma. *)
Definition comma_free (s : string) : Prop :=
  ","%char ∉ list_ascii_of_string s.

(** Bytes that all continue a character. *)
Fixpoint conts (s : string) : bool :=
  match s with
  | EmptyString => true
  | String a r => Js.is_cont a && conts r
  end.

(** One character: a byte and the bytes that continue it. *)
Definition scalar (c : string) : bool :=
  match c with
  | EmptyString => false
  | String _ r => conts r
  end.

(** A character that starts with a byte of its own. *)
Definition fresh (c : string) : bool :=
  match c with
  | EmptyString => false
  | String a _ => negb (Js.is_cont a)
  end.

(** A list of characters as [Js.points] cuts them: only the first may
    start with a byte that continues a character. *)
Definition word (l : list string) : Prop :=
  Forall (fun c => scalar c = true) l
  /\ Forall (fun c => fresh c = true) (tail l).

End Text.

(** An object as JavaScript has it: no key twice. *)
Definition well_formed (o : obj) : Prop := NoDup (map fst o).

(** The fields that [saveResumeData] sets on an update at time [now]. *)
Definition update_of (o : obj) (now : Z) : obj :=
  Js.assign o [("lastSavedAt", VNum now)].

(** The value at the key [k] of the stored document [old] once it is
    updated with [fields]: the value of [fields] as the schema casts it,
    where the schema has the path and [fields] the key, and the value of
    [old] elsewhere. *)
Definition merged (E : Env) (fields old : obj) (k : string) : option value :=
  match Cast.path E k, Js.lookup fields k with
  | Some cast, Some v =>
      match cast v with
      | Ok VUndef | Throw _ => Js.lookup old k
      | Ok c => Some c
      end
  | _, _ => Js.lookup old k
  end.

(** The answers of [saveResume] and [loadResume] that the properties
    below name. *)
Definition save_failed (E : Env) (error : exn) : response :=
  {| status := 500;
     body := [("success", VBool false);
              ("message", VStr "Failed to save resume");
              ("error", error_detail E error)] |}.

Definition create_failed (E : Env) (error : exn) : response :=
  {| status := 500;
     body := [("success", VBool false);
              ("message", VStr "Failed to create resume");
              ("error", error_detail E error)] |}.

Definition loaded_ok (resume : obj) : response :=
  {| status := 200;
     body := [("success", VBool true);
              ("message", VStr "Resume loaded successfully");
              ("data", VObj resume);
              ("resumeId",
               VStr (Js.to_string (default VUndef (Js.lookup resume "_id"))));
              ("canEnhance", VBool true);
              ("isSaved", VBool true);
              ("autoSaveEnabled", VBool true);
              ("lastSavedAt",
               default VUndef (Js.lookup resume "lastSavedAt"))] |}.

(** The database after the update of the document [id]. *)
Definition db_updated (d : db) (id : string) (fields new : obj) : db :=
  {| db_docs := Resume.replace id new (db_docs d);
     db_next := db_next d; db_up := db_up d;
     db_writes := db_writes d ++ [WUpdate id fields] |}.

(** The database after the insert of [doc]. *)
Definition db_inserted (d : db) (doc : obj) : db :=
  {| db_docs := db_docs d ++ [doc];
     db_next := S (db_next d); db_up := db_up d;
     db_writes := db_writes d ++ [WInsert doc] |}.

(** The world with another database. *)
Definition with_db (w : world) (d : db) : world :=
  {| w_db := d; w_console := w_console w;
     changeTrackers := changeTrackers w; w_timer := w_timer w;
     w_now := w_now w |}.

(** The line on the console after a save. *)
Definition saved_line (isAutoSave : bool) (d : obj) : string :=
  "Resume " ++ (if isAutoSave then "auto-saved" else "saved")
  ++ " successfully with ID: "
  ++ Js.to_string (default VUndef (Js.lookup d "_id")).

(** The world after a notification of [resumeData] for [userId]. *)
Definition tracked (w : world) (userId : option string) (resumeData : value)
    : world :=
  {| w_db := w_db w; w_console := w_console w;
     changeTrackers :=
       <[userId := first_track w userId resumeData]> (changeTrackers w);
     w_timer := Some {| due := w_now w + AUTO_SAVE_DEBOUNCE;
                        call_userId := userId;
                        call_resumeData := resumeData |};
     w_now := w_now w |}.

(** The document that [createResume] hands to [new Resume] for the
    request data [o] of the user [userId] at time [now]: the second
    [createdBy], the one of [saveResumeData], is the one that stays. *)
Definition created_data (o : obj) (userId : option string) (now : Z) : obj :=
  Js.assign (Js.assign o [("createdBy", uid_value userId)])
    [("createdBy", uid_value None); ("lastSavedAt", VNum now)].

(** The answer of [createResume] for the saved document [doc]. *)
Definition created_ok (doc : obj) : response :=
  {| status := 201;
     body := [("success", VBool true);
              ("message", VStr "Resume created successfully");
              ("data", VObj doc);
              ("resumeId", default VUndef (Js.lookup doc "_id"));
              ("autoSaveEnabled", VBool true)] |}.


(** An enhancement request without its index. *)
Definition whole (req : enhance_body) : enhance_body :=
  {| resumeId := resumeId req; field := field req; index := None |}.

(** The answer of [enhanceField] for an entry. *)
Definition entry_enhanced (req : enhance_body) (i : Z) (data : value)
    : response :=
  {| status := 200;
     body := [("success", VBool true);
              ("message",
               VStr ("Enhanced " ++ Js.to_string (field req)
                     ++ " entry successfully"));
              ("data", data);
              ("enhancedField", field req);
              ("enhancedIndex", VNum i)] |}.

(** ** Further documents and worlds *)

Module Case.

(** Node with a generation model that answers nothing of use. *)
Definition node : Env := Sample.node (Ok EmptyString).

(** The fields of a new resume, with a blank skill and an untrimmed
    one. *)
Definition bo : obj :=
  Sample.fields "Bo" "bo@example.com" ["Go"; "  "; " Rust "].

(** The fields [o] as the schema casts them for this Node. *)
Definition cast (o : obj) : obj :=
  match Cast.fields node o with
  | Ok sent => sent
  | Throw _ => []
  end.

(** What the [save] middleware makes of them once they are cast. *)
Definition bo_cleaned : obj :=
  Js.set (cast (created_data bo (Some "u1") 0)) "skills"
    (VArr [VStr "Go"; VStr "Rust"]).

(** A resume whose name is a number. *)
Definition numbered : value := VObj (Js.set bo "name" (VNum 7)).

(** A resume whose phone number the schema refuses. *)
Definition chatty : obj := Js.set bo "phone" (VStr "call me").

(** The fields of a new resume under the id of the stored one. *)
Definition intruder : obj := Js.set bo "_id" (VStr "r0").

(** The stored resume under an id that no document has. *)
Definition stray : obj := Js.set Sample.asha "_id" (VStr "r9").

(** The stored resume as edited, and as edited into a state the
    controller refuses. *)
Definition draft : obj :=
  Js.set (Js.set Sample.asha "summary" (VStr " Draft "))
    "email" (VStr "ASHA@Example.com").

Definition unnamed : obj := Js.set Sample.asha "name" (VStr EmptyString).

(** The fields of the stored resume, sent without its id and with its
    address in another case. *)
Definition resent : obj := Sample.fields "Asha B" "ASHA@Example.com" ["Java"].

(** A resume whose skills are all blank. *)
Definition unskilled : obj := Sample.fields "Cy" "cy@example.com" ["  "; " "].

(** A world with two tracked users. *)
Definition shared : world :=
  {| w_db := Sample.database; w_console := [];
     changeTrackers :=
       {[ Some "u1" := Sample.loaded; Some "u2" := Sample.loaded ]};
     w_timer := None; w_now := 0 |}.

(** The world of the stored resume a minute later, the user ["u1"]
    tracked and idle. *)
Definition returning : world :=
  {| w_db := Sample.database; w_console := [];
     changeTrackers := {[ Some "u1" := Sample.loaded ]};
     w_timer := None; w_now := 60000 |}.

(** A browser that prints a page as it is. *)
Definition printer (html : string) : result string := Ok html.

End Case.

(** * Properties *)

(** ** Objects and arrays *)

Section Objects.

Implicit Types (o a b : obj) (k : string) (v : value).

Lemma lookup_set_eq o k v : Js.lookup (Js.set o k v) k = Some v.
Proof.
  induction o as [|[k' v'] o IH]; simpl.
  - by rewrite String.eqb_refl.
  - destruct (String.eqb_spec k' k) as [->|Hne]; simpl.
    + by rewrite String.eqb_refl.
    + by destruct (String.eqb_spec k' k).
Qed.

Lemma lookup_set_ne o k k' v :
  k <> k' -> Js.lookup (Js.set o k v) k' = Js.lookup o k'.
Proof.
  intros Hne. induction o as [|[k0 v0] o IH]; simpl.
  - by destruct (String.eqb_spec k k').
  - destruct (String.eqb_spec k0 k) as [->|Hk]; simpl.
    + by destruct (String.eqb_spec k k').
    + by rewrite IH.
Qed.

(** A spread leaves the keys it does not mention as they were. *)
Lemma lookup_assign_absent b : forall a k,
  Js.lookup b k = None -> Js.lookup (Js.assign a b) k = Js.lookup a k.
Proof.
  unfold Js.assign.
  induction b as [|[k' v'] b IH]; intros a k Hk; simpl in *; [done|].
  destruct (String.eqb_spec k' k) as [->|Hne]; [done|].
  rewrite IH by done. by apply lookup_set_ne.
Qed.

(** A key that the spread mentions takes the value of its last mention. *)
Lemma lookup_assign_present b : forall a k v,
  Js.lookup (rev b) k = Some v -> Js.lookup (Js.assign a b) k = Some v.
Proof.
  unfold Js.assign.
  induction b as [|[k' v'] b IH] using rev_ind; intros a k v Hk; [done|].
  rewrite rev_app_distr in Hk. simpl in Hk.
  rewrite fold_left_app. simpl.
  destruct (String.eqb_spec k' k) as [->|Hne].
  - injection Hk as <-. apply lookup_set_eq.
  - rewrite lookup_set_ne by done. by apply IH.
Qed.

Lemma get_index_lookup (l : list value) (i : Z) v :
  0 <= i -> l !! Z.to_nat i = Some v -> Js.get_index l i = v.
Proof.
  intros Hi Hl. unfold Js.get_index.
  destruct (Z.ltb_spec i 0); [lia|]. by rewrite Hl.
Qed.

Lemma get_index_negative (l : list value) (i : Z) :
  i < 0 -> Js.get_index l i = VUndef.
Proof. intros Hi. unfold Js.get_index. by destruct (Z.ltb_spec i 0); [|lia]. Qed.

Lemma set_index_in_range (l : list value) (i : Z) v :
  0 <= i < Z.of_nat (length l) -> Js.set_index l i v = <[Z.to_nat i := v]> l.
Proof.
  intros Hi. unfold Js.set_index.
  destruct (Z.ltb_spec i 0); [lia|].
  by destruct (Z.ltb_spec i (Z.of_nat (length l))); [|lia].
Qed.

End Objects.

(** ** Objects without a repeated key *)

Section WellFormed.

Local Open Scope list_scope.

Lemma lookup_None_keys (o : obj) k :
  Js.lookup o k = None <-> k ∉ map fst o.
Proof.
  induction o as [|[k' v'] o IH]; simpl.
  - split; [intros _; apply not_elem_of_nil|done].
  - rewrite not_elem_of_cons.
    destruct (String.eqb_spec k' k) as [->|Hne]; [by split; [|intros []]|].
    rewrite IH. split; [by split|by intros []].
Qed.

Lemma lookup_Some_elem (o : obj) k v :
  well_formed o -> (Js.lookup o k = Some v <-> (k, v) ∈ o).
Proof.
  unfold well_formed. induction o as [|[k' v'] o IH]; simpl; intros Hnd.
  - split; [done|]. intros H. by apply elem_of_nil in H.
  - apply NoDup_cons in Hnd as [Hk' Hnd]. rewrite elem_of_cons.
    destruct (String.eqb_spec k' k) as [->|Hne].
    + split; [intros [= ->]; by left|].
      intros [[= ->]|Hin]; [done|].
      destruct Hk'. apply list_elem_of_fmap. by exists (k, v).
    + rewrite (IH Hnd). split; [by right|]. by intros [[= ? ?]|].
Qed.

Lemma lookup_rev (o : obj) k :
  well_formed o -> Js.lookup (rev o) k = Js.lookup o k.
Proof.
  intros Hwf.
  assert (well_formed (rev o)) as Hwf'.
  { unfold well_formed in *. rewrite map_rev.
    by apply NoDup_ListNoDup, NoDup_rev, NoDup_ListNoDup. }
  destruct (Js.lookup o k) as [v|] eqn:Hk.
  - apply (lookup_Some_elem _ _ _ Hwf').
    rewrite list_elem_of_In, <- in_rev, <- list_elem_of_In.
    by apply (lookup_Some_elem _ _ _ Hwf).
  - apply lookup_None_keys.
    rewrite map_rev, list_elem_of_In, <- in_rev, <- list_elem_of_In.
    by apply lookup_None_keys.
Qed.

(** [{...a, ...b}]: the value of [b] where [b] has the key, that of [a]
    elsewhere. *)
Lemma lookup_assign a b k :
  well_formed b ->
  Js.lookup (Js.assign a b) k
  = match Js.lookup b k with
    | Some v => Some v
    | None => Js.lookup a k
    end.
Proof.
  intros Hwf. destruct (Js.lookup b k) as [v|] eqn:Hk.
  - apply lookup_assign_present. by rewrite lookup_rev.
  - by apply lookup_assign_absent.
Qed.

Lemma keys_set (o : obj) k v :
  Js.lookup o k = None -> map fst (Js.set o k v) = map fst o ++ [k].
Proof.
  induction o as [|[k' v'] o IH]; simpl; [done|].
  destruct (String.eqb_spec k' k); [done|]. intros H. simpl.
  by rewrite IH.
Qed.

Lemma keys_set_present (o : obj) k v v0 :
  Js.lookup o k = Some v0 -> map fst (Js.set o k v) = map fst o.
Proof.
  induction o as [|[k' v'] o IH]; simpl; [done|].
  destruct (String.eqb_spec k' k) as [->|]; [done|]. intros H. simpl.
  by rewrite IH.
Qed.

Lemma well_formed_set (o : obj) k v :
  well_formed o -> well_formed (Js.set o k v).
Proof.
  unfold well_formed. intros Hwf.
  destruct (Js.lookup o k) as [v0|] eqn:Hk.
  - by rewrite (keys_set_present _ _ _ _ Hk).
  - rewrite (keys_set _ _ _ Hk). apply NoDup_app. split; [done|].
    split; [|apply NoDup_singleton].
    intros x Hx Hin. apply list_elem_of_singleton in Hin as ->.
    by apply lookup_None_keys in Hk.
Qed.

End WellFormed.

Lemma well_formed_assign b : forall a,
  well_formed a -> well_formed (Js.assign a b).
Proof.
  unfold Js.assign. induction b as [|[k v] b IH]; intros a Ha; [done|].
  cbn [fold_left fst snd]. by apply IH, well_formed_set.
Qed.

(** ** The casting by the schema *)

Section Casting.

Local Open Scope list_scope.

Implicit Types (path : string -> option (value -> result value)).

(** Strict mode: a cast object has no key that the object had not. *)
Lemma props_keys path o c k :
  Cast.props path o = Ok c -> Js.lookup o k = None -> Js.lookup c k = None.
Proof.
  revert c. induction o as [|[k0 v0] o IH]; simpl; intros c Hc Hk.
  - by simplify_eq.
  - destruct (String.eqb_spec k0 k) as [->|Hne]; [done|].
    destruct (path k0) as [cast|]; [|by apply IH].
    destruct (cast v0) as [x|]; [|done].
    destruct (Cast.props path o) as [rest|]; [|done].
    specialize (IH rest eq_refl Hk).
    destruct x; simplify_eq; simpl; try done.
    all: by destruct (String.eqb_spec k0 k).
Qed.

Lemma props_well_formed path o c :
  well_formed o -> Cast.props path o = Ok c -> well_formed c.
Proof.
  unfold well_formed. revert c.
  induction o as [|[k0 v0] o IH]; simpl; intros c Hwf Hc.
  - simplify_eq. constructor.
  - apply NoDup_cons in Hwf as [Hk0 Hwf].
    destruct (path k0) as [cast|]; [|by apply IH].
    destruct (cast v0) as [x|]; [|done].
    destruct (Cast.props path o) as [rest|] eqn:Hrest; [|done].
    specialize (IH rest Hwf eq_refl).
    assert (k0 ∉ map fst rest) as Hfresh.
    { apply lookup_None_keys. eapply props_keys; [done|].
      by apply lookup_None_keys. }
    destruct x; simplify_eq; simpl; try done.
    all: by apply NoDup_cons.
Qed.

(** A key of a cast object holds the cast of the value it held. *)
Lemma props_lookup path o c k :
  well_formed o -> Cast.props path o = Ok c ->
  Js.lookup c k
  = match path k, Js.lookup o k with
    | Some cast, Some v =>
        match cast v with
        | Ok VUndef | Throw _ => None
        | Ok x => Some x
        end
    | _, _ => None
    end.
Proof.
  unfold well_formed. revert c.
  induction o as [|[k0 v0] o IH]; simpl; intros c Hwf Hc.
  - simplify_eq. by destruct (path k).
  - apply NoDup_cons in Hwf as [Hk0 Hwf].
    apply lookup_None_keys in Hk0.
    destruct (String.eqb_spec k0 k) as [->|Hne].
    + destruct (path k) as [cast|].
      * destruct (cast v0) as [x|]; [|done].
        destruct (Cast.props path o) as [rest|] eqn:Hrest; [|done].
        pose proof (props_keys _ _ _ _ Hrest Hk0) as Hnone.
        destruct x; simplify_eq; simpl; rewrite ?String.eqb_refl; done.
      * by eapply props_keys.
    + destruct (path k0) as [cast0|]; [|by apply IH].
      destruct (cast0 v0) as [x|]; [|done].
      destruct (Cast.props path o) as [rest|] eqn:Hrest; [|done].
      specialize (IH rest Hwf eq_refl).
      destruct x; simplify_eq; simpl; try done.
      all: by destruct (String.eqb_spec k0 k).
Qed.

(** An array that is cast entry by entry. *)
Lemma all_length cast l c : Cast.all cast l = Ok c -> length c = length l.
Proof.
  revert c. induction l as [|v l IH]; simpl; intros c Hc; [by simplify_eq|].
  destruct (cast v); [|done]. destruct (Cast.all cast l); [|done].
  simplify_eq. simpl. by rewrite (IH _ eq_refl).
Qed.

Lemma all_lookup cast l c j :
  Cast.all cast l = Ok c ->
  match l !! j with
  | Some v => exists x, cast v = Ok x /\ c !! j = Some x
  | None => c !! j = None
  end.
Proof.
  revert c j. induction l as [|v l IH]; simpl; intros c j Hc.
  - by simplify_eq.
  - destruct (cast v) as [x|] eqn:Hx; [|done].
    destruct (Cast.all cast l) as [rest|]; [|done]. simplify_eq.
    destruct j as [|j]; simpl; [by exists x|]. by apply IH.
Qed.

Lemma all_insert cast l c i x x' :
  Cast.all cast l = Ok c -> cast x = Ok x' ->
  Cast.all cast (<[i := x]> l) = Ok (<[i := x']> c).
Proof.
  revert c i. induction l as [|v l IH]; simpl; intros c i Hc Hx.
  - by simplify_eq.
  - destruct (cast v) as [y|] eqn:Hy; [|done].
    destruct (Cast.all cast l) as [rest|] eqn:Hrest; [|done]. simplify_eq.
    destruct i as [|i]; simpl.
    + by rewrite Hx, Hrest.
    + by rewrite Hy, (IH rest i eq_refl Hx).
Qed.

Lemma all_insert_fails cast l c i x e :
  Cast.all cast l = Ok c -> cast x = Throw e -> (i < length l)%nat ->
  Cast.all cast (<[i := x]> l) = Throw e.
Proof.
  revert c i. induction l as [|v l IH]; simpl; intros c i Hc Hx Hi; [lia|].
  destruct (cast v) as [y|] eqn:Hy; [|done].
  destruct (Cast.all cast l) as [rest|] eqn:Hrest; [|done]. simplify_eq.
  destruct i as [|i]; simpl.
  - by rewrite Hx.
  - rewrite Hy, (IH rest i eq_refl Hx); [done|lia].
Qed.

(** The paths of the schema that hold sub-documents. *)
Lemma path_array E F keys :
  (F, keys) ∈ Cast.arrays ->
  Cast.path E F = Some (Cast.many (Cast.entry E keys)).
Proof.
  unfold Cast.arrays. intros Hin.
  repeat (apply elem_of_cons in Hin as [Hin|Hin]; [by simplify_eq|]).
  by apply elem_of_nil in Hin.
Qed.

Lemma array_is_no_stamp F keys :
  (F, keys) ∈ Cast.arrays ->
  F <> "updatedAt" /\ F <> "email" /\ F <> "_id" /\ F <> EmptyString.
Proof.
  unfold Cast.arrays. intros Hin.
  repeat (apply elem_of_cons in Hin as [Hin|Hin]; [by simplify_eq|]).
  by apply elem_of_nil in Hin.
Qed.

(** The update of one array of sub-documents. *)
Lemma fields_array E F keys l c :
  (F, keys) ∈ Cast.arrays ->
  Cast.all (Cast.entry E keys) l = Ok c ->
  Cast.fields E [(F, VArr l)] = Ok [(F, VArr c)].
Proof.
  intros Hin Hc. unfold Cast.fields. cbn [Cast.props].
  rewrite (path_array E F keys Hin). cbn [Cast.many]. by rewrite Hc.
Qed.

(** The update of the skills and of the summary. *)
Lemma fields_skills E l :
  Cast.fields E [("skills", VArr (map VStr l))]
  = Ok [("skills", VArr (map VStr l))].
Proof.
  unfold Cast.fields. cbn.
  assert (Cast.all Cast.text (map VStr l) = Ok (map VStr l)) as ->; [|done].
  induction l as [|s l IH]; simpl; by rewrite ?IH.
Qed.

Lemma fields_summary E text :
  Cast.fields E [("summary", VStr text)]
  = Ok [("summary", VStr (Js.trim text))].
Proof. done. Qed.

End Casting.

(** ** The collection *)

Section Collection.

Implicit Types (d old new : obj) (docs : list obj) (id : string).

Lemma has_id_true id d :
  Resume.has_id id d = true <-> Js.lookup d "_id" = Some (VStr id).
Proof.
  unfold Resume.has_id, Resume.id_of.
  destruct (Js.lookup d "_id") as [[]|]; try (split; congruence).
  destruct (String.eqb_spec s id); split; congruence.
Qed.

Lemma has_id_unique id id' d :
  Resume.has_id id d = true -> id <> id' -> Resume.has_id id' d = false.
Proof.
  intros H Hne. apply has_id_true in H.
  destruct (Resume.has_id id' d) eqn:H'; [|done].
  apply has_id_true in H'. congruence.
Qed.

Lemma find_has_id id docs d :
  find (Resume.has_id id) docs = Some d -> Resume.has_id id d = true.
Proof. intros H. by apply find_some in H as [_ ?]. Qed.

Lemma find_replace id new docs old :
  find (Resume.has_id id) docs = Some old ->
  Resume.has_id id new = true ->
  find (Resume.has_id id) (Resume.replace id new docs) = Some new.
Proof.
  intros Hfind Hnew. induction docs as [|d docs IH]; simpl in *; [done|].
  destruct (Resume.has_id id d) eqn:Hd; simpl.
  - by rewrite Hnew.
  - rewrite Hd. by apply IH.
Qed.

Lemma find_replace_other id id' new docs :
  id <> id' -> Resume.has_id id new = true ->
  find (Resume.has_id id') (Resume.replace id new docs)
  = find (Resume.has_id id') docs.
Proof.
  intros Hne Hnew. induction docs as [|d docs IH]; simpl; [done|].
  destruct (Resume.has_id id d) eqn:Hd; simpl.
  - by rewrite !(has_id_unique id id').
  - by rewrite IH.
Qed.

Lemma findById_found id d w :
  db_up (w_db w) = true ->
  find (Resume.has_id id) (db_docs (w_db w)) = Some d ->
  Resume.findById (VStr id) w = (Ok (Some d), w).
Proof.
  intros Hup Hfind.
  unfold Resume.findById, Resume.cast_id, Resume.connected, bind, ret, gets.
  by rewrite Hup, Hfind.
Qed.

(** An update that does not change the address meets no index. *)
Lemma email_clash_same docs id old new :
  Js.lookup new "email" = Js.lookup old "email" ->
  Resume.email_clash docs id old new = false.
Proof.
  intros H. unfold Resume.email_clash, Resume.email_of. rewrite H.
  by rewrite bool_decide_eq_true_2.
Qed.

(** The update of a stored document, the fields cast as [sent]. *)
Lemma findByIdAndUpdate_run E id fields (rv : bool) w sent old :
  Cast.fields E fields = Ok sent ->
  (if rv then update_errors E sent else []) = [] ->
  db_up (w_db w) = true ->
  find (Resume.has_id id) (db_docs (w_db w)) = Some old ->
  Resume.email_clash (db_docs (w_db w)) id old
    (Js.assign old (Cast.update sent (w_now w))) = false ->
  Resume.findByIdAndUpdate E (VStr id) fields rv w
  = (Ok (Some (Js.assign old (Cast.update sent (w_now w)))),
     with_db w
       (db_updated (w_db w) id (Cast.update sent (w_now w))
          (Js.assign old (Cast.update sent (w_now w))))).
Proof.
  intros Hsent Hrules Hup Hfind Hclash.
  unfold Resume.findByIdAndUpdate, Resume.cast_id, Resume.connected, set_db,
    lift, bind, ret, gets, throw.
  rewrite Hsent, Hrules, Hup, Hfind, Hclash. reflexivity.
Qed.

(** The update of one field that is neither the address nor the id. *)
Lemma findByIdAndUpdate_one E id F v v' w old :
  Cast.fields E [(F, v)] = Ok [(F, v')] ->
  F <> "email" -> F <> "updatedAt" ->
  db_up (w_db w) = true ->
  find (Resume.has_id id) (db_docs (w_db w)) = Some old ->
  let new := Js.set (Js.set old F v') "updatedAt" (VNum (w_now w)) in
  Resume.findByIdAndUpdate E (VStr id) [(F, v)] false w
  = (Ok (Some new),
     with_db w
       (db_updated (w_db w) id [(F, v'); ("updatedAt", VNum (w_now w))] new)).
Proof.
  intros Hsent Hmail Hstamp Hup Hfind new.
  assert (Cast.update [(F, v')] (w_now w)
          = [(F, v'); ("updatedAt", VNum (w_now w))]) as Hupdate.
  { unfold Cast.update, Js.assign. cbn.
    by destruct (String.eqb_spec F "updatedAt"). }
  rewrite (findByIdAndUpdate_run E id _ false w _ old Hsent); try done.
  - by rewrite Hupdate.
  - apply email_clash_same. rewrite Hupdate. unfold Js.assign.
    cbn [fold_left fst snd]. by rewrite !lookup_set_ne.
Qed.

End Collection.

(** ** enhanceField: the way into the entry branch *)

(** With a stored resume, an array under [field] and an index, the only
    test on the index is [index >= fieldData.length]: below the length,
    the handler goes on with [fieldData[index]]. *)
Lemma enhanceField_entry E req w id resume entries i :
  resumeId req = VStr id -> Js.truthy (VStr id) = true ->
  Js.truthy (field req) = true ->
  db_up (w_db w) = true ->
  find (Resume.has_id id) (db_docs (w_db w)) = Some resume ->
  Js.lookup resume (Js.to_string (field req)) = Some (VArr entries) ->
  index req = Some i ->
  i < Z.of_nat (length entries) ->
  enhanceField E req w
  = try_catch (enhanceEntry E req i entries (Js.get_index entries i))
      out_of_scope w.
Proof.
  intros Hid Hidt Hft Hup Hfind Harr Hidx Hlt.
  unfold enhanceField, try_catch, bind.
  rewrite Hid, Hidt, Hft. cbn [negb].
  rewrite (findById_found _ _ _ Hup Hfind), Harr, Hidx.
  cbv [default from_option Datatypes.id].
  destruct (Z.geb_spec i (Z.of_nat (length entries))); [lia|done].
Qed.

(** C1, as the code has it: when the generation model answers an
    entry-mode request with a text that [JSON.parse] rejects, the handler
    throws nothing and writes nothing, the database is as it was, and the
    answer is the failure 500 "Failed to parse AI enhancement response",
    not a success. *)
Theorem C1_parse_failure_is_answered_500 E req w id resume entries i prompt
    text :
  resumeId req = VStr id -> Js.truthy (VStr id) = true ->
  Js.truthy (field req) = true ->
  db_up (w_db w) = true ->
  find (Resume.has_id id) (db_docs (w_db w)) = Some resume ->
  Js.lookup resume (Js.to_string (field req)) = Some (VArr entries) ->
  index req = Some i ->
  i < Z.of_nat (length entries) ->
  Prompt.for_entry (field req) (Js.get_index entries i) = Some (Ok prompt) ->
  generateContent E prompt = Ok text ->
  JSON_parse E text = None ->
  handle (enhanceField E req) w
  = (Responded parse_failure, add_console w "Failed to parse AI response")
  /\ w_db (snd (handle (enhanceField E req) w)) = w_db w.
Proof.
  intros Hid Hidt Hft Hup Hfind Harr Hidx Hlt Hprompt Hreply Hparse.
  assert (handle (enhanceField E req) w
          = (Responded parse_failure,
             add_console w "Failed to parse AI response")) as Hrun.
  { unfold handle.
    rewrite (enhanceField_entry E req w id resume entries i) by done.
    unfold try_catch, enhanceEntry, bind, lift.
    by rewrite Hprompt, Hreply, Hparse. }
  by rewrite Hrun.
Qed.

(** C2, as the code has it: the entry-mode merge. With a stored resume
    [resume], an array field [F] of sub-documents that is stored as the
    schema casts it, an index [i] within bounds and a reply that parses
    to the object [partial], the merged entry is cast by the sub-schema
    of [F]. If that cast fails, the request ends as a rejection and
    nothing is written. If it gives [entry'], the handler answers 200
    with [entry'] and the stored document differs from [resume] at entry
    [i] of [F] and at [updatedAt], which takes the time of the update,
    and nowhere else: the other fields, the other entries of [F] and the
    other documents are as they were. In entry [i] a key that [partial]
    does not mention is as it was, a key that [partial] mentions and the
    sub-schema declares holds the value of [partial] as the schema casts
    it, and there is no key that the sub-schema does not declare. *)
Theorem C2_entry_merge_frame E req w id F keys resume entries i entry prompt
    text partial :
  resumeId req = VStr id -> Js.truthy (VStr id) = true ->
  field req = VStr F -> (F, keys) ∈ Cast.arrays ->
  db_up (w_db w) = true ->
  find (Resume.has_id id) (db_docs (w_db w)) = Some resume ->
  Js.lookup resume F = Some (VArr entries) ->
  Cast.all (Cast.entry E keys) entries = Ok entries ->
  index req = Some i -> 0 <= i ->
  entries !! Z.to_nat i = Some (VObj entry) ->
  well_formed entry ->
  Prompt.for_entry (field req) (VObj entry) = Some (Ok prompt) ->
  generateContent E prompt = Ok text ->
  JSON_parse E text = Some (VObj partial) ->
  match Cast.entry E keys (VObj (updatedEntry entry (VObj partial))) with
  | Throw _ =>
      handle (enhanceField E req) w
      = (Rejected (ReferenceError "field is not defined"), w)
  | Ok merged =>
      exists r w' D' entries' entry',
        merged = VObj entry'
        /\ handle (enhanceField E req) w = (Responded r, w')
        /\ status r = 200
        /\ Js.lookup (body r) "data" = Some (VObj entry')
        /\ find (Resume.has_id id) (db_docs (w_db w')) = Some D'
        /\ (forall f, f <> F -> f <> "updatedAt" ->
              Js.lookup D' f = Js.lookup resume f)
        /\ Js.lookup D' "updatedAt" = Some (VNum (w_now w))
        /\ Js.lookup D' F = Some (VArr entries')
        /\ length entries' = length entries
        /\ (forall j, j <> Z.to_nat i -> entries' !! j = entries !! j)
        /\ entries' !! Z.to_nat i = Some (VObj entry')
        /\ (forall k, Js.lookup partial k = None ->
                      Js.lookup entry' k = Js.lookup entry k)
        /\ (forall k v, k ∈ keys -> Js.lookup (rev partial) k = Some v ->
              Js.lookup entry' k
              = match Cast.trimmed E false v with
                | Ok VUndef | Throw _ => None
                | Ok c => Some c
                end)
        /\ (forall k, k ∉ keys -> Js.lookup entry' k = None)
        /\ (forall id', id' <> id ->
               find (Resume.has_id id') (db_docs (w_db w'))
               = find (Resume.has_id id') (db_docs (w_db w)))
  end.
Proof.
  intros Hid Hidt Hf HF Hup Hfind Harr Hstable Hidx Hi Hentry Hwf Hprompt
    Hreply Hparse.
  pose proof (lookup_lt_Some _ _ _ Hentry) as Hlen.
  assert (i < Z.of_nat (length entries)) as Hlt by lia.
  pose proof (find_has_id _ _ _ Hfind) as Hhas.
  destruct (array_is_no_stamp F keys HF) as (Hstamp & Hmail & Hnoid & Hname).
  assert (Js.truthy (VStr F) = true) as Hft by (by destruct F).
  set (path := fun k => if existsb (String.eqb k) keys
                        then Some (Cast.trimmed E false) else None).
  assert (Cast.props path entry = Ok entry) as Hfixed.
  { pose proof (all_lookup _ _ _ (Z.to_nat i) Hstable) as Hat.
    rewrite Hentry in Hat. destruct Hat as (x & Hx & Hix).
    simplify_eq. cbn [Cast.entry] in Hx.
    fold path in Hx. by destruct (Cast.props path entry); simplify_eq. }
  assert (enhanceField E req w
          = try_catch
              (let* savedResume :=
                 Resume.findByIdAndUpdate E (VStr id)
                   [(F, VArr (<[Z.to_nat i :=
                                  VObj (updatedEntry entry (VObj partial))]>
                                entries))] false in
               let* savedField :=
                 lift (Js.get (saved_value savedResume) F) in
               let* data := lift (at_index savedField i) in
               json 200 [("success", VBool true);
                         ("message",
                          VStr ("Enhanced " ++ F ++ " entry successfully"));
                         ("data", data);
                         ("enhancedField", field req);
                         ("enhancedIndex", VNum i)])
              out_of_scope w) as Hrun.
  { rewrite (enhanceField_entry E req w id resume entries i);
      [|by rewrite ?Hf..].
    rewrite (get_index_lookup _ _ _ Hi Hentry).
    unfold try_catch, enhanceEntry, bind, lift.
    rewrite Hprompt, Hreply, Hparse. cbn [toObject].
    unfold updatedArray. rewrite set_index_in_range by lia.
    by rewrite Hf, Hid. }
  cbn [Cast.entry]. fold path.
  destruct (Cast.props path (updatedEntry entry (VObj partial)))
    as [entry'|e] eqn:Hcast.
  - assert (Cast.fields E
              [(F, VArr (<[Z.to_nat i :=
                             VObj (updatedEntry entry (VObj partial))]>
                           entries))]
            = Ok [(F, VArr (<[Z.to_nat i := VObj entry']> entries))])
      as Hsent.
    { apply (fields_array E F keys); [done|].
      apply all_insert; [done|]. cbn [Cast.entry]. fold path.
      by rewrite Hcast. }
    set (entries' := <[Z.to_nat i := VObj entry']> entries) in *.
    set (D' := Js.set (Js.set resume F (VArr entries')) "updatedAt"
                 (VNum (w_now w))).
    assert (Resume.has_id id D' = true) as Hhas'.
    { apply has_id_true. unfold D'. rewrite !lookup_set_ne by done.
      by apply has_id_true. }
    assert (well_formed (updatedEntry entry (VObj partial))) as Hwf'
      by (by apply well_formed_assign).
    exists (entry_enhanced req i (VObj entry')),
      (with_db w
         (db_updated (w_db w) id
            [(F, VArr entries'); ("updatedAt", VNum (w_now w))] D')),
      D', entries', entry'.
    split; [done|]. split.
    { unfold handle. rewrite Hrun. unfold try_catch, bind, lift.
      rewrite (findByIdAndUpdate_one E id F _ _ w resume Hsent) by done.
      cbn [saved_value Js.get]. fold D'.
      assert (Js.lookup D' F = Some (VArr entries')) as ->.
      { unfold D'. rewrite lookup_set_ne by done. apply lookup_set_eq. }
      cbv [default from_option Datatypes.id at_index].
      rewrite (get_index_lookup _ _ (VObj entry') Hi)
        by (by apply list_lookup_insert_eq).
      unfold json, ret, entry_enhanced. by rewrite Hf. }
    cbn [status body snd w_db db_docs with_db db_updated entry_enhanced].
    split; [done|]. split; [done|].
    split; [by eapply find_replace|].
    split.
    { intros f Hne Hnes. unfold D'. by rewrite !lookup_set_ne. }
    split; [apply lookup_set_eq|].
    split.
    { unfold D'. rewrite lookup_set_ne by done. apply lookup_set_eq. }
    split; [apply length_insert|].
    split; [by intros j Hne; apply list_lookup_insert_ne|].
    split; [by apply list_lookup_insert_eq|].
    split.
    { intros k Hk.
      rewrite (props_lookup _ _ _ k Hwf' Hcast).
      unfold updatedEntry. cbn [Js.spread].
      rewrite lookup_assign_absent by done.
      symmetry. apply (props_lookup _ _ _ k Hwf Hfixed). }
    split.
    { intros k v Hk Hv.
      rewrite (props_lookup _ _ _ k Hwf' Hcast).
      unfold updatedEntry. cbn [Js.spread].
      rewrite (lookup_assign_present _ _ _ _ Hv).
      unfold path at 1.
      assert (existsb (String.eqb k) keys = true) as ->; [|done].
      apply existsb_exists. exists k. split; [|apply String.eqb_refl].
      by apply list_elem_of_In. }
    split.
    { intros k Hk. rewrite (props_lookup _ _ _ k Hwf' Hcast).
      unfold path at 1.
      assert (existsb (String.eqb k) keys = false) as ->; [|done].
      apply not_true_is_false. intros Hex.
      apply existsb_exists in Hex as (k' & Hin & Heq).
      apply String.eqb_eq in Heq as <-. by apply Hk, list_elem_of_In. }
    intros id' Hne. by apply find_replace_other.
  - unfold handle. rewrite Hrun.
    unfold try_catch, bind, lift, out_of_scope, throw.
    unfold Resume.findByIdAndUpdate, Resume.cast_id, bind, lift, ret.
    assert (Cast.fields E
              [(F, VArr (<[Z.to_nat i :=
                             VObj (updatedEntry entry (VObj partial))]>
                           entries))]
            = Throw e) as ->; [|done].
    unfold Cast.fields. cbn [Cast.props].
    rewrite (path_array E F keys HF). cbn [Cast.many].
    assert (Cast.all (Cast.entry E keys)
              (<[Z.to_nat i := VObj (updatedEntry entry (VObj partial))]>
                 entries) = Throw e) as ->; [|done].
    eapply all_insert_fails; [done| |done].
    cbn [Cast.entry]. fold path. by rewrite Hcast.
Qed.

(** At the length of the array or beyond it, the answer is the 400 of the
    invalid index. *)
Lemma enhanceField_index_too_large E req w id resume entries i :
  resumeId req = VStr id -> Js.truthy (VStr id) = true ->
  Js.truthy (field req) = true ->
  db_up (w_db w) = true ->
  find (Resume.has_id id) (db_docs (w_db w)) = Some resume ->
  Js.lookup resume (Js.to_string (field req)) = Some (VArr entries) ->
  index req = Some i ->
  Z.of_nat (length entries) <= i ->
  handle (enhanceField E req) w = (Responded invalid_index, w).
Proof.
  intros Hid Hidt Hft Hup Hfind Harr Hidx Hge.
  unfold handle, enhanceField, try_catch, bind.
  rewrite Hid, Hidt, Hft. cbn [negb].
  rewrite (findById_found _ _ _ Hup Hfind), Harr, Hidx.
  cbv [default from_option Datatypes.id].
  by destruct (Z.geb_spec i (Z.of_nat (length entries))); [|lia].
Qed.

(** C10: a negative index passes the one test on the index. With a stored
    resume and an array under [field], a request whose index is negative
    is not answered "Invalid index for field array": the handler goes on
    with the entry [undefined]. For a field the entry branch supports,
    reading the entry throws and the request ends as a rejection; for any
    other array field the answer is the 400 of the unsupported field. *)
Theorem C10_negative_index_passes_bounds_check E req w id resume entries i :
  resumeId req = VStr id -> Js.truthy (VStr id) = true ->
  Js.truthy (field req) = true ->
  db_up (w_db w) = true ->
  find (Resume.has_id id) (db_docs (w_db w)) = Some resume ->
  Js.lookup resume (Js.to_string (field req)) = Some (VArr entries) ->
  index req = Some i ->
  i < 0 ->
  handle (enhanceField E req) w
  = handle (try_catch (enhanceEntry E req i entries VUndef) out_of_scope) w
  /\ fst (handle (enhanceField E req) w) <> Responded invalid_index
  /\ match Prompt.for_entry (field req) VUndef with
     | Some _ =>
         handle (enhanceField E req) w
         = (Rejected (ReferenceError "field is not defined"), w)
     | None =>
         handle (enhanceField E req) w = (Responded entry_unsupported, w)
     end.
Proof.
  intros Hid Hidt Hft Hup Hfind Harr Hidx Hneg.
  assert (enhanceField E req w
          = try_catch (enhanceEntry E req i entries VUndef) out_of_scope w)
    as Hrun.
  { rewrite (enhanceField_entry E req w id resume entries i) by (done || lia).
    by rewrite get_index_negative. }
  unfold handle. rewrite Hrun. split; [done|].
  unfold try_catch, enhanceEntry, Prompt.for_entry.
  repeat (destruct (Prompt.case_of (field req) _); [by split|]).
  by split.
Qed.

(** ** What saving does to the world *)

(** Follow a run through the branches of the code. *)
Ltac run_cases := repeat (simplify_eq; case_match); simplify_eq.

Lemma findOne_email_effect E e w r w' :
  Resume.findOne_email E e w = (r, w') -> w' = w.
Proof.
  unfold Resume.findOne_email, Resume.connected, lift, bind, ret, gets,
    throw.
  intros H. by run_cases.
Qed.

Lemma findByIdAndUpdate_effect E id fields rv w r w' :
  Resume.findByIdAndUpdate E id fields rv w = (r, w') ->
  same_session w w'
  /\ w_console w' = w_console w
  /\ match r with
     | Ok (Some _) =>
         exists s sent,
           id = VStr s
           /\ Cast.fields E fields = Ok sent
           /\ db_writes (w_db w')
              = (db_writes (w_db w)
                 ++ [WUpdate s (Cast.update sent (w_now w))])%list
     | _ => w_db w' = w_db w
     end.
Proof.
  unfold Resume.findByIdAndUpdate, Resume.cast_id, Resume.connected, set_db,
    lift, bind, ret, gets, throw, same_session.
  intros H. run_cases; cbn; eauto 10.
Qed.

Lemma save_new_effect E data w r w' :
  Resume.save_new E data w = (r, w') ->
  same_session w w'
  /\ w_console w' = w_console w
  /\ match r with
     | Ok doc =>
         exists sent cleaned id,
           Cast.fields E data = Ok sent
           /\ Resume.pre_save sent = Ok cleaned
           /\ doc = Cast.insert cleaned id (w_now w)
           /\ db_writes (w_db w')
              = (db_writes (w_db w) ++ [WInsert doc])%list
     | Throw _ => w_db w' = w_db w
     end.
Proof.
  unfold Resume.save_new, Resume.connected, set_db, lift,
    bind, ret, gets, throw, same_session.
  intros H. run_cases; cbn; try by repeat split.
  all: split; [done|]; split; [done|]; by eexists _, _, _.
Qed.

Ltac use_effects :=
  repeat match goal with
    | H : Resume.findByIdAndUpdate _ _ _ _ _ = _ |- _ =>
        apply findByIdAndUpdate_effect in H; cbn in H
    | H : Resume.save_new _ _ _ = _ |- _ =>
        apply save_new_effect in H; cbn in H
    | H : Resume.findOne_email _ _ _ = _ |- _ =>
        apply findOne_email_effect in H
    end.

(** [saveResumeData] leaves the trackers, the pending call and the clock
    alone; when it returns it has made exactly one write, the write of the
    data it was given, and when it throws it has made none. *)
Lemma saveResumeData_effect E resumeData isAutoSave userId w r w' :
  saveResumeData E resumeData isAutoSave userId w = (r, w') ->
  same_session w w'
  /\ match r with
     | Ok _ =>
         exists wr,
           db_writes (w_db w') = (db_writes (w_db w) ++ [wr])%list
           /\ write_of E resumeData wr
     | Throw _ => w_db w' = w_db w
     end.
Proof.
  unfold saveResumeData, try_catch, bind, lift, gets, console, throw, ret.
  intros H. run_cases; use_effects; unfold same_session in *;
    destruct_and?; simplify_eq; cbn.
  all: try (split; [by repeat split; congruence|]); try congruence.
  all: repeat match goal with
         | H : exists _, _ |- _ => destruct H as [? H]
         end; destruct_and?; simplify_eq.
  all: eexists; (split; [eassumption|]).
  all: first [ by eexists _, _ | by eexists _, _, _, _, _ ].
Qed.

(** ** Change tracking and the debounced autosave *)

Lemma trackChanges_run u d w :
  trackChanges u d w
  = (Ok tt,
     {| w_db := w_db w; w_console := w_console w;
        changeTrackers :=
          <[u := first_track w u d]> (changeTrackers w);
        w_timer := Some {| due := w_now w + AUTO_SAVE_DEBOUNCE;
                           call_userId := u; call_resumeData := d |};
        w_now := w_now w |}).
Proof.
  unfold trackChanges, debouncedAutoSave, set_trackers, set_timer, bind, gets,
    first_track.
  by destruct (changeTrackers w !! u).
Qed.

(** Nothing is saved for a user who is not tracked, whose tracker is not
    pending, or whose data prints like [lastData]. *)
Lemma autoSave_skip E u d w :
  match changeTrackers w !! u with
  | None => True
  | Some t =>
      pendingSave t = false
      \/ Json.stringify (lastData t) = Json.stringify d
  end ->
  autoSave E u d w = (Ok tt, w).
Proof.
  unfold autoSave, try_catch, bind, gets, ret.
  destruct (changeTrackers w !! u) as [t|]; [|done].
  intros [->| ->]; [done|].
  rewrite bool_decide_eq_true_2 by done. by rewrite andb_false_r.
Qed.

(** Otherwise the save is attempted once: its success settles the
    tracker, its failure is written to the console and nothing else. *)
Lemma autoSave_attempt E u d w t r w' :
  changeTrackers w !! u = Some t ->
  pendingSave t = true ->
  Json.stringify (lastData t) <> Json.stringify d ->
  saveResumeData E d true u (add_console w (announce u)) = (r, w') ->
  autoSave E u d w
  = (Ok tt,
     match r with
     | Ok _ => with_tracker w' u (settled d (w_now w'))
     | Throw e => add_console w' ("Auto-save failed: " ++ message e)
     end).
Proof.
  intros Ht Hp Hne Hsave.
  unfold autoSave, try_catch, bind, gets, ret.
  rewrite Ht, Hp, bool_decide_eq_false_2 by done. cbn [negb andb].
  unfold console at 1. fold (announce u). fold (add_console w (announce u)).
  rewrite Hsave. by destruct r.
Qed.

(** C7: an autosave whose write fails. The failure is caught: the flush
    returns normally, the console has the line "Auto-save failed", the
    tracker of the user is what it was, pending with the same [lastData],
    and the database is as it was. *)
Theorem C7_failed_autosave_stays_pending E u d w t e w' :
  changeTrackers w !! u = Some t ->
  pendingSave t = true ->
  Json.stringify (lastData t) <> Json.stringify d ->
  saveResumeData E d true u (add_console w (announce u)) = (Throw e, w') ->
  let after := snd (autoSave E u d w) in
  fst (autoSave E u d w) = Ok tt
  /\ changeTrackers after !! u = Some t
  /\ changeTrackers after = changeTrackers w
  /\ w_db after = w_db w
  /\ last (w_console after) = Some ("Auto-save failed: " ++ message e).
Proof.
  intros Ht Hp Hne Hsave.
  rewrite (autoSave_attempt E u d w t _ _ Ht Hp Hne Hsave).
  apply saveResumeData_effect in Hsave as [(Htr & _ & _) Hdb].
  cbn. rewrite Htr. repeat split; try done. apply last_snoc.
Qed.

Lemma advance_early E t w c :
  w_timer w = Some c -> t < due c ->
  advance E t w
  = (Ok tt, {| w_db := w_db w; w_console := w_console w;
               changeTrackers := changeTrackers w; w_timer := w_timer w;
               w_now := t |}).
Proof.
  intros Hc Hlt. unfold advance, bind, gets, set_now. rewrite Hc.
  destruct (Z.leb_spec (due c) t); [lia|]. by rewrite Hc.
Qed.

Lemma advance_due E t w c :
  w_timer w = Some c -> due c <= t ->
  advance E t w
  = (do autoSave E (call_userId c) (call_resumeData c) then set_now t)
      {| w_db := w_db w; w_console := w_console w;
         changeTrackers := changeTrackers w; w_timer := None;
         w_now := due c |}.
Proof.
  intros Hc Hle. unfold advance, bind, gets, set_now, set_timer. rewrite Hc.
  by destruct (Z.leb_spec (due c) t); [|lia].
Qed.

Lemma first_track_tracked w u d t :
  changeTrackers w !! u = Some t -> first_track w u d = marked t.
Proof. intros Ht. unfold first_track. by rewrite Ht. Qed.

(** The world after two edits of one user, the second within the debounce
    window of the first: one pending call, for the second edit. *)
Lemma two_edits_world E u d1 d2 w t2 :
  t2 < w_now w + AUTO_SAVE_DEBOUNCE ->
  snd ((do advance E t2 then trackChanges u d2) (snd (trackChanges u d1 w)))
  = {| w_db := w_db w; w_console := w_console w;
       changeTrackers := <[u := marked (first_track w u d1)]> (changeTrackers w);
       w_timer := Some {| due := t2 + AUTO_SAVE_DEBOUNCE;
                          call_userId := u; call_resumeData := d2 |};
       w_now := t2 |}.
Proof.
  intros Hin. rewrite trackChanges_run. cbn [snd].
  unfold bind. erewrite advance_early; [|reflexivity|cbn; lia].
  rewrite trackChanges_run.
  erewrite (first_track_tracked _ u d2); [|apply lookup_insert_eq].
  cbn [snd w_db w_console changeTrackers w_timer w_now].
  by rewrite insert_insert_eq.
Qed.

Lemma lastData_first_track w u d :
  lastData (first_track w u d) = tracked_data w u d.
Proof. unfold first_track, tracked_data. by destruct (changeTrackers w !! u). Qed.

(** What a run of [autoSave] can change: the console, the tracker of its
    user, and the collection by one write of the data it was given. *)
Lemma autoSave_effect E u d w :
  let w' := snd (autoSave E u d w) in
  fst (autoSave E u d w) = Ok tt
  /\ w_timer w' = w_timer w
  /\ w_now w' = w_now w
  /\ (forall u', u' <> u -> changeTrackers w' !! u' = changeTrackers w !! u')
  /\ (w_db w' = w_db w
      \/ exists wr,
          db_writes (w_db w') = (db_writes (w_db w) ++ [wr])%list
          /\ write_of E d wr).
Proof.
  destruct (changeTrackers w !! u) as [t|] eqn:Ht.
  2: { rewrite autoSave_skip by (by rewrite Ht). cbn. repeat split; auto. }
  destruct (pendingSave t) eqn:Hp.
  2: { rewrite autoSave_skip by (rewrite Ht; by left). cbn.
       repeat split; auto. }
  destruct (decide (Json.stringify (lastData t) = Json.stringify d))
    as [Heq|Hne].
  { rewrite autoSave_skip by (rewrite Ht; by right). cbn.
    repeat split; auto. }
  destruct (saveResumeData E d true u (add_console w (announce u)))
    as [r w'] eqn:Hsave.
  rewrite (autoSave_attempt E u d w t r w' Ht Hp Hne Hsave).
  apply saveResumeData_effect in Hsave as [(Htr & Htimer & Hnow) Hdb].
  destruct r as [saved|e]; cbn in *.
  - split; [done|]. split; [done|]. split; [done|]. split.
    + intros u' Hu'. by rewrite lookup_insert_ne, Htr.
    + by right.
  - split; [done|]. split; [done|]. split; [done|]. split.
    + intros u' Hu'. by rewrite Htr.
    + by left.
Qed.

(** C5, as the code has it: two edits of one user within the debounce
    window. Nothing is written before the timer fires. When it fires the
    pending call runs once, for the data of the second edit, and no call
    is left, so that nothing more is written later. If that data prints
    like the [lastData] of the tracker, nothing is written. If it prints
    differently, [saveResumeData] runs for it with [isAutoSave]: when it
    returns, the database is the one it leaves, with exactly one write
    more, the write of the data of the second edit, and the tracker is
    settled on that data; when it throws, nothing is written and the
    tracker stays pending. *)
Theorem C5_two_edits_one_flush E u d1 d2 w t2 t3 :
  t2 < w_now w + AUTO_SAVE_DEBOUNCE ->
  t2 + AUTO_SAVE_DEBOUNCE <= t3 ->
  let w1 := snd (trackChanges u d1 w) in
  let w2 := snd ((do advance E t2 then trackChanges u d2) w1) in
  let w3 := snd (advance E t3 w2) in
  let known := tracked_data w u d1 in
  w_db w2 = w_db w
  /\ w_timer w3 = None
  /\ (forall t4, w_db (snd (advance E t4 w3)) = w_db w3)
  /\ (Json.stringify known = Json.stringify d2 -> w_db w3 = w_db w)
  /\ (Json.stringify known <> Json.stringify d2 ->
      match
        saveResumeData E d2 true u
          (add_console (at_flush w u d1 t2) (announce u))
      with
      | (Ok _, saved) =>
          w_db w3 = w_db saved
          /\ (exists wr,
                 db_writes (w_db w3) = (db_writes (w_db w) ++ [wr])%list
                 /\ write_of E d2 wr)
          /\ changeTrackers w3 !! u
             = Some (settled d2 (t2 + AUTO_SAVE_DEBOUNCE))
      | (Throw e, _) =>
          w_db w3 = w_db w
          /\ changeTrackers w3 !! u = Some (marked (first_track w u d1))
          /\ lastData (marked (first_track w u d1)) = known
          /\ last (w_console w3) = Some ("Auto-save failed: " ++ message e)
      end).
Proof.
  intros Hin Hout w1 w2 w3 known.
  assert (w_timer w3 = None /\ exists w', w3 = snd (set_now t3 w')) as Hdone.
  { subst w1 w2 w3. rewrite (two_edits_world E u d1 d2 w t2 Hin).
    erewrite advance_due; [|reflexivity|cbn; lia].
    cbn [w_db w_console changeTrackers w_timer w_now due call_userId
         call_resumeData].
    fold (at_flush w u d1 t2). unfold bind.
    destruct (autoSave_effect E u d2 (at_flush w u d1 t2))
      as (Hok & Htimer & _).
    destruct (autoSave E u d2 (at_flush w u d1 t2)) as [r w'].
    cbn in Hok, Htimer. subst r. cbn. split; [done|]. by exists w'. }
  destruct Hdone as [Htimer3 _].
  split.
  { subst w1 w2. by rewrite (two_edits_world E u d1 d2 w t2 Hin). }
  split; [done|]. split.
  { intros t4. unfold advance, bind, gets. by rewrite Htimer3. }
  subst w1 w2 w3. rewrite (two_edits_world E u d1 d2 w t2 Hin).
  erewrite advance_due; [|reflexivity|cbn; lia].
  cbn [w_db w_console changeTrackers w_timer w_now due call_userId
       call_resumeData].
  fold (at_flush w u d1 t2).
  set (ws := at_flush w u d1 t2).
  assert (changeTrackers ws !! u = Some (marked (first_track w u d1))) as Ht
    by apply lookup_insert_eq.
  assert (lastData (marked (first_track w u d1)) = known) as Hknown
    by apply lastData_first_track.
  split.
  - intros Heq. unfold bind.
    by rewrite autoSave_skip by (rewrite Ht, Hknown; by right).
  - intros Hne.
    destruct (saveResumeData E d2 true u (add_console ws (announce u)))
      as [r w'] eqn:Hsave.
    unfold bind.
    rewrite (autoSave_attempt E u d2 ws _ r w' Ht) by (by rewrite ?Hknown).
    apply saveResumeData_effect in Hsave as [(Htr & Htimer & Hnow) Hdb].
    destruct r as [saved|e]; cbn in *.
    + destruct Hdb as (wr & Hwr & Hof).
      split; [done|]. split; [by exists wr|].
      by rewrite Hnow, lookup_insert_eq.
    + split; [done|]. split; [by rewrite Htr|]. split; [done|].
      apply last_snoc.
Qed.

(** C8, as the code has it: an edit notification for a tracked user marks
    the tracker as pending whatever the snapshot is, also when it equals
    [lastData], and leaves [lastData] as it was; the snapshot is compared
    with [lastData] only when the debounced autosave runs. *)
Theorem C8_every_edit_marks_pending u d w t :
  changeTrackers w !! u = Some t ->
  changeTrackers (snd (trackChanges u d w)) !! u
  = Some {| lastData := lastData t; pendingSave := true;
            lastSavedAt := lastSavedAt t |}.
Proof.
  intros Ht. rewrite trackChanges_run. cbn [snd changeTrackers].
  rewrite lookup_insert_eq. by rewrite (first_track_tracked w u d t Ht).
Qed.

(** ** createResume *)

(** C6, as the code has it. The controller validates before it looks the
    address up: a create request whose data fails the validation of the
    controller (name, email, phone) is answered 400 with the list of
    errors, whether or not the address is taken; a create request whose
    data passes that validation and whose address, trimmed and in lower
    case as the schema stores addresses, identifies a stored document is
    answered 409 with that document, whatever its other fields are. *)
Theorem C6_create_validates_then_checks_email E u w :
  (forall resumeData errs,
      Js.truthy resumeData = true ->
      validateResumeData resumeData = Ok errs ->
      errs <> [] ->
      handle (createResume E resumeData u) w
      = (Responded (validation_failed errs), w))
  /\ (forall resumeData e existing,
        Js.truthy resumeData = true ->
        validateResumeData resumeData = Ok [] ->
        Js.get resumeData "email" = Ok (VStr e) ->
        db_up (w_db w) = true ->
        find (Resume.has_email (Cast.address E e)) (db_docs (w_db w))
        = Some existing ->
        handle (createResume E resumeData u) w
        = (Responded (email_exists existing), w)).
Proof.
  split.
  - intros rd errs Hrd Hval Hne.
    unfold handle, createResume, try_catch, bind, lift. rewrite Hrd, Hval.
    by destruct errs.
  - intros rd e existing Hrd Hval Hemail Hup Hfind.
    unfold handle, createResume, try_catch, bind, lift.
    rewrite Hrd, Hval, Hemail. cbn [negb length Nat.ltb Nat.leb].
    unfold Resume.findOne_email, Resume.connected, Cast.trimmed, Cast.text,
      lift, bind, gets, ret.
    by rewrite Hup, Hfind.
Qed.

(** ** enhanceField: the whole-field branch *)

Lemma has_id_set_other id d F v :
  Resume.has_id id d = true -> F <> "_id" ->
  Resume.has_id id (Js.set d F v) = true.
Proof.
  intros Hid HF. apply has_id_true in Hid. apply has_id_true.
  by rewrite lookup_set_ne.
Qed.

Lemma enhanceField_whole E req w id resume :
  resumeId req = VStr id -> Js.truthy (VStr id) = true ->
  Js.truthy (field req) = true ->
  db_up (w_db w) = true ->
  find (Resume.has_id id) (db_docs (w_db w)) = Some resume ->
  index req = None ->
  enhanceField E req w = try_catch (enhanceWhole E req resume) out_of_scope w.
Proof.
  intros Hid Hidt Hft Hup Hfind Hidx.
  unfold enhanceField, try_catch, bind.
  rewrite Hid, Hidt, Hft. cbn [negb].
  by rewrite (findById_found _ _ _ Hup Hfind), Hidx.
Qed.

(** C4, as the code has it. A whole-field request (no index) for a stored
    resume is served for [summary] and for [skills] only. For [summary]
    the model is asked for a rewritten summary and its answer is stored,
    trimmed as the schema trims a summary; for [skills] the model is asked for a comma-separated list and
    the tokens of its answer are stored; either update stamps the
    document with the time of the update; any other field, [experience],
    [achievements], [courses] and [projects] among them, is answered 400
    "Field not supported for enhancement" and nothing is written. *)
Theorem C4_whole_field_summary_and_skills_only E req w id resume :
  resumeId req = VStr id -> Js.truthy (VStr id) = true ->
  db_up (w_db w) = true ->
  find (Resume.has_id id) (db_docs (w_db w)) = Some resume ->
  index req = None ->
  (forall text,
      field req = VStr "summary" ->
      generateContent E (Prompt.summary resume) = Ok text ->
      exists w',
        handle (enhanceField E req) w
        = (Responded
             {| status := 200;
                body := [("success", VBool true);
                         ("message", VStr "Enhanced summary successfully");
                         ("data", VStr (Js.trim text))] |}, w')
        /\ find (Resume.has_id id) (db_docs (w_db w'))
           = Some (Js.set (Js.set resume "summary" (VStr (Js.trim text)))
                     "updatedAt" (VNum (w_now w))))
  /\ (forall prompt text,
        field req = VStr "skills" ->
        Prompt.skills resume = Ok prompt ->
        generateContent E prompt = Ok text ->
        exists w',
          handle (enhanceField E req) w
          = (Responded
               {| status := 200;
                  body := [("success", VBool true);
                           ("message", VStr "Enhanced skills successfully");
                           ("data", VArr (map VStr (parse_skills text)))] |},
             w')
          /\ find (Resume.has_id id) (db_docs (w_db w'))
             = Some (Js.set
                       (Js.set resume "skills"
                          (VArr (map VStr (parse_skills text))))
                       "updatedAt" (VNum (w_now w))))
  /\ (forall F,
        field req = VStr F ->
        F <> EmptyString -> F <> "summary" -> F <> "skills" ->
        handle (enhanceField E req) w = (Responded field_unsupported, w))
  /\ (forall F,
        F ∈ ["experience"; "achievements"; "courses"; "projects"] ->
        field req = VStr F ->
        handle (enhanceField E req) w = (Responded field_unsupported, w)).
Proof.
  intros Hid Hidt Hup Hfind Hidx.
  pose proof (find_has_id _ _ _ Hfind) as Hhas.
  assert (forall F, field req = VStr F -> F <> EmptyString ->
            F <> "summary" -> F <> "skills" ->
            handle (enhanceField E req) w = (Responded field_unsupported, w))
    as Hother.
  { intros F HF Hne Hsum Hsk. unfold handle.
    rewrite (enhanceField_whole E req w id resume); try done.
    - unfold try_catch, enhanceWhole, Prompt.for_field, Prompt.case_of.
      rewrite HF.
      destruct (String.eqb_spec F "summary"); [done|].
      by destruct (String.eqb_spec F "skills").
    - rewrite HF. cbn. by destruct (String.eqb_spec F EmptyString). }
  split; [|split; [|split; [done|]]].
  - intros text HF Hreply. eexists. split.
    + unfold handle.
      rewrite (enhanceField_whole E req w id resume)
        by (done || by rewrite HF).
      unfold try_catch, enhanceWhole, bind, lift. rewrite HF, Hid.
      cbn [Prompt.for_field Prompt.case_of String.eqb Ascii.eqb Bool.eqb].
      rewrite Hreply. cbn [Js.to_string].
      rewrite (findByIdAndUpdate_one E id "summary" _ _ w resume
                 (fields_summary E text)) by done.
      cbn [saved_value Js.get]. rewrite lookup_set_ne by done.
      rewrite lookup_set_eq. reflexivity.
    + cbn. eapply find_replace; [done|]. by do 2 (apply has_id_set_other; [|done]).
  - intros prompt text HF Hprompt Hreply. eexists. split.
    + unfold handle.
      rewrite (enhanceField_whole E req w id resume)
        by (done || by rewrite HF).
      unfold try_catch, enhanceWhole, bind, lift. rewrite HF, Hid.
      cbn [Prompt.for_field Prompt.case_of String.eqb Ascii.eqb Bool.eqb].
      rewrite Hprompt, Hreply. cbn [Js.to_string].
      rewrite (findByIdAndUpdate_one E id "skills" _ _ w resume
                 (fields_skills E (parse_skills text))) by done.
      cbn [saved_value Js.get]. rewrite lookup_set_ne by done.
      rewrite lookup_set_eq. reflexivity.
    + cbn. eapply find_replace; [done|]. by do 2 (apply has_id_set_other; [|done]).
  - intros F HF Hreq. rewrite !elem_of_cons, elem_of_nil in HF.
    apply (Hother F Hreq); intros ->; intuition discriminate.
Qed.

(** ** Skills *)

Lemma split_comma_nonempty s : Js.split_comma s <> [].
Proof.
  destruct s as [|c s]; simpl; [done|].
  destruct (Ascii.eqb c ","%char); [done|]. by destruct (Js.split_comma s).
Qed.

(** The parse of the controller has one token more than the text has
    commas: it drops none. *)
Lemma parse_skills_length s :
  length (parse_skills s)
  = S (length (filter (fun c => c = ","%char) (list_ascii_of_string s))).
Proof.
  unfold parse_skills. rewrite length_map.
  induction s as [|c s IH]; simpl; [done|].
  destruct (Ascii.eqb_spec c ","%char) as [->|Hne].
  - rewrite filter_cons_True by done. simpl. by rewrite IH.
  - rewrite filter_cons_False by done.
    pose proof (split_comma_nonempty s).
    by destruct (Js.split_comma s).
Qed.

(** C3, on the code: the parse of the controller splits on commas and
    trims, but keeps the empty tokens. On "Python, , Go ,Go" it gives
    "Python", "", "Go", "Go", the handler answers with these four and
    stores them, while the same step of the other controller drops the
    empty token. *)
Theorem C3_parse_skills_keeps_empty_tokens :
  parse_skills "Python, , Go ,Go" = ["Python"; EmptyString; "Go"; "Go"]
  /\ getAIEnhancement_skills "Python, , Go ,Go" = ["Python"; "Go"; "Go"]
  /\ (let run :=
        handle (enhanceField (Sample.node (Ok "Python, , Go ,Go"))
                  (Sample.field_request "skills")) Sample.fresh in
      option_map status
        (match fst run with Responded r => Some r | Rejected _ => None end)
      = Some 200
      /\ (d ← find (Resume.has_id "r0") (db_docs (w_db (snd run)));
          Js.lookup d "skills")
         = Some (VArr [VStr "Python"; VStr EmptyString; VStr "Go";
                       VStr "Go"])).
Proof. by vm_compute. Qed.

(** The [save] middleware cleans the skills of a document that is
    inserted: they are the skills of the cast data, trimmed and without
    the empty ones. *)
Lemma save_new_cleans_skills E data w doc w' :
  Resume.save_new E data w = (Ok doc, w') ->
  exists sent,
    Cast.fields E data = Ok sent
    /\ forall skills,
         Js.lookup sent "skills" = Some (VArr skills) ->
         exists trimmed,
           Resume.trim_all skills = Ok trimmed
           /\ Js.lookup doc "skills"
              = Some (VArr (map VStr
                              (filter
                                 (fun skill => (0 < String.length skill)%nat)
                                 trimmed))).
Proof.
  intros Hsave. apply save_new_effect in Hsave as (_ & _ & Hdoc).
  destruct Hdoc as (sent & cleaned & id & Hsent & Hpre & -> & _).
  exists sent. split; [done|]. intros skills Hskills.
  unfold Resume.pre_save in Hpre. rewrite Hskills in Hpre.
  destruct (Resume.trim_all skills) as [trimmed|]; [|done].
  injection Hpre as <-. exists trimmed. split; [done|].
  unfold Cast.insert, Js.assign. cbn [fold_left fst snd].
  rewrite !lookup_set_ne by done. apply lookup_set_eq.
Qed.

(** An update returns the stored document with the fields as the schema
    casts them and the time of the update: no middleware touches them. *)
Lemma findByIdAndUpdate_as_sent E id fields rv w d w' :
  Resume.findByIdAndUpdate E id fields rv w = (Ok (Some d), w') ->
  exists sent old,
    Cast.fields E fields = Ok sent
    /\ d = Js.assign old (Cast.update sent (w_now w)).
Proof.
  unfold Resume.findByIdAndUpdate, Resume.cast_id, Resume.connected, set_db,
    lift, bind, ret, gets, throw.
  intros H. run_cases; by eexists _, _.
Qed.

(** C9, on the code: the skills are cleaned on the path that inserts and
    on no other. Creating a resume with the skills "Go", "  ", " Rust "
    stores "Go" and "Rust"; saving the stored resume by its id with the
    same skills stores them as they were sent, the blank one too. *)
Theorem C9_update_by_id_stores_blank_skills :
  (let run :=
     handle (createResume (Sample.node (Ok EmptyString)) Sample.newcomer
               (Some "u1")) Sample.fresh in
   option_map status
     (match fst run with Responded r => Some r | Rejected _ => None end)
   = Some 201
   /\ (d ← find (Resume.has_email "bo@example.com")
                (db_docs (w_db (snd run)));
       Js.lookup d "skills")
      = Some (VArr [VStr "Go"; VStr "Rust"]))
  /\ (let run :=
        handle (saveResume (Sample.node (Ok EmptyString)) Sample.blank_skills
                  (Some "u1")) Sample.fresh in
      option_map status
        (match fst run with Responded r => Some r | Rejected _ => None end)
      = Some 200
      /\ (d ← find (Resume.has_id "r0") (db_docs (w_db (snd run)));
          Js.lookup d "skills")
         = Some (VArr [VStr "Go"; VStr "  "; VStr " Rust "])).
Proof. by vm_compute. Qed.

(** ** The claims of the specification that the code does not meet *)

(** C1 as stated fails: the model answers the request for entry 0 of
    [experience] with a text that is no JSON, and the handler answers 500
    with [success: false]. *)
Lemma C1_counterexample :
  Reader.parse Sample.bad_reply = None
  /\ handle (enhanceField (Sample.node (Ok Sample.bad_reply))
              (Sample.entry_request "experience" 0)) Sample.fresh
     = (Responded parse_failure,
        add_console Sample.fresh "Failed to parse AI response").
Proof. by vm_compute. Qed.

(** C2 as stated fails: a minute after the resume was stored, the model
    answers the request for entry 0 of [experience] with a description in
    blanks and a key [note]. The handler answers 200; the stored document
    has another [updatedAt], a field other than [experience]; the
    description of the entry is the trimmed one, not the value of the
    reply; and the key [note] of the reply is not in the entry. *)
Lemma C2_counterexample :
  let run :=
    handle (enhanceField (Sample.node (Ok Sample.messy_reply))
              (Sample.entry_request "experience" 0)) Sample.later in
  let stored := find (Resume.has_id "r0") (db_docs (w_db (snd run))) in
  Reader.parse Sample.messy_reply
  = Some (VObj [("description", VStr " Led X "); ("note", VStr "n")])
  /\ find (Resume.has_id "r0") (db_docs (w_db Sample.later))
     = Some Sample.asha
  /\ option_map status
       (match fst run with Responded r => Some r | Rejected _ => None end)
     = Some 200
  /\ Js.lookup Sample.asha "updatedAt" = Some (VNum 0)
  /\ (d ← stored; Js.lookup d "updatedAt") = Some (VNum 60000)
  /\ (d ← stored; Js.lookup d "experience")
     = Some (VArr [Sample.job "Developer" "Led X";
                   Sample.job "Lead" "Led a team"]).
Proof. by vm_compute. Qed.

(** C4 as stated fails: a whole-field request for [experience] is answered
    400 "Field not supported for enhancement". *)
Lemma C4_counterexample :
  handle (enhanceField (Sample.node (Ok Sample.good_reply))
            (Sample.field_request "experience")) Sample.fresh
  = (Responded field_unsupported, Sample.fresh).
Proof. by vm_compute. Qed.

(** C5 as stated fails: the user edits the stored resume and, one second
    later, puts it back as it was; when the timer fires nothing is
    written. *)
Lemma C5_counterexample :
  let E := Sample.node (Ok EmptyString) in
  let w1 := snd (trackChanges (Some "u1") Sample.draft Sample.idle) in
  let w2 :=
    snd ((do advance E 1000 then trackChanges (Some "u1") (VObj Sample.asha))
           w1) in
  let w3 := snd (advance E 6000 w2) in
  w_timer w3 = None /\ db_writes (w_db w3) = [].
Proof. by vm_compute. Qed.

(** C6 as stated fails: a create request for the address of a stored
    resume, without a name, is answered 400 and not 409. *)
Lemma C6_counterexample :
  find (Resume.has_email "asha@example.com") (db_docs (w_db Sample.fresh))
  = Some Sample.asha
  /\ handle (createResume (Sample.node (Ok EmptyString)) Sample.nameless
              (Some "u1")) Sample.fresh
     = (Responded (validation_failed ["Name is required"]), Sample.fresh).
Proof. by vm_compute. Qed.

(** C8 as stated fails: the tracker of the user is idle and the edit
    carries the very data it holds, yet the tracker is marked as
    pending. *)
Lemma C8_counterexample :
  (pendingSave <$> changeTrackers Sample.idle !! Some "u1") = Some false
  /\ (lastData <$> changeTrackers Sample.idle !! Some "u1")
     = Some (VObj Sample.asha)
  /\ (pendingSave <$>
        changeTrackers
          (snd (trackChanges (Some "u1") (VObj Sample.asha) Sample.idle))
        !! Some "u1")
     = Some true.
Proof. by vm_compute. Qed.

(** ** The properties at work on the sample resume *)

Lemma C1_witness :
  Reader.parse "not JSON" = None
  /\ handle (enhanceField (Sample.node (Ok "not JSON"))
              (Sample.entry_request "projects" 0)) Sample.fresh
     = (Responded parse_failure,
        add_console Sample.fresh "Failed to parse AI response")
  /\ w_db (snd (handle (enhanceField (Sample.node (Ok "not JSON"))
                          (Sample.entry_request "projects" 0)) Sample.fresh))
     = w_db Sample.fresh.
Proof.
  split; [by vm_compute|].
  eapply (C1_parse_failure_is_answered_500 (Sample.node (Ok "not JSON"))
            (Sample.entry_request "projects" 0) Sample.fresh "r0"
            Sample.asha _ 0 _ "not JSON").
  all: reflexivity.
Defined.

(** The scenario of the specification: entry 0 of [experience] and a reply
    with a new description and a new accomplishment, a minute after the
    resume was stored. *)
Lemma C2_witness :
  let E := Sample.node (Ok Sample.good_reply) in
  let req := Sample.entry_request "experience" 0 in
  let w := Sample.later in
  let id := "r0" in
  let F := "experience" in
  let keys := ["title"; "companyName"; "date"; "companyLocation";
               "description"; "accomplishment"] in
  let resume := Sample.asha in
  let entries := Sample.jobs in
  let i := 0 in
  let entry := Js.spread (Sample.job "Developer" "Wrote code") in
  let partial := [("description", VStr "Led X");
                  ("accomplishment", VStr "Cut cost 20%")] in
  Reader.parse Sample.good_reply = Some (VObj partial)
  /\ Cast.entry E keys (VObj (updatedEntry entry (VObj partial)))
     = Ok (VObj [("title", VStr "Developer"); ("companyName", VStr "Acme");
                 ("date", VStr "2020-2022"); ("companyLocation", VStr "Pune");
                 ("description", VStr "Led X");
                 ("accomplishment", VStr "Cut cost 20%")])
  /\ match Cast.entry E keys (VObj (updatedEntry entry (VObj partial))) with
     | Throw _ =>
         handle (enhanceField E req) w
         = (Rejected (ReferenceError "field is not defined"), w)
     | Ok merged =>
         exists r w' D' entries' entry',
           merged = VObj entry'
           /\ handle (enhanceField E req) w = (Responded r, w')
           /\ status r = 200
           /\ Js.lookup (body r) "data" = Some (VObj entry')
           /\ find (Resume.has_id id) (db_docs (w_db w')) = Some D'
           /\ (forall f, f <> F -> f <> "updatedAt" ->
                 Js.lookup D' f = Js.lookup resume f)
           /\ Js.lookup D' "updatedAt" = Some (VNum (w_now w))
           /\ Js.lookup D' F = Some (VArr entries')
           /\ length entries' = length entries
           /\ (forall j, j <> Z.to_nat i -> entries' !! j = entries !! j)
           /\ entries' !! Z.to_nat i = Some (VObj entry')
           /\ (forall k, Js.lookup partial k = None ->
                         Js.lookup entry' k = Js.lookup entry k)
           /\ (forall k v, k ∈ keys -> Js.lookup (rev partial) k = Some v ->
                 Js.lookup entry' k
                 = match Cast.trimmed E false v with
                   | Ok VUndef | Throw _ => None
                   | Ok c => Some c
                   end)
           /\ (forall k, k ∉ keys -> Js.lookup entry' k = None)
           /\ (forall id', id' <> id ->
                  find (Resume.has_id id') (db_docs (w_db w'))
                  = find (Resume.has_id id') (db_docs (w_db w)))
     end.
Proof.
  intros E req w id F keys resume entries i entry partial.
  split; [by vm_compute|]. split; [by vm_compute|].
  eapply (C2_entry_merge_frame E req w id F keys resume entries i entry _
            Sample.good_reply partial).
  all: try reflexivity.
  - apply list_elem_of_here.
  - apply (bool_decide_unpack _). by vm_compute.
Defined.

(** A summary in blanks and a list of skills, a minute after the resume
    was stored, and a field that is not served. *)
Lemma C4_witness :
  (exists w',
      handle (enhanceField (Sample.node (Ok " Builds reliable services. "))
                (Sample.field_request "summary")) Sample.later
      = (Responded
           {| status := 200;
              body := [("success", VBool true);
                       ("message", VStr "Enhanced summary successfully");
                       ("data", VStr "Builds reliable services.")] |}, w')
      /\ find (Resume.has_id "r0") (db_docs (w_db w'))
         = Some (Js.set
                   (Js.set Sample.asha "summary"
                      (VStr "Builds reliable services."))
                   "updatedAt" (VNum 60000)))
  /\ (exists w',
        handle (enhanceField (Sample.node (Ok "Go, Rust, Rocq"))
                  (Sample.field_request "skills")) Sample.later
        = (Responded
             {| status := 200;
                body := [("success", VBool true);
                         ("message", VStr "Enhanced skills successfully");
                         ("data", VArr [VStr "Go"; VStr "Rust"; VStr "Rocq"])] |},
           w')
        /\ find (Resume.has_id "r0") (db_docs (w_db w'))
           = Some (Js.set
                     (Js.set Sample.asha "skills"
                        (VArr [VStr "Go"; VStr "Rust"; VStr "Rocq"]))
                     "updatedAt" (VNum 60000)))
  /\ handle (enhanceField (Sample.node (Ok Sample.good_reply))
              (Sample.field_request "courses")) Sample.later
     = (Responded field_unsupported, Sample.later).
Proof.
  split; [|split].
  - destruct (C4_whole_field_summary_and_skills_only
                (Sample.node (Ok " Builds reliable services. "))
                (Sample.field_request "summary") Sample.later "r0" Sample.asha
                eq_refl eq_refl eq_refl eq_refl eq_refl)
      as (Hsummary & _).
    exact (Hsummary " Builds reliable services. " eq_refl eq_refl).
  - destruct (C4_whole_field_summary_and_skills_only
                (Sample.node (Ok "Go, Rust, Rocq"))
                (Sample.field_request "skills") Sample.later "r0" Sample.asha
                eq_refl eq_refl eq_refl eq_refl eq_refl)
      as (_ & Hskills & _).
    exact (Hskills _ "Go, Rust, Rocq" eq_refl eq_refl eq_refl).
  - destruct (C4_whole_field_summary_and_skills_only
                (Sample.node (Ok Sample.good_reply))
                (Sample.field_request "courses") Sample.later "r0" Sample.asha
                eq_refl eq_refl eq_refl eq_refl eq_refl)
      as (_ & _ & _ & Harrays).
    apply (Harrays "courses"); [|reflexivity].
    rewrite !elem_of_cons. by right; right; left.
Defined.

(** Two edits of the stored resume, a second apart: the second draft is
    written once, when the timer fires. *)
Lemma C5_witness :
  let E := Sample.node (Ok EmptyString) in
  let u := Some "u1" in
  let d1 := Sample.draft in
  let d2 := Sample.redraft in
  let w := Sample.idle in
  let t2 := 1000 in
  let t3 := 6000 in
  let w1 := snd (trackChanges u d1 w) in
  let w2 := snd ((do advance E t2 then trackChanges u d2) w1) in
  let w3 := snd (advance E t3 w2) in
  let known := tracked_data w u d1 in
  (Json.stringify known <> Json.stringify d2
   /\ fst (saveResumeData E d2 true u
             (add_console (at_flush w u d1 t2) (announce u)))
      = Ok (Js.set (Js.set Sample.asha "summary" (VStr "Second draft"))
              "updatedAt" (VNum 6000))
   /\ length (db_writes (w_db w3)) = 1%nat)
  /\ w_db w2 = w_db w
  /\ w_timer w3 = None
  /\ (forall t4, w_db (snd (advance E t4 w3)) = w_db w3)
  /\ (Json.stringify known = Json.stringify d2 -> w_db w3 = w_db w)
  /\ (Json.stringify known <> Json.stringify d2 ->
      match
        saveResumeData E d2 true u
          (add_console (at_flush w u d1 t2) (announce u))
      with
      | (Ok _, saved) =>
          w_db w3 = w_db saved
          /\ (exists wr,
                 db_writes (w_db w3) = (db_writes (w_db w) ++ [wr])%list
                 /\ write_of E d2 wr)
          /\ changeTrackers w3 !! u
             = Some (settled d2 (t2 + AUTO_SAVE_DEBOUNCE))
      | (Throw e, _) =>
          w_db w3 = w_db w
          /\ changeTrackers w3 !! u = Some (marked (first_track w u d1))
          /\ lastData (marked (first_track w u d1)) = known
          /\ last (w_console w3) = Some ("Auto-save failed: " ++ message e)
      end).
Proof.
  intros E u d1 d2 w t2 t3.
  split; [by vm_compute|].
  apply (C5_two_edits_one_flush E u d1 d2 w t2 t3); reflexivity.
Defined.

Lemma C6_witness :
  handle (createResume (Sample.node (Ok EmptyString)) Sample.nameless
            (Some "u1")) Sample.fresh
  = (Responded (validation_failed ["Name is required"]), Sample.fresh)
  /\ handle (createResume (Sample.node (Ok EmptyString)) Sample.namesake
              (Some "u1")) Sample.fresh
     = (Responded (email_exists Sample.asha), Sample.fresh).
Proof.
  destruct (C6_create_validates_then_checks_email
              (Sample.node (Ok EmptyString)) (Some "u1") Sample.fresh)
    as [Hinvalid Htaken].
  split.
  - apply Hinvalid; [reflexivity|by vm_compute|discriminate].
  - apply (Htaken Sample.namesake "ASHA@Example.com"); by vm_compute.
Defined.

Lemma C7_witness :
  let E := Sample.node (Ok EmptyString) in
  let u := Some "u1" in
  let d := Sample.draft in
  let w := Sample.offline in
  let t := marked Sample.loaded in
  let e := MongoError "connection refused" in
  let after := snd (autoSave E u d w) in
  fst (autoSave E u d w) = Ok tt
  /\ changeTrackers after !! u = Some t
  /\ changeTrackers after = changeTrackers w
  /\ w_db after = w_db w
  /\ last (w_console after) = Some ("Auto-save failed: " ++ message e).
Proof.
  intros E u d w t e.
  eapply (C7_failed_autosave_stays_pending E u d w t e).
  - by vm_compute.
  - reflexivity.
  - by vm_compute.
  - vm_compute. reflexivity.
Defined.

Lemma C8_witness :
  changeTrackers
    (snd (trackChanges (Some "u1") (VObj Sample.asha) Sample.idle))
  !! Some "u1"
  = Some {| lastData := VObj Sample.asha; pendingSave := true;
            lastSavedAt := VNull |}.
Proof.
  apply (C8_every_edit_marks_pending (Some "u1") (VObj Sample.asha)
           Sample.idle Sample.loaded).
  by vm_compute.
Defined.

Lemma C10_witness :
  let E := Sample.node (Ok Sample.good_reply) in
  let req := Sample.entry_request "experience" (-1) in
  let w := Sample.fresh in
  handle (enhanceField E req) w
  = handle (try_catch (enhanceEntry E req (-1) Sample.jobs VUndef)
              out_of_scope) w
  /\ fst (handle (enhanceField E req) w) <> Responded invalid_index
  /\ handle (enhanceField E req) w
     = (Rejected (ReferenceError "field is not defined"), w).
Proof.
  intros E req w.
  apply (C10_negative_index_passes_bounds_check E req w "r0" Sample.asha
           Sample.jobs (-1)); reflexivity.
Defined.
(** * Further properties of the controller and the model *)

(** ** The matcher against the language *)

Section Matcher.

Import Lang.
Local Open Scope list_scope.

Lemma nullable_matches r : Regex.nullable r = true <-> matches r [].
Proof.
  split.
  - induction r as [| |p|r1 IH1 r2 IH2|r1 IH1 r2 IH2|r IH]; simpl; intros H;
      try done.
    + constructor.
    + apply andb_true_iff in H as [H1 H2].
      change (@nil string) with (@nil string ++ []). constructor; auto.
    + apply orb_true_iff in H as [H|H]; [apply MAltL|apply MAltR]; auto.
    + constructor.
  - remember [] as s eqn:Hs. induction 1; simpl; try done.
    + apply app_eq_nil in Hs as [-> ->]. by rewrite IHmatches1, IHmatches2.
    + by rewrite IHmatches.
    + rewrite IHmatches; [|done]. apply orb_true_r.
Qed.

Lemma deriv_sound c r : forall s,
  matches (Regex.deriv c r) s -> matches r (c :: s).
Proof.
  induction r; simpl; intros s H.
  - inversion H.
  - inversion H.
  - destruct (p c) eqn:Hp; inversion H; subst. by constructor.
  - destruct (Regex.nullable r1) eqn:Hn.
    + inversion H as [| | | ? ? ? H1 | ? ? ? H2 | |]; subst.
      * inversion H1; subst. rewrite app_comm_cons. constructor; auto.
      * change (c :: s) with ([] ++ c :: s). constructor; auto.
        by apply nullable_matches.
    + inversion H; subst. rewrite app_comm_cons. constructor; auto.
  - inversion H; subst; [apply MAltL|apply MAltR]; auto.
  - inversion H; subst. rewrite app_comm_cons. constructor; auto.
Qed.

(** A non-empty word of [r*] starts with a non-empty word of [r]. *)
Lemma star_cons r c s :
  matches (Regex.Star r) (c :: s) ->
  exists s1 s2, s = s1 ++ s2 /\ matches r (c :: s1)
                /\ matches (Regex.Star r) s2.
Proof.
  remember (Regex.Star r) as r' eqn:Hr. remember (c :: s) as w eqn:Hw.
  intros H. revert c s Hw.
  induction H; intros c' s' Hw; try done.
  injection Hr as ->. destruct s1 as [|a s1]; simpl in Hw.
  - by apply IHmatches2.
  - injection Hw as -> <-. eauto.
Qed.

Lemma deriv_complete c r : forall s,
  matches r (c :: s) -> matches (Regex.deriv c r) s.
Proof.
  induction r; simpl; intros s H.
  - inversion H.
  - inversion H.
  - inversion H as [|? ? Hp| | | | |]; subst. rewrite Hp. constructor.
  - inversion H as [| |? ? s1 s2 H1 H2| | | |].
    destruct s1 as [|a s1]; simplify_eq/=.
    + apply nullable_matches in H1 as Hn. rewrite Hn. apply MAltR. auto.
    + destruct (Regex.nullable r1); [apply MAltL|]; constructor; auto.
  - inversion H; subst; [apply MAltL|apply MAltR]; auto.
  - apply star_cons in H as (s1 & s2 & -> & H1 & H2). constructor; auto.
Qed.

Lemma run_matches l : forall r, Regex.run r l = true <-> matches r l.
Proof.
  induction l as [|c l IH]; simpl; intros r.
  - apply nullable_matches.
  - rewrite IH. split; [apply deriv_sound|apply deriv_complete].
Qed.

(** The matcher decides the language, on the characters of the string. *)
Lemma test_matches s r :
  Regex.test r s = true <-> matches r (Js.points s).
Proof. apply run_matches. Qed.

Lemma star_class p s :
  matches (Regex.Star (Regex.Cls p)) s <-> Forall (fun c => p c = true) s.
Proof.
  split.
  - remember (Regex.Star (Regex.Cls p)) as r eqn:Hr.
    induction 1; try done. injection Hr as ->.
    inversion H; subst. constructor; auto.
  - induction 1 as [|c s Hc _ IH]; [constructor|].
    change (c :: s) with ([c] ++ s). constructor; [by constructor|done].
Qed.

Lemma plus_class p s :
  matches (Regex.Plus (Regex.Cls p)) s
  <-> s <> [] /\ Forall (fun c => p c = true) s.
Proof.
  unfold Regex.Plus. split.
  - intros H. inversion H as [| |? ? s1 s2 H1 H2| | | |]; subst.
    inversion H1; subst. apply star_class in H2. split; [done|].
    by constructor.
  - intros [Hne H]. destruct s as [|c s]; [done|].
    inversion H; subst. change (c :: s) with ([c] ++ s).
    constructor; [by constructor|by apply star_class].
Qed.

Lemma chr_matches a s : matches (Regex.chr a) s <-> s = [a].
Proof.
  unfold Regex.chr. split.
  - intros H. inversion H; subst. by destruct (String.eqb_spec a c) as [->|].
  - intros ->. constructor. apply String.eqb_refl.
Qed.

End Matcher.

(** ** Strings *)

Section Strings.

Import Text.
Local Open Scope list_scope.

(** The characters of a string, put together, are the string. *)
Lemma glue_points s : Js.glue (Js.points s) = s.
Proof.
  induction s as [|c s IH]; simpl; [done|].
  destruct (Js.starts_cont s).
  - destruct (Js.points s) as [|p ps]; simpl in *; by rewrite <- IH.
  - simpl. by rewrite IH.
Qed.

Lemma points_nil s : Js.points s = [] -> s = EmptyString.
Proof. intros H. by rewrite <- (glue_points s), H. Qed.

Lemma points_step c s :
  Js.points (String c s)
  = if Js.starts_cont s then
      match Js.points s with
      | p :: ps => String c p :: ps
      | [] => [String c EmptyString]
      end
    else String c EmptyString :: Js.points s.
Proof. done. Qed.

(** The first character of a string starts with its first byte, and the
    characters after it start with a byte of their own. *)
Lemma points_cons a r :
  exists q ps,
    Js.points (String a r) = String a q :: ps
    /\ conts q = true
    /\ Forall (fun c => scalar c = true) ps
    /\ Forall (fun c => fresh c = true) ps.
Proof.
  revert a. induction r as [|b r IH]; intros a.
  - by exists EmptyString, [].
  - destruct (IH b) as (q & ps & Hp & Hq & Hs & Hf).
    rewrite points_step, Hp. cbn [Js.starts_cont].
    destruct (Js.is_cont b) eqn:Hb.
    + exists (String b q), ps. simpl. by rewrite Hb, Hq.
    + exists EmptyString, (String b q :: ps).
      repeat split; try done; constructor; simpl; by rewrite ?Hb.
Qed.

Lemma points_word s : word (Js.points s).
Proof.
  destruct s as [|a r]; [by split; constructor|].
  destruct (points_cons a r) as (q & ps & -> & Hq & Hs & Hf).
  split; [by constructor|done].
Qed.

Lemma points_cont a q t :
  conts q = true -> Js.starts_cont t = false ->
  Js.points (String a (q ++ t)) = String a q :: Js.points t.
Proof.
  revert a. induction q as [|b q IH]; intros a Hq Ht.
  - change (String a (EmptyString ++ t)) with (String a t).
    by rewrite points_step, Ht.
  - simpl in Hq. apply andb_true_iff in Hq as [Hb Hq].
    change (String a (String b q ++ t))
      with (String a (String b (q ++ t))).
    rewrite points_step, (IH b Hq Ht). simpl. by rewrite Hb.
Qed.

(** A list of characters is the list of the characters of its string. *)
Lemma points_glue l : word l -> Js.points (Js.glue l) = l.
Proof.
  intros [Hs Hf]. induction l as [|c l IH]; [done|].
  apply Forall_cons in Hs as [Hc Hs]. simpl in Hf.
  destruct c as [|a q]; [done|]. simpl in Hc. cbn [Js.glue].
  change (String a q ++ Js.glue l)%string with (String a (q ++ Js.glue l)).
  rewrite points_cont; [|done|].
  - f_equal. apply IH; [done|]. destruct l; [done|].
    by apply Forall_cons in Hf as [_ ?].
  - destruct l as [|d l]; [done|]. apply Forall_cons in Hf as [Hd _].
    destruct d as [|b d]; [done|]. simpl in *. by apply negb_true_iff.
Qed.

Lemma word_suffix a b : word (a ++ b) -> word b.
Proof.
  intros [Hs Hf]. apply Forall_app in Hs as [_ Hs]. split; [done|].
  destruct a as [|c a]; [done|]. simpl in Hf.
  apply Forall_app in Hf as [_ Hf]. destruct b; [done|].
  by apply Forall_cons in Hf as [_ ?].
Qed.

Lemma word_prefix a b : word (a ++ b) -> word a.
Proof.
  intros [Hs Hf]. apply Forall_app in Hs as [Hs _]. split; [done|].
  destruct a as [|c a]; [done|]. simpl in *.
  by apply Forall_app in Hf as [? _].
Qed.

Lemma drop_space_split l :
  exists ws, l = ws ++ Js.drop_space l
             /\ Forall (fun c => Js.is_space c = true) ws.
Proof.
  induction l as [|c l (ws & Hl & Hws)]; simpl.
  - by exists [].
  - destruct (Js.is_space c) eqn:Hc.
    + exists (c :: ws). split; [by rewrite Hl at 1|by constructor].
    + by exists [].
Qed.

Lemma drop_space_head l :
  match Js.drop_space l with
  | [] => True
  | c :: _ => Js.is_space c = false
  end.
Proof.
  induction l as [|c l IH]; simpl; [done|].
  by destruct (Js.is_space c) eqn:Hc; [|simpl].
Qed.

Lemma drop_space_fixed l :
  match l with [] => True | c :: _ => Js.is_space c = false end ->
  Js.drop_space l = l.
Proof. destruct l as [|c l]; simpl; [done|]. by intros ->. Qed.

(** The characters of a trimmed string: those of the string without the
    white space at its ends. *)
Lemma points_trim s :
  Js.points (Js.trim s)
  = rev (Js.drop_space (rev (Js.drop_space (Js.points s)))).
Proof.
  unfold Js.trim. apply points_glue.
  destruct (drop_space_split (Js.points s)) as (ws & Hl & _).
  pose proof (points_word s) as Hw. rewrite Hl in Hw.
  apply word_suffix in Hw.
  destruct (drop_space_split (rev (Js.drop_space (Js.points s))))
    as (ws' & Hl' & _).
  apply (f_equal (@rev string)) in Hl'.
  rewrite rev_involutive, rev_app_distr in Hl'. rewrite Hl' in Hw.
  by apply word_prefix in Hw.
Qed.

(** What [trim] returns neither starts nor ends with white space. *)
Lemma trim_trimmed s : trimmed (Js.trim s).
Proof.
  unfold trimmed. rewrite points_trim, rev_involutive.
  split; [|apply drop_space_head].
  set (m := Js.drop_space (Js.points s)).
  destruct (drop_space_split (rev m)) as (ws & Hm & Hws).
  pose proof (drop_space_head (rev m)) as Hn.
  pose proof (drop_space_head (Js.points s)) as Hhead. fold m in Hhead.
  destruct (Js.drop_space (rev m)) as [|c n _] using rev_ind; [done|].
  rewrite rev_unit.
  apply (f_equal (@rev string)) in Hm.
  rewrite rev_involutive, rev_app_distr, rev_unit in Hm.
  clearbody m. by subst m.
Qed.

(** A string of that kind is left as it is. *)
Lemma trim_of_trimmed s : trimmed s -> Js.trim s = s.
Proof.
  intros [Hhead Hlast]. unfold Js.trim.
  rewrite (drop_space_fixed (Js.points s)) by done.
  rewrite (drop_space_fixed (rev (Js.points s))) by done.
  rewrite rev_involutive. apply glue_points.
Qed.

Lemma trim_idempotent s : Js.trim (Js.trim s) = Js.trim s.
Proof. apply trim_of_trimmed, trim_trimmed. Qed.

Lemma length_zero_empty s : (0 < String.length s)%nat <-> s <> EmptyString.
Proof. destruct s; simpl; split; (done || lia). Qed.

End Strings.

(** ** The patterns of the address and of the phone number *)

Section Patterns.

Import Lang Text.
Local Open Scope list_scope.

Lemma cat_matches r1 r2 s :
  matches (Regex.Cat r1 r2) s
  <-> exists s1 s2, s = s1 ++ s2 /\ matches r1 s1 /\ matches r2 s2.
Proof.
  split.
  - intros H. inversion H; subst. eauto.
  - intros (s1 & s2 & -> & H1 & H2). by constructor.
Qed.

Lemma plain_class c :
  negb (Js.is_space c || String.eqb c "@") = true <-> plain c.
Proof.
  unfold plain. rewrite negb_true_iff, orb_false_iff.
  by destruct (String.eqb_spec c "@"); split; intros [? ?].
Qed.

Lemma plus_plain s :
  matches (Regex.Plus Regex.not_space_at) s <-> s <> [] /\ Forall plain s.
Proof.
  unfold Regex.not_space_at. rewrite plus_class.
  split; intros [Hne H]; (split; [done|]);
    (eapply Forall_impl; [exact H|]); intros c; apply plain_class.
Qed.

(** X1. The pattern [/^[^\s@]+@[^\s@]+\.[^\s@]+$/] of the controller and
    of the schema accepts exactly the strings whose characters are those
    of a part, [@], a part, [.] and a part, where the three parts are
    not empty and hold neither a character of white space, of Unicode as
    [\s] has it, nor another [@]. *)
Theorem X1_email_pattern_shape s :
  Regex.test Regex.email_re s = true
  <-> exists a b c : list string,
      Js.points s = a ++ ["@"] ++ b ++ ["."] ++ c
      /\ a <> [] /\ b <> [] /\ c <> []
      /\ Forall plain a /\ Forall plain b /\ Forall plain c.
Proof.
  rewrite test_matches. unfold Regex.email_re. split.
  - intros H.
    apply cat_matches in H as (a & s1 & Hs & Ha & H).
    apply cat_matches in H as (at_ & s2 & -> & Hat & H).
    apply cat_matches in H as (b & s3 & -> & Hb & H).
    apply cat_matches in H as (dot & c & -> & Hdot & Hc).
    apply chr_matches in Hat as ->. apply chr_matches in Hdot as ->.
    apply plus_plain in Ha as [Ha Ha'], Hb as [Hb Hb'], Hc as [Hc Hc'].
    by exists a, b, c.
  - intros (a & b & c & -> & Ha & Hb & Hc & Ha' & Hb' & Hc').
    repeat (apply cat_matches; eexists _, _; split; [reflexivity|split]).
    + apply plus_plain; auto.
    + by apply chr_matches.
    + apply plus_plain; auto.
    + by apply chr_matches.
    + apply plus_plain; auto.
Qed.

Lemma is_digit_spec c :
  Schema.is_digit c = true
  <-> c ∈ ["0"; "1"; "2"; "3"; "4"; "5"; "6"; "7"; "8"; "9"].
Proof.
  split.
  - destruct c as [|a [|]]; try done.
    destruct a as [[] [] [] [] [] [] [] []]; try done; intros _;
      rewrite !elem_of_cons; tauto.
  - rewrite !elem_of_cons, elem_of_nil. intros H.
    repeat (destruct H as [->|H]; [done|]). done.
Qed.

Lemma existsb_eqb c l : existsb (String.eqb c) l = true <-> c ∈ l.
Proof.
  rewrite existsb_exists, list_elem_of_In. split.
  - intros (x & Hx & Heq). by apply String.eqb_eq in Heq as ->.
  - intros H. exists c. split; [done|apply String.eqb_refl].
Qed.

Lemma dial_class c :
  Schema.is_digit c || Js.is_space c
  || existsb (String.eqb c) ["+"; "-"; "("; ")"] = true <-> dial c.
Proof.
  unfold dial. rewrite !orb_true_iff, existsb_eqb, is_digit_spec. tauto.
Qed.

(** X2. The pattern [/^[\d\s\+\-\(\)]+$/] of the schema accepts exactly
    the non-empty strings whose characters are digits, white space of
    Unicode as [\s] has it, [+], [-] and parentheses. *)
Theorem X2_phone_pattern_shape s :
  Regex.test Schema.phone_re s = true
  <-> s <> EmptyString /\ Forall dial (Js.points s).
Proof.
  rewrite test_matches. unfold Schema.phone_re. rewrite plus_class.
  assert (Js.points s <> [] <-> s <> EmptyString) as Hne.
  { split; [by intros H ->|]. intros H Hnil. by apply points_nil in Hnil. }
  rewrite Hne.
  split; intros [? H]; (split; [done|]);
    (eapply Forall_impl; [exact H|]); intros c; apply dial_class.
Qed.

End Patterns.

(** ** validateResumeData *)

Lemma is_blank_string s :
  is_blank (VStr s) = Ok (bool_decide (Js.trim s = EmptyString)).
Proof.
  unfold is_blank. destruct s as [|c s]; [done|]. simpl Js.truthy.
  cbn [negb]. f_equal.
  destruct (Js.trim (String c s));
    [by rewrite bool_decide_eq_true_2|by rewrite bool_decide_eq_false_2].
Qed.

Lemma is_blank_false v :
  is_blank v = Ok false
  <-> exists s, v = VStr s /\ Js.trim s <> EmptyString.
Proof.
  split.
  - destruct v as [| | | |s| |];
      try (unfold is_blank; simpl Js.truthy; by repeat case_match).
    rewrite is_blank_string. intros H. injection H as H.
    apply bool_decide_eq_false in H. eauto.
  - intros (s & -> & Hs). rewrite is_blank_string.
    by rewrite bool_decide_eq_false_2.
Qed.

Lemma default_lookup_string (o : obj) k s :
  default VUndef (Js.lookup o k) = VStr s <-> Js.lookup o k = Some (VStr s).
Proof. destruct (Js.lookup o k); simpl; split; congruence. Qed.

(** X3. The validation of the controller reports no error for an object
    exactly when its name and its phone are strings that are not blank
    and its email is a value that prints as an address of the pattern. *)
Theorem X3_validation_passes_iff (o : obj) :
  validateResumeData (VObj o) = Ok []
  <-> (exists name, Js.lookup o "name" = Some (VStr name)
                    /\ Js.trim name <> EmptyString)
      /\ (exists email, Js.lookup o "email" = Some email
                        /\ Js.truthy email = true
                        /\ Regex.test Regex.email_re (Js.to_string email)
                           = true)
      /\ (exists phone, Js.lookup o "phone" = Some (VStr phone)
                        /\ Js.trim phone <> EmptyString).
Proof.
  unfold validateResumeData, is_bad_email. cbn [Js.get].
  split.
  - intros H.
    destruct (is_blank (default VUndef (Js.lookup o "name")))
      as [[]|] eqn:Hname; [by repeat case_match| |done].
    destruct (is_blank (default VUndef (Js.lookup o "phone")))
      as [[]|] eqn:Hphone; [by repeat case_match| |done].
    apply is_blank_false in Hname as (name & Hname & ?).
    apply is_blank_false in Hphone as (phone & Hphone & ?).
    apply default_lookup_string in Hname, Hphone.
    destruct (Js.lookup o "email") as [email|]; [|done].
    cbn [default from_option Datatypes.id] in H.
    destruct (Js.truthy email) eqn:Ht; [|done].
    destruct (Regex.test Regex.email_re (Js.to_string email)) eqn:He;
      [|done].
    eauto 10.
  - intros ((name & -> & Hname) & (email & -> & Ht & He) & (phone & -> & Hp)).
    cbn [default from_option Datatypes.id]. rewrite !is_blank_string, Ht, He.
    by rewrite !bool_decide_eq_false_2.
Qed.

(** X4. A create request whose name is neither missing nor a string makes
    the validation throw: the answer is 500, not 400, and nothing is
    stored. *)
Theorem X4_create_with_odd_name_is_answered_500 E resumeData u w name :
  Js.truthy resumeData = true ->
  Js.get resumeData "name" = Ok name ->
  Js.truthy name = true ->
  (forall s, name <> VStr s) ->
  handle (createResume E resumeData u) w
  = (Responded
       {| status := 500;
          body := [("success", VBool false);
                   ("message", VStr "Failed to create resume");
                   ("error",
                    error_detail E (TypeError "trim is not a function"))] |},
     add_console w "Error creating resume: trim is not a function").
Proof.
  intros Hrd Hname Ht Hodd.
  unfold handle, createResume, try_catch, bind, lift, validateResumeData.
  rewrite Hrd, Hname. unfold is_blank. rewrite Ht. cbn [negb].
  by destruct name; try done; destruct (Hodd s).
Qed.

(** ** Skills *)

Section Skills.

Import Text.
Local Open Scope list_scope.

Lemma set_set o k v v' : Js.set (Js.set o k v) k v' = Js.set o k v'.
Proof.
  induction o as [|[k0 v0] o IH]; simpl.
  - by rewrite String.eqb_refl.
  - destruct (String.eqb_spec k0 k) as [->|Hne]; simpl.
    + by rewrite String.eqb_refl.
    + destruct (String.eqb_spec k0 k); [done|]. by rewrite IH.
Qed.

Lemma trim_all_strings l t :
  Resume.trim_all l = Ok t ->
  exists ss, l = map VStr ss /\ t = map Js.trim ss.
Proof.
  revert t. induction l as [|v l IH]; simpl; intros t H.
  - injection H as <-. by exists [].
  - destruct v as [| | | |s| |]; try done.
    destruct (Resume.trim_all l) as [t'|]; [|done]. injection H as <-.
    destruct (IH t' eq_refl) as (ss & -> & ->). by exists (s :: ss).
Qed.

Lemma trim_all_of_trimmed ss :
  Forall trimmed ss -> Resume.trim_all (map VStr ss) = Ok ss.
Proof.
  induction 1 as [|s ss Hs _ IH]; simpl; [done|].
  by rewrite IH, trim_of_trimmed.
Qed.

Lemma filter_all {A} (P : A -> Prop) `{!forall x, Decision (P x)} l :
  Forall P l -> filter P l = l.
Proof.
  induction 1 as [|x l Hx _ IH]; [done|].
  by rewrite filter_cons_True, IH.
Qed.

(** X5. The [save] middleware of the model leaves the skills of a
    document trimmed and without an empty one, touches no other field,
    and changes nothing when it runs again. *)
Theorem X5_pre_save_cleans_skills this skills cleaned :
  Js.lookup this "skills" = Some (VArr skills) ->
  Resume.pre_save this = Ok cleaned ->
  exists kept,
    Js.lookup cleaned "skills" = Some (VArr (map VStr kept))
    /\ Forall (fun skill => skill <> EmptyString /\ trimmed skill) kept
    /\ (forall k, k <> "skills" -> Js.lookup cleaned k = Js.lookup this k)
    /\ Resume.pre_save cleaned = Ok cleaned.
Proof.
  intros Hskills Hpre. unfold Resume.pre_save in Hpre.
  rewrite Hskills in Hpre.
  destruct (Resume.trim_all skills) as [t|] eqn:Ht; [|done].
  injection Hpre as <-.
  apply trim_all_strings in Ht as (ss & -> & ->).
  set (kept := filter (fun skill => (0 < String.length skill)%nat)
                 (map Js.trim ss)).
  assert (Forall (fun skill => skill <> EmptyString /\ trimmed skill) kept)
    as Hkept.
  { apply Forall_forall. intros skill Hin.
    apply list_elem_of_filter in Hin as [Hlen Hin].
    split; [by apply length_zero_empty|].
    apply list_elem_of_fmap in Hin as (s & -> & _). apply trim_trimmed. }
  exists kept. split; [apply lookup_set_eq|]. split; [done|].
  split; [by intros k Hk; apply lookup_set_ne|].
  unfold Resume.pre_save. rewrite lookup_set_eq.
  rewrite trim_all_of_trimmed
    by (eapply Forall_impl; [exact Hkept|]; by intros ? [_ ?]).
  rewrite filter_all
    by (eapply Forall_impl; [exact Hkept|];
        intros ? [? _]; by apply length_zero_empty).
  by rewrite set_set.
Qed.

Lemma parse_skills_trimmed s : Forall trimmed (parse_skills s).
Proof.
  unfold parse_skills. apply Forall_forall. intros t Hin.
  apply list_elem_of_fmap in Hin as (x & -> & _). apply trim_trimmed.
Qed.

(** X6. The parse of [enhanceField] gives one token more than the text
    has commas, so it drops none, and every token is trimmed. *)
Theorem X6_parse_skills_tokens s :
  length (parse_skills s) = S (commas s)
  /\ Forall trimmed (parse_skills s).
Proof. split; [apply parse_skills_length|apply parse_skills_trimmed]. Qed.

(** A text without a comma is one token, and the text before the first
    comma is the first token. *)
Lemma split_comma_free t : comma_free t -> Js.split_comma t = [t].
Proof.
  unfold comma_free. induction t as [|c t IH]; simpl; [done|].
  rewrite not_elem_of_cons. intros [Hc Ht].
  destruct (Ascii.eqb_spec c ","%char) as [->|_]; [done|].
  by rewrite IH.
Qed.

Lemma split_comma_first t rest :
  comma_free t ->
  Js.split_comma (t ++ "," ++ rest) = t :: Js.split_comma rest.
Proof.
  unfold comma_free. induction t as [|c t IH]; simpl; [done|].
  rewrite not_elem_of_cons. intros [Hc Ht].
  destruct (Ascii.eqb_spec c ","%char) as [->|_]; [done|].
  specialize (IH Ht). simpl in IH. by rewrite IH.
Qed.

(** [split] undoes [join]. *)
Lemma split_comma_join ts :
  ts <> [] -> Forall comma_free ts -> Js.split_comma (Js.join "," ts) = ts.
Proof.
  intros Hne Hfree. induction Hfree as [|t ts Ht Hts IH]; [done|].
  destruct ts as [|t' ts].
  - by apply split_comma_free.
  - change (Js.join "," (t :: t' :: ts))
      with (t ++ "," ++ Js.join "," (t' :: ts))%string.
    rewrite split_comma_first by done. by rewrite IH.
Qed.

(** X7. The parse of [getAIEnhancement] gives exactly the tokens of the
    text that are not empty once trimmed, each trimmed, each as often as
    it occurs and in the order of the text: for the tokens [ts], none of
    which holds a comma, joined by commas, it gives the trimmed tokens
    without the empty ones. On every text it gives the tokens of the
    parse of [enhanceField] without the empty ones. *)
Theorem X7_getAIEnhancement_skills_clean ts :
  ts <> [] -> Forall comma_free ts ->
  getAIEnhancement_skills (Js.join "," ts)
  = filter (fun skill => skill <> EmptyString) (map Js.trim ts)
  /\ parse_skills (Js.join "," ts) = map Js.trim ts
  /\ (forall s,
        getAIEnhancement_skills s
        = filter (fun skill => skill <> EmptyString) (parse_skills s))
  /\ Forall (fun skill => skill <> EmptyString /\ trimmed skill)
       (getAIEnhancement_skills (Js.join "," ts)).
Proof.
  intros Hne Hfree.
  assert (forall l : list string,
             filter (fun skill => (0 < String.length skill)%nat) l
             = filter (fun skill => skill <> EmptyString) l) as Hfilter.
  { induction l as [|x l IH]; [done|].
    destruct (decide (x = EmptyString)) as [->|Hx].
    - rewrite !filter_cons_False; [done|tauto|simpl; lia].
    - rewrite !filter_cons_True; [by rewrite IH|done|].
      by apply length_zero_empty. }
  unfold getAIEnhancement_skills, parse_skills.
  rewrite split_comma_join by done.
  split; [apply Hfilter|]. split; [done|]. split; [intros s; apply Hfilter|].
  apply Forall_forall. intros skill Hin.
  apply list_elem_of_filter in Hin as [Hlen Hin].
  split; [by apply length_zero_empty|].
  apply list_elem_of_fmap in Hin as (x & -> & _). apply trim_trimmed.
Qed.

End Skills.

(** ** saveResumeData and saveResume *)

Lemma truthy_string s : s <> EmptyString -> Js.truthy (VStr s) = true.
Proof. intros H. simpl. by destruct (String.eqb_spec s EmptyString). Qed.

Lemma trackChanges_tracked u d w : trackChanges u d w = (Ok tt, tracked w u d).
Proof. apply trackChanges_run. Qed.

Lemma lookup_update_of o now k :
  k <> "lastSavedAt" -> Js.lookup (update_of o now) k = Js.lookup o k.
Proof.
  intros Hk. unfold update_of, Js.assign. cbn [fold_left fst snd].
  by rewrite lookup_set_ne.
Qed.

Lemma lookup_update sent now k :
  Js.lookup (Cast.update sent now) k
  = if decide (k = "updatedAt") then Some (VNum now) else Js.lookup sent k.
Proof.
  unfold Cast.update, Js.assign. cbn [fold_left fst snd].
  destruct (decide (k = "updatedAt")) as [->|Hk];
    [apply lookup_set_eq|by apply lookup_set_ne].
Qed.

(** The fields of an update as they are stored. *)
Lemma lookup_saved E o old sent now k :
  well_formed o ->
  Cast.fields E (update_of o now) = Ok sent ->
  Js.lookup (Js.assign old (Cast.update sent now)) k
  = if decide (k = "updatedAt") then Some (VNum now) else merged E o old k.
Proof.
  intros Hwf Hsent.
  assert (well_formed (update_of o now)) as Hwf' by (by apply well_formed_set).
  pose proof (props_well_formed _ _ _ Hwf' Hsent) as Hwfs.
  rewrite lookup_assign by (by apply well_formed_assign).
  rewrite lookup_update. destruct (decide (k = "updatedAt")); [done|].
  unfold Cast.fields in Hsent.
  rewrite (props_lookup _ _ _ k Hwf' Hsent). unfold merged.
  destruct (decide (k = "lastSavedAt")) as [->|Hk]; [done|].
  rewrite lookup_update_of by done.
  destruct (Cast.path E k) as [cast|]; [|done].
  destruct (Js.lookup o k) as [v|]; [|done].
  by destruct (cast v) as [[]|].
Qed.

(** The update of a stored document by its id. *)
Lemma saveResumeData_by_id E o isAutoSave u w id old errs sent :
  validateResumeData (VObj o) = Ok errs ->
  negb isAutoSave && (0 <? length errs)%nat = false ->
  Js.lookup o "_id" = Some (VStr id) -> id <> EmptyString ->
  Cast.fields E (update_of o (w_now w)) = Ok sent ->
  (if negb isAutoSave then update_errors E sent else []) = [] ->
  db_up (w_db w) = true ->
  find (Resume.has_id id) (db_docs (w_db w)) = Some old ->
  Resume.email_clash (db_docs (w_db w)) id old
    (Js.assign old (Cast.update sent (w_now w))) = false ->
  let new := Js.assign old (Cast.update sent (w_now w)) in
  saveResumeData E (VObj o) isAutoSave u w
  = (Ok new,
     add_console
       (with_db w (db_updated (w_db w) id (Cast.update sent (w_now w)) new))
       (saved_line isAutoSave new)).
Proof.
  intros Hval Herrs Hid Hne Hsent Hupd Hup Hfind Hclash new.
  unfold saveResumeData, try_catch, bind, lift, gets.
  rewrite Hval, Herrs. cbn [Js.get]. rewrite Hid.
  cbn [default from_option Datatypes.id]. rewrite truthy_string by done.
  cbn [Js.spread]. fold (update_of o (w_now w)).
  by rewrite (findByIdAndUpdate_run E id _ _ w sent old).
Qed.

(** The update of a document that is not there. *)
Lemma saveResumeData_unknown_id E o isAutoSave u w id errs sent :
  validateResumeData (VObj o) = Ok errs ->
  negb isAutoSave && (0 <? length errs)%nat = false ->
  Js.lookup o "_id" = Some (VStr id) -> id <> EmptyString ->
  Cast.fields E (update_of o (w_now w)) = Ok sent ->
  (if negb isAutoSave then update_errors E sent else []) = [] ->
  db_up (w_db w) = true ->
  find (Resume.has_id id) (db_docs (w_db w)) = None ->
  saveResumeData E (VObj o) isAutoSave u w
  = (Throw (JsError "Resume not found"),
     add_console w
       ("Error " ++ (if isAutoSave then "auto-saving" else "saving")
        ++ " resume: Resume not found")).
Proof.
  intros Hval Herrs Hid Hne Hsent Hupd Hup Hfind.
  unfold saveResumeData, try_catch, bind, lift, gets.
  rewrite Hval, Herrs. cbn [Js.get]. rewrite Hid.
  cbn [default from_option Datatypes.id]. rewrite truthy_string by done.
  cbn [Js.spread]. fold (update_of o (w_now w)).
  unfold Resume.findByIdAndUpdate, Resume.cast_id, Resume.connected, lift,
    bind, ret, gets, throw.
  by rewrite Hsent, Hupd, Hup, Hfind.
Qed.

(** X8. A save for an id that no stored resume has, with fields that the
    schema casts and accepts, is answered 500 (the "Resume not found" of
    [saveResumeData] is caught like any failure), nothing is written and
    no tracker changes. *)
Theorem X8_save_unknown_id_is_answered_500 E o u w id sent :
  validateResumeData (VObj o) = Ok [] ->
  Js.lookup o "_id" = Some (VStr id) -> id <> EmptyString ->
  Cast.fields E (update_of o (w_now w)) = Ok sent ->
  update_errors E sent = [] ->
  db_up (w_db w) = true ->
  find (Resume.has_id id) (db_docs (w_db w)) = None ->
  handle (saveResume E (VObj o) u) w
  = (Responded (save_failed E (JsError "Resume not found")),
     add_console
       (add_console w "Error saving resume: Resume not found")
       "Error saving resume: Resume not found").
Proof.
  intros Hval Hid Hne Hsent Hupd Hup Hfind.
  unfold handle, saveResume, try_catch, bind, lift. rewrite Hval.
  cbn [Js.truthy negb length Nat.ltb Nat.leb].
  by rewrite (saveResumeData_unknown_id E o false u w id [] sent).
Qed.

(** X9. A save of valid data for the id of a stored resume, with fields
    that the schema casts and accepts, is answered 200 with the document
    as it is stored. That document has the time of the save as its
    [updatedAt]; at every other key it has the value of the request as
    the schema casts it (a string trimmed, the address also in lower
    case, the entries of a list without the keys their schema does not
    declare), where the schema has the path and the request the key, and
    the value that the document had elsewhere. So the [lastSavedAt] that
    the controller adds, which the schema does not declare, is not
    stored, and the answer carries the [lastSavedAt] that the document
    had. The user is notified to the tracker with the stored document
    and the autosave is scheduled. *)
Theorem X9_save_by_id_merges_fields E o u w id old sent :
  well_formed o ->
  validateResumeData (VObj o) = Ok [] ->
  Js.lookup o "_id" = Some (VStr id) -> id <> EmptyString ->
  Cast.fields E (update_of o (w_now w)) = Ok sent ->
  update_errors E sent = [] ->
  db_up (w_db w) = true ->
  find (Resume.has_id id) (db_docs (w_db w)) = Some old ->
  Resume.email_clash (db_docs (w_db w)) id old
    (Js.assign old (Cast.update sent (w_now w))) = false ->
  exists r w' new,
    handle (saveResume E (VObj o) u) w = (Responded r, w')
    /\ status r = 200
    /\ Js.lookup (body r) "data" = Some (VObj new)
    /\ find (Resume.has_id id) (db_docs (w_db w')) = Some new
    /\ Js.lookup new "updatedAt" = Some (VNum (w_now w))
    /\ (forall k, k <> "updatedAt" -> Js.lookup new k = merged E o old k)
    /\ Js.lookup new "lastSavedAt" = Js.lookup old "lastSavedAt"
    /\ Js.lookup (body r) "lastSavedAt"
       = Some (default VUndef (Js.lookup old "lastSavedAt"))
    /\ changeTrackers w' !! u = Some (first_track w u (VObj new))
    /\ w_timer w'
       = Some {| due := w_now w + AUTO_SAVE_DEBOUNCE; call_userId := u;
                 call_resumeData := VObj new |}.
Proof.
  intros Hwf Hval Hid Hne Hsent Hupd Hup Hfind Hclash.
  set (new := Js.assign old (Cast.update sent (w_now w))).
  assert (forall k, k <> "updatedAt" -> Js.lookup new k = merged E o old k)
    as Hframe.
  { intros k Hk. unfold new. rewrite (lookup_saved E o) by done.
    by destruct (decide (k = "updatedAt")). }
  assert (Js.lookup new "updatedAt" = Some (VNum (w_now w))) as Hstamp.
  { unfold new. by rewrite (lookup_saved E o) by done. }
  assert (Js.lookup new "lastSavedAt" = Js.lookup old "lastSavedAt") as Hlast
    by (by rewrite Hframe).
  eexists _, _, new. split.
  - unfold handle, saveResume, try_catch, bind, lift. rewrite Hval.
    cbn [Js.truthy negb length Nat.ltb Nat.leb].
    rewrite (saveResumeData_by_id E o false u w id old [] sent) by done.
    fold new. rewrite trackChanges_tracked. reflexivity.
  - unfold tracked, add_console, with_db, db_updated.
    cbn [w_db db_docs changeTrackers w_timer w_now w_console].
    split; [done|]. split; [done|].
    split.
    { eapply find_replace; [done|]. apply has_id_true.
      rewrite Hframe by done. unfold merged. by rewrite Hid. }
    split; [done|]. split; [done|]. split; [done|].
    split; [by rewrite <- Hlast|]. split; [|done].
    by rewrite lookup_insert_eq.
Qed.

Lemma length_replace id d docs :
  length (Resume.replace id d docs) = length docs.
Proof.
  induction docs as [|d0 docs IH]; simpl; [done|].
  destruct (Resume.has_id id d0); simpl; by rewrite ?IH.
Qed.

Lemma find_has_email e docs d :
  find (Resume.has_email e) docs = Some d ->
  Js.lookup d "email" = Some (VStr e).
Proof.
  intros H. apply find_some in H as [_ H].
  unfold Resume.has_email, Resume.email_of in H.
  destruct (Js.lookup d "email") as [[| | | |s| |]|]; try done.
  destruct (String.eqb_spec s e) as [Heq|]; [by rewrite Heq|done].
Qed.

(** The query by the address, the address cast as the schema casts it. *)
Lemma findOne_email_found E e w :
  db_up (w_db w) = true ->
  Resume.findOne_email E (VStr e) w
  = (Ok (find (Resume.has_email (Cast.address E e)) (db_docs (w_db w))), w).
Proof.
  intros Hup.
  unfold Resume.findOne_email, Resume.connected, Cast.trimmed, Cast.text,
    lift, bind, gets, ret.
  by rewrite Hup.
Qed.

(** X10. A save of valid data without an id, for an address that, trimmed
    and in lower case, is the address of a stored resume, updates that
    resume and inserts nothing: the collection keeps its size, the one
    write is an update, and the document keeps its id and its address. *)
Theorem X10_save_by_email_updates_in_place E o u w e id existing sent :
  well_formed o ->
  validateResumeData (VObj o) = Ok [] ->
  Js.lookup o "_id" = None ->
  Js.lookup o "email" = Some (VStr e) ->
  Cast.fields E (update_of o (w_now w)) = Ok sent ->
  update_errors E sent = [] ->
  db_up (w_db w) = true ->
  find (Resume.has_email (Cast.address E e)) (db_docs (w_db w))
  = Some existing ->
  Js.lookup existing "_id" = Some (VStr id) ->
  find (Resume.has_id id) (db_docs (w_db w)) = Some existing ->
  exists r w' new,
    handle (saveResume E (VObj o) u) w = (Responded r, w')
    /\ status r = 200
    /\ length (db_docs (w_db w')) = length (db_docs (w_db w))
    /\ db_writes (w_db w')
       = (db_writes (w_db w)
          ++ [WUpdate id (Cast.update sent (w_now w))])%list
    /\ find (Resume.has_id id) (db_docs (w_db w')) = Some new
    /\ Js.lookup new "_id" = Some (VStr id)
    /\ Js.lookup new "email" = Some (VStr (Cast.address E e)).
Proof.
  intros Hwf Hval Hid Hemail Hsent Hupd Hup Hfind Hex Hfindid.
  set (new := Js.assign existing (Cast.update sent (w_now w))).
  assert (Js.lookup new "_id" = Some (VStr id)) as Hnewid.
  { unfold new. rewrite (lookup_saved E o) by done.
    unfold merged. by rewrite Hid. }
  assert (Js.lookup new "email" = Some (VStr (Cast.address E e)))
    as Hnewemail.
  { unfold new. rewrite (lookup_saved E o) by done.
    unfold merged. by rewrite Hemail. }
  pose proof (find_has_email _ _ _ Hfind) as Hexemail.
  eexists _, _, new. split.
  - unfold handle, saveResume, try_catch, bind, lift. rewrite Hval.
    cbn [Js.truthy negb length Nat.ltb Nat.leb].
    unfold saveResumeData, try_catch, bind, lift, gets.
    rewrite Hval. cbn [Js.get negb andb length Nat.ltb Nat.leb].
    rewrite Hid, Hemail. cbn [default from_option Datatypes.id Js.truthy].
    rewrite findOne_email_found, Hfind, Hex by done.
    cbn [default from_option Datatypes.id Js.spread].
    fold (update_of o (w_now w)).
    rewrite (findByIdAndUpdate_run E id _ _ w sent existing); try done.
    + fold new. unfold console, ret. cbv beta iota zeta.
      rewrite trackChanges_tracked. reflexivity.
    + apply email_clash_same. fold new. by rewrite Hnewemail, Hexemail.
  - unfold tracked.
    cbn [w_db db_docs db_writes changeTrackers w_timer w_now w_console
         with_db db_updated].
    split; [done|]. split; [apply length_replace|]. split; [done|].
    split; [|done]. eapply find_replace; [done|]. by apply has_id_true.
Qed.

(** X11. An explicit save refuses data that fails the validation of the
    controller and writes nothing, while the autosave of the same data
    for a stored resume, once the schema casts them, writes them. *)
Theorem X11_autosave_skips_validation E o u w id old errs sent :
  well_formed o ->
  validateResumeData (VObj o) = Ok errs -> errs <> [] ->
  Js.lookup o "_id" = Some (VStr id) -> id <> EmptyString ->
  Cast.fields E (update_of o (w_now w)) = Ok sent ->
  db_up (w_db w) = true ->
  find (Resume.has_id id) (db_docs (w_db w)) = Some old ->
  Resume.email_clash (db_docs (w_db w)) id old
    (Js.assign old (Cast.update sent (w_now w))) = false ->
  saveResumeData E (VObj o) false u w
  = (Throw (JsError ("Validation failed: " ++ Js.join ", " errs)),
     add_console w
       ("Error saving resume: Validation failed: " ++ Js.join ", " errs))
  /\ exists new w',
      saveResumeData E (VObj o) true u w = (Ok new, w')
      /\ db_writes (w_db w')
         = (db_writes (w_db w)
            ++ [WUpdate id (Cast.update sent (w_now w))])%list
      /\ find (Resume.has_id id) (db_docs (w_db w'))
         = Some (Js.assign old (Cast.update sent (w_now w))).
Proof.
  intros Hwf Hval Herrs Hid Hne Hsent Hup Hfind Hclash. split.
  - unfold saveResumeData, try_catch, bind, lift. rewrite Hval.
    by destruct errs.
  - eexists _, _. split.
    + by apply (saveResumeData_by_id E o true u w id old errs sent).
    + unfold add_console, with_db, db_updated.
      cbn [w_db db_docs db_writes]. split; [done|].
      eapply find_replace; [done|]. apply has_id_true.
      rewrite (lookup_saved E o) by done. unfold merged. by rewrite Hid.
Qed.

(** ** createResume and loadResume *)

Lemma pre_save_other this cleaned k :
  Resume.pre_save this = Ok cleaned -> k <> "skills" ->
  Js.lookup cleaned k = Js.lookup this k.
Proof.
  unfold Resume.pre_save. intros H Hk.
  repeat case_match; simplify_eq; try done. by apply lookup_set_ne.
Qed.

Lemma validate_set o k v :
  k <> "name" -> k <> "email" -> k <> "phone" ->
  validateResumeData (VObj (Js.set o k v)) = validateResumeData (VObj o).
Proof.
  intros Hn He Hp. unfold validateResumeData. cbn [Js.get].
  by rewrite !lookup_set_ne.
Qed.

Lemma existsb_find_none {A} (f g : A -> bool) l :
  find f l = None -> existsb (fun x => f x && g x) l = false.
Proof.
  induction l as [|x l IH]; simpl; [done|].
  destruct (f x); [done|]. intros H. by rewrite IH.
Qed.

Lemma lookup_created_data o u now k :
  k <> "createdBy" -> k <> "lastSavedAt" ->
  Js.lookup (created_data o u now) k = Js.lookup o k.
Proof.
  intros H1 H2. unfold created_data, Js.assign. cbn [fold_left fst snd].
  by rewrite !lookup_set_ne.
Qed.

(** A key that the schema does not declare is not in the cast object,
    and a value that the schema casts to a value is there as cast. *)
Lemma props_undeclared path o c k :
  path k = None -> Cast.props path o = Ok c -> Js.lookup c k = None.
Proof.
  intros Hk. revert c. induction o as [|[k0 v0] o IH]; simpl; intros c Hc.
  - by simplify_eq.
  - destruct (path k0) as [cast|] eqn:Hk0; [|by apply IH].
    destruct (cast v0) as [x|]; [|done].
    destruct (Cast.props path o) as [rest|]; [|done].
    specialize (IH rest eq_refl).
    assert (k0 <> k) as Hne by congruence.
    destruct x; simplify_eq; simpl; try done.
    all: by destruct (String.eqb_spec k0 k).
Qed.

Lemma props_kept path o c k cast v x :
  path k = Some cast -> Js.lookup o k = Some v -> cast v = Ok x ->
  x <> VUndef ->
  Cast.props path o = Ok c -> Js.lookup c k = Some x.
Proof.
  intros Hk Hv Hx Hdef. revert c Hv.
  induction o as [|[k0 v0] o IH]; simpl; intros c Hv Hc; [done|].
  destruct (String.eqb_spec k0 k) as [->|Hne].
  - simplify_eq. rewrite Hk, Hx in Hc.
    destruct (Cast.props path o) as [rest|]; [|done].
    destruct x; simplify_eq; simpl; by rewrite String.eqb_refl.
  - destruct (path k0) as [cast0|]; [|by apply IH].
    destruct (cast0 v0) as [x0|]; [|done].
    destruct (Cast.props path o) as [rest|]; [|done].
    specialize (IH rest Hv eq_refl).
    destruct x0; simplify_eq; simpl; try done.
    all: by destruct (String.eqb_spec k0 k).
Qed.

Lemma lookup_insert_doc cleaned id now k :
  k <> "_id" -> k <> "createdAt" -> k <> "updatedAt" ->
  Js.lookup (Cast.insert cleaned id now) k = Js.lookup cleaned k.
Proof.
  intros H1 H2 H3. unfold Cast.insert, Js.assign. cbn [fold_left fst snd].
  by rewrite !lookup_set_ne.
Qed.

(** The address of the document that a create request stores. *)
Lemma created_email E o u now e sent cleaned id :
  Js.lookup o "email" = Some (VStr e) ->
  Cast.fields E (created_data o u now) = Ok sent ->
  Resume.pre_save sent = Ok cleaned ->
  Js.lookup (Cast.insert cleaned id now) "email"
  = Some (VStr (Cast.address E e)).
Proof.
  intros Hemail Hsent Hpre. rewrite lookup_insert_doc by done.
  rewrite (pre_save_other _ _ _ Hpre) by done.
  apply (props_kept (Cast.path E) (created_data o u now) sent "email"
           (Cast.trimmed E true) (VStr e)); try done.
  by rewrite lookup_created_data.
Qed.

(** The run of a create request that stores a new document. *)
Lemma createResume_creates E o u w e sent cleaned :
  validateResumeData (VObj o) = Ok [] ->
  Js.lookup o "_id" = None ->
  Js.lookup o "email" = Some (VStr e) ->
  db_up (w_db w) = true ->
  find (Resume.has_email (Cast.address E e)) (db_docs (w_db w)) = None ->
  Cast.fields E (created_data o u (w_now w)) = Ok sent ->
  schema_errors E sent = [] ->
  Resume.pre_save sent = Ok cleaned ->
  existsb (Resume.has_id (Resume.fresh_id (w_db w))) (db_docs (w_db w))
  = false ->
  let doc := Cast.insert cleaned (Resume.fresh_id (w_db w)) (w_now w) in
  handle (createResume E (VObj o) u) w
  = (Responded (created_ok doc),
     tracked
       (add_console (with_db w (db_inserted (w_db w) doc))
          (saved_line false doc))
       u (VObj doc)).
Proof.
  intros Hval Hid Hemail Hup Hfind Hsent Hschema Hpre Hfresh doc. subst doc.
  assert (Js.lookup cleaned "_id" = None) as Hcid.
  { rewrite (pre_save_other _ _ _ Hpre) by done.
    eapply props_keys; [exact Hsent|]. by rewrite lookup_created_data. }
  pose proof (created_email E o u (w_now w) e sent cleaned
                (Resume.fresh_id (w_db w)) Hemail Hsent Hpre) as Hdemail.
  unfold handle, createResume, try_catch, bind, lift. rewrite Hval.
  cbn [Js.truthy negb length Nat.ltb Nat.leb Js.get]. rewrite Hemail.
  cbn [default from_option Datatypes.id].
  rewrite findOne_email_found, Hfind by done. cbn [Js.spread].
  unfold saveResumeData, try_catch, bind, lift, gets.
  change (Js.assign o [("createdBy", uid_value u)])
    with (Js.set o "createdBy" (uid_value u)).
  rewrite validate_set, Hval by done.
  cbn [negb andb length Nat.ltb Nat.leb Js.get].
  rewrite !lookup_set_ne, Hid, Hemail by done.
  cbn [default from_option Datatypes.id Js.truthy].
  rewrite findOne_email_found, Hfind by done. cbn [Js.spread].
  change (Js.assign (Js.set o "createdBy" (uid_value u))
            [("createdBy", uid_value None); ("lastSavedAt", VNum (w_now w))])
    with (created_data o u (w_now w)).
  unfold Resume.save_new, Resume.connected, bind, lift, ret, gets, throw,
    set_db.
  assert (Resume.id_of cleaned = None) as Hnoid
    by (unfold Resume.id_of; by rewrite Hcid).
  rewrite Hsent, Hschema, Hpre, Hup, Hnoid.
  cbn [default from_option Datatypes.id].
  unfold Resume.email_taken, Resume.email_of. rewrite Hdemail.
  rewrite existsb_find_none, Hfresh by done. cbn [orb].
  unfold console. cbn [w_db w_console changeTrackers w_timer w_now].
  rewrite trackChanges_tracked. reflexivity.
Qed.

Lemma valid_email_truthy o e :
  validateResumeData (VObj o) = Ok [] ->
  Js.lookup o "email" = Some (VStr e) ->
  Js.truthy (VStr e) = true.
Proof.
  intros Hval He. unfold validateResumeData, is_bad_email in Hval.
  cbn [Js.get] in Hval. rewrite He in Hval.
  cbn [default from_option Datatypes.id] in Hval.
  destruct (Js.truthy (VStr e)); [done|].
  cbn [negb orb] in Hval. run_cases.
  all: by destruct (_ : list string).
Qed.

Lemma find_app_none {A} (f : A -> bool) l x :
  find f l = None -> f x = true -> find f (l ++ [x])%list = Some x.
Proof.
  induction l as [|y l IH]; simpl; intros Hl Hx; [by rewrite Hx|].
  destruct (f y); [done|]. by apply IH.
Qed.

Lemma has_email_true e d :
  Js.lookup d "email" = Some (VStr e) -> Resume.has_email e d = true.
Proof.
  intros H. unfold Resume.has_email, Resume.email_of. rewrite H.
  apply String.eqb_refl.
Qed.

Lemma loadResume_found E e u w resume :
  Js.truthy (VStr e) = true ->
  db_up (w_db w) = true ->
  find (Resume.has_email (Cast.address E e)) (db_docs (w_db w))
  = Some resume ->
  handle (loadResume E (VStr e) u) w
  = (Responded (loaded_ok resume), tracked w u (VObj resume)).
Proof.
  intros He Hup Hfind.
  unfold handle, loadResume, try_catch, bind. rewrite He. cbn [negb].
  rewrite findOne_email_found, Hfind by done.
  by rewrite trackChanges_tracked.
Qed.

(** X12. A resume that a create request stored is found from then on by
    its address and by every address that is the same once trimmed and
    in lower case: a load answers with the stored document, and a second
    create request for the same data is refused with it and changes
    nothing. *)
Theorem X12_created_resume_is_found_by_address E o u u' w e sent cleaned :
  validateResumeData (VObj o) = Ok [] ->
  Js.lookup o "_id" = None ->
  Js.lookup o "email" = Some (VStr e) ->
  db_up (w_db w) = true ->
  find (Resume.has_email (Cast.address E e)) (db_docs (w_db w)) = None ->
  Cast.fields E (created_data o u (w_now w)) = Ok sent ->
  schema_errors E sent = [] ->
  Resume.pre_save sent = Ok cleaned ->
  existsb (Resume.has_id (Resume.fresh_id (w_db w))) (db_docs (w_db w))
  = false ->
  exists doc w1,
    handle (createResume E (VObj o) u) w = (Responded (created_ok doc), w1)
    /\ db_docs (w_db w1) = (db_docs (w_db w) ++ [doc])%list
    /\ Js.lookup doc "email" = Some (VStr (Cast.address E e))
    /\ (forall e',
          e' <> EmptyString -> Cast.address E e' = Cast.address E e ->
          handle (loadResume E (VStr e') u') w1
          = (Responded (loaded_ok doc), tracked w1 u' (VObj doc)))
    /\ handle (createResume E (VObj o) u') w1
       = (Responded (email_exists doc), w1).
Proof.
  intros Hval Hid Hemail Hup Hfind Hsent Hschema Hpre Hfresh.
  pose proof (valid_email_truthy _ _ Hval Hemail) as Htruthy.
  pose proof (created_email E o u (w_now w) e sent cleaned
                (Resume.fresh_id (w_db w)) Hemail Hsent Hpre) as Hdemail.
  eexists _, _. split; [by eapply createResume_creates|].
  cbn [tracked add_console with_db db_inserted w_db db_docs db_up].
  set (doc := Cast.insert cleaned (Resume.fresh_id (w_db w)) (w_now w)) in *.
  assert (find (Resume.has_email (Cast.address E e))
            (db_docs (w_db w) ++ [doc])%list = Some doc) as Hnow.
  { apply find_app_none; [done|]. by apply has_email_true. }
  split; [done|]. split; [done|]. split.
  - intros e' Hne Hsame. apply loadResume_found.
    + by apply truthy_string.
    + done.
    + by rewrite Hsame.
  - unfold handle, createResume, try_catch, bind, lift. rewrite Hval.
    cbn [Js.truthy negb length Nat.ltb Nat.leb Js.get]. rewrite Hemail.
    cbn [default from_option Datatypes.id].
    rewrite findOne_email_found by done.
    cbn [tracked add_console with_db db_inserted w_db db_up db_docs].
    by rewrite Hnow.
Qed.

(** X13. The document stored for a create request reads [undefined]
    under [createdBy], whoever the user of the request is:
    [saveResumeData] sets the field again from its options, which the
    handler does not pass, and the schema, which does not declare the
    field, leaves it out of the document. The tracker is the one of that
    user. *)
Theorem X13_create_loses_the_user E o u w e sent cleaned :
  validateResumeData (VObj o) = Ok [] ->
  Js.lookup o "_id" = None ->
  Js.lookup o "email" = Some (VStr e) ->
  db_up (w_db w) = true ->
  find (Resume.has_email (Cast.address E e)) (db_docs (w_db w)) = None ->
  Cast.fields E (created_data o u (w_now w)) = Ok sent ->
  schema_errors E sent = [] ->
  Resume.pre_save sent = Ok cleaned ->
  existsb (Resume.has_id (Resume.fresh_id (w_db w))) (db_docs (w_db w))
  = false ->
  exists doc w1,
    handle (createResume E (VObj o) u) w = (Responded (created_ok doc), w1)
    /\ last (db_docs (w_db w1)) = Some doc
    /\ Js.lookup (created_data o u (w_now w)) "createdBy" = Some VUndef
    /\ default VUndef (Js.lookup doc "createdBy") = VUndef
    /\ changeTrackers w1 !! u = Some (first_track w u (VObj doc)).
Proof.
  intros Hval Hid Hemail Hup Hfind Hsent Hschema Hpre Hfresh.
  eexists _, _. split; [by eapply createResume_creates|].
  cbn [tracked add_console with_db db_inserted w_db db_docs changeTrackers].
  split; [by rewrite last_snoc|]. split; [|split].
  - unfold created_data.
    by rewrite (lookup_assign_present _ _ "createdBy" VUndef).
  - rewrite lookup_insert_doc by done.
    rewrite (pre_save_other _ _ _ Hpre) by done.
    by rewrite (props_undeclared (Cast.path E) _ _ "createdBy" eq_refl Hsent).
  - by rewrite lookup_insert_eq.
Qed.

(** The run of a create request up to [new Resume(data).save()]. *)
Lemma createResume_saves E o u w e :
  validateResumeData (VObj o) = Ok [] ->
  Js.lookup o "_id" = None ->
  Js.lookup o "email" = Some (VStr e) ->
  db_up (w_db w) = true ->
  find (Resume.has_email (Cast.address E e)) (db_docs (w_db w)) = None ->
  forall errs,
    Resume.save_new E (created_data o u (w_now w)) w
    = (Throw (ValidationError errs), w) ->
    handle (createResume E (VObj o) u) w
    = (Responded (create_failed E (ValidationError errs)),
       add_console
         (add_console w
            ("Error saving resume: " ++ message (ValidationError errs)))
         ("Error creating resume: " ++ message (ValidationError errs))).
Proof.
  intros Hval Hid Hemail Hup Hfind errs Hsave.
  unfold handle, createResume, try_catch, bind, lift. rewrite Hval.
  cbn [Js.truthy negb length Nat.ltb Nat.leb Js.get]. rewrite Hemail.
  cbn [default from_option Datatypes.id].
  rewrite findOne_email_found, Hfind by done. cbn [Js.spread].
  unfold saveResumeData, try_catch, bind, lift, gets.
  change (Js.assign o [("createdBy", uid_value u)])
    with (Js.set o "createdBy" (uid_value u)).
  rewrite validate_set, Hval by done.
  cbn [negb andb length Nat.ltb Nat.leb Js.get].
  rewrite !lookup_set_ne, Hid, Hemail by done.
  cbn [default from_option Datatypes.id Js.truthy].
  rewrite findOne_email_found, Hfind by done. cbn [Js.spread].
  change (Js.assign (Js.set o "createdBy" (uid_value u))
            [("createdBy", uid_value None); ("lastSavedAt", VNum (w_now w))])
    with (created_data o u (w_now w)).
  rewrite Hsave. reflexivity.
Qed.

(** X14. Data that passes the validation of the controller and fails the
    one of the schema is not answered 400: the failure of [save()] is
    caught twice, and the answer is 500 with nothing stored. *)
Theorem X14_create_refused_by_the_schema_is_answered_500 E o u w e sent errs :
  validateResumeData (VObj o) = Ok [] ->
  Js.lookup o "_id" = None ->
  Js.lookup o "email" = Some (VStr e) ->
  db_up (w_db w) = true ->
  find (Resume.has_email (Cast.address E e)) (db_docs (w_db w)) = None ->
  Cast.fields E (created_data o u (w_now w)) = Ok sent ->
  schema_errors E sent = errs -> errs <> [] ->
  handle (createResume E (VObj o) u) w
  = (Responded (create_failed E (ValidationError errs)),
     add_console
       (add_console w
          ("Error saving resume: " ++ message (ValidationError errs)))
       ("Error creating resume: " ++ message (ValidationError errs))).
Proof.
  intros Hval Hid Hemail Hup Hfind Hsent Hschema Herrs.
  eapply createResume_saves; try done.
  unfold Resume.save_new. rewrite Hsent, Hschema.
  by destruct errs as [|m errs].
Qed.

(** X15. A create request that carries the id of a stored resume, with an
    address no stored resume has, creates nothing: [saveResumeData] takes
    the update branch, the stored resume takes the fields of the request
    as the schema casts them, and the answer is still 201. *)
Theorem X15_create_with_a_stored_id_overwrites E o u w e id old sent :
  well_formed o ->
  validateResumeData (VObj o) = Ok [] ->
  Js.lookup o "_id" = Some (VStr id) -> id <> EmptyString ->
  Js.lookup o "email" = Some (VStr e) ->
  db_up (w_db w) = true ->
  find (Resume.has_email (Cast.address E e)) (db_docs (w_db w)) = None ->
  find (Resume.has_id id) (db_docs (w_db w)) = Some old ->
  Cast.fields E (update_of (Js.set o "createdBy" (uid_value u)) (w_now w))
  = Ok sent ->
  update_errors E sent = [] ->
  let fields := Cast.update sent (w_now w) in
  exists w1,
    handle (createResume E (VObj o) u) w
    = (Responded (created_ok (Js.assign old fields)), w1)
    /\ length (db_docs (w_db w1)) = length (db_docs (w_db w))
    /\ db_writes (w_db w1) = (db_writes (w_db w) ++ [WUpdate id fields])%list
    /\ find (Resume.has_id id) (db_docs (w_db w1))
       = Some (Js.assign old fields)
    /\ (forall k, k <> "updatedAt" ->
          Js.lookup (Js.assign old fields) k = merged E o old k).
Proof.
  intros Hwf Hval Hid Hne Hemail Hup Hfind Hold Hsent Hupd fields.
  set (o' := Js.set o "createdBy" (uid_value u)) in *.
  assert (well_formed o') as Hwf' by (by apply well_formed_set).
  assert (forall k, k <> "updatedAt" ->
            Js.lookup (Js.assign old fields) k = merged E o old k) as Hframe.
  { intros k Hk. unfold fields. rewrite (lookup_saved E o') by done.
    destruct (decide (k = "updatedAt")); [done|]. unfold merged, o'.
    destruct (decide (k = "createdBy")) as [->|Hc]; [done|].
    by rewrite lookup_set_ne. }
  assert (Js.lookup (Js.assign old fields) "email"
          = Some (VStr (Cast.address E e))) as Hnew.
  { rewrite Hframe by done. unfold merged. by rewrite Hemail. }
  assert (Js.lookup (Js.assign old fields) "_id" = Some (VStr id)) as Hnewid.
  { rewrite Hframe by done. unfold merged. by rewrite Hid. }
  assert (Resume.email_clash (db_docs (w_db w)) id old (Js.assign old fields)
          = false) as Hclash.
  { assert (Resume.email_of (Js.assign old fields)
            = Some (Cast.address E e)) as Hof
      by (unfold Resume.email_of; by rewrite Hnew).
    unfold Resume.email_clash, Resume.email_taken. rewrite Hof.
    rewrite existsb_find_none by done. apply andb_false_r. }
  eexists. split.
  - unfold handle, createResume, try_catch, bind, lift. rewrite Hval.
    cbn [Js.truthy negb length Nat.ltb Nat.leb Js.get]. rewrite Hemail.
    cbn [default from_option Datatypes.id].
    rewrite findOne_email_found, Hfind by done. cbn [Js.spread].
    change (Js.assign o [("createdBy", uid_value u)]) with o'.
    rewrite (saveResumeData_by_id E o' false None w id old [] sent);
      try done.
    + rewrite trackChanges_tracked. reflexivity.
    + unfold o'. by rewrite validate_set.
    + unfold o'. by rewrite lookup_set_ne.
  - unfold tracked, add_console, with_db, db_updated.
    cbn [w_db db_docs db_writes].
    split; [apply length_replace|]. split; [done|]. split; [|done].
    eapply find_replace; [done|]. by apply has_id_true.
Qed.

(** X16. A load request is always answered, with 200, 400, 404 or 500;
    it never writes to the collection, and unless it answers 200 it
    leaves the trackers and the pending autosave as they were. *)
Theorem X16_load_never_writes E email u w :
  exists r w',
    handle (loadResume E email u) w = (Responded r, w')
    /\ w_db w' = w_db w
    /\ status r ∈ [200; 400; 404; 500]
    /\ (status r <> 200 -> same_session w w').
Proof.
  unfold handle, loadResume, try_catch, bind.
  destruct (negb (Js.truthy email)).
  { eexists _, _. split; [done|]. cbn. split; [done|].
    split; [set_solver|]. by intros _. }
  unfold Resume.findOne_email, Resume.connected, lift, bind, ret, gets,
    throw.
  destruct (Cast.trimmed E true email) as [filter|].
  - destruct (db_up (w_db w)).
    + destruct (match filter with VStr s => _ | _ => None end) as [resume|].
      * rewrite trackChanges_tracked. eexists _, _. split; [done|]. cbn.
        split; [done|]. split; [set_solver|]. done.
      * eexists _, _. split; [done|]. cbn. split; [done|].
        split; [set_solver|]. by intros _.
    + eexists _, _. split; [done|]. cbn. split; [done|].
      split; [set_solver|]. by intros _.
  - eexists _, _. split; [done|]. cbn. split; [done|].
    split; [set_solver|]. by intros _.
Qed.

(** ** One debounced autosave for all users *)

(** X17. The debounced autosave is one function for all users: an edit of
    a second user within the window replaces the pending call of the
    first. When the timer fires, only the data of the second user can be
    written; the tracker of the first stays pending and no call is left
    to save it. *)
Theorem X17_one_pending_autosave_for_all_users E u1 u2 d1 d2 w t1 t2 t3 :
  u1 <> u2 ->
  changeTrackers w !! u1 = Some t1 ->
  t2 < w_now w + AUTO_SAVE_DEBOUNCE ->
  t2 + AUTO_SAVE_DEBOUNCE <= t3 ->
  let w1 := snd (trackChanges u1 d1 w) in
  let w2 := snd ((do advance E t2 then trackChanges u2 d2) w1) in
  let w3 := snd (advance E t3 w2) in
  w_timer w2
  = Some {| due := t2 + AUTO_SAVE_DEBOUNCE; call_userId := u2;
            call_resumeData := d2 |}
  /\ changeTrackers w3 !! u1 = Some (marked t1)
  /\ w_timer w3 = None
  /\ (w_db w3 = w_db w
      \/ exists wr,
          db_writes (w_db w3) = (db_writes (w_db w) ++ [wr])%list
          /\ write_of E d2 wr).
Proof.
  intros Hne Ht1 Hin Hdue w1 w2 w3.
  assert (w2
          = {| w_db := w_db w; w_console := w_console w;
               changeTrackers :=
                 <[u2 := first_track w u2 d2]>
                   (<[u1 := marked t1]> (changeTrackers w));
               w_timer := Some {| due := t2 + AUTO_SAVE_DEBOUNCE;
                                  call_userId := u2;
                                  call_resumeData := d2 |};
               w_now := t2 |}) as Hw2.
  { unfold w2, w1. rewrite trackChanges_run. cbn [snd].
    unfold bind. erewrite advance_early; [|reflexivity|cbn; lia].
    rewrite trackChanges_run.
    cbn [snd w_db w_console changeTrackers w_timer w_now].
    rewrite (first_track_tracked w u1 d1 t1 Ht1).
    unfold first_track at 1. cbn [changeTrackers].
    rewrite lookup_insert_ne by done. reflexivity. }
  split; [by rewrite Hw2|].
  unfold w3. rewrite Hw2.
  erewrite advance_due; [|reflexivity|cbn; lia].
  cbn [w_db w_console changeTrackers w_timer w_now due call_userId
         call_resumeData].
  set (ws := {| w_db := w_db w; w_timer := None |}).
  destruct (autoSave_effect E u2 d2 ws) as (Hok & Htimer & Hnow & Hothers & Hdb).
  unfold bind. destruct (autoSave E u2 d2 ws) as [r w']. cbn in Hok.
  subst r. cbn [snd] in *. cbn.
  split; [|by split].
  rewrite Hothers by done. unfold ws. cbn [changeTrackers].
  rewrite lookup_insert_ne by done. by rewrite lookup_insert_eq.
Qed.

(** X18. A notification schedules an autosave that writes nothing when
    the user had no tracker, which is the case of the first load or
    create, or when the data prints like the data of the tracker. The
    tracker of a user who had one is left pending all the same. *)
Theorem X18_notification_without_change_writes_nothing E u d w t3 :
  match changeTrackers w !! u with
  | None => True
  | Some t => Json.stringify (lastData t) = Json.stringify d
  end ->
  w_now w + AUTO_SAVE_DEBOUNCE <= t3 ->
  let w1 := snd (trackChanges u d w) in
  let w2 := snd (advance E t3 w1) in
  w_db w2 = w_db w
  /\ w_console w2 = w_console w
  /\ w_timer w2 = None
  /\ changeTrackers w2 !! u = Some (first_track w u d)
  /\ pendingSave (first_track w u d)
     = bool_decide (is_Some (changeTrackers w !! u)).
Proof.
  intros Hsame Hdue w1 w2. unfold w2, w1. rewrite trackChanges_run.
  cbn [snd]. erewrite advance_due; [|reflexivity|cbn; lia].
  cbn [w_db w_console changeTrackers w_timer w_now due call_userId
         call_resumeData].
  unfold bind. rewrite autoSave_skip.
  - cbn. rewrite lookup_insert_eq. repeat split.
    unfold first_track. by destruct (changeTrackers w !! u).
  - cbn [changeTrackers]. rewrite lookup_insert_eq.
    unfold first_track. destruct (changeTrackers w !! u); cbn; auto.
Qed.

(** ** An explicit save and the autosave that follows it *)

Lemma validate_fields o o' :
  Js.lookup o' "name" = Js.lookup o "name" ->
  Js.lookup o' "email" = Js.lookup o "email" ->
  Js.lookup o' "phone" = Js.lookup o "phone" ->
  validateResumeData (VObj o') = validateResumeData (VObj o).
Proof.
  intros Hn He Hp. unfold validateResumeData. cbn [Js.get].
  by rewrite Hn, He, Hp.
Qed.

(** Valid data has the three fields the controller checks. *)
Lemma valid_has o k :
  validateResumeData (VObj o) = Ok [] ->
  k ∈ ["name"; "email"; "phone"] ->
  is_Some (Js.lookup o k).
Proof.
  intros Hval Hk. unfold validateResumeData, is_bad_email in Hval.
  cbn [Js.get] in Hval.
  destruct (Js.lookup o k) as [v|] eqn:Hlook; [done|].
  set_unfold. destruct Hk as [->|[->|[->|[]]]]; rewrite Hlook in Hval.
  - cbn in Hval. by repeat case_match.
  - cbn in Hval. repeat case_match; simplify_eq.
  - cbn in Hval. repeat case_match; simplify_eq.
    all: by destruct (_ ++ _)%list.
Qed.

(** Valid data has a name and a phone number that are strings. *)
Lemma valid_strings o :
  validateResumeData (VObj o) = Ok [] ->
  exists name phone,
    Js.lookup o "name" = Some (VStr name)
    /\ Js.lookup o "phone" = Some (VStr phone).
Proof.
  unfold validateResumeData. cbn [Js.get]. intros H.
  destruct (is_blank (default VUndef (Js.lookup o "name")))
    as [[]|] eqn:Hname; [by repeat case_match| |done].
  destruct (is_blank (default VUndef (Js.lookup o "phone")))
    as [[]|] eqn:Hphone; [by repeat case_match| |done].
  apply is_blank_false in Hname as (name & Hname & _).
  apply is_blank_false in Hphone as (phone & Hphone & _).
  apply default_lookup_string in Hname, Hphone. eauto.
Qed.

(** X19. An explicit save by a user who is tracked is written twice. The
    handler notifies the tracker with the saved document, which leaves
    the data of the tracker as it was and schedules an autosave; unless
    that data prints like the saved document, the autosave writes the
    document, cast once more, when the timer fires. *)
Theorem X19_explicit_save_is_saved_again E o u w id old t t3 sent again :
  well_formed o -> well_formed old ->
  validateResumeData (VObj o) = Ok [] ->
  Js.lookup o "_id" = Some (VStr id) -> id <> EmptyString ->
  Cast.fields E (update_of o (w_now w)) = Ok sent ->
  update_errors E sent = [] ->
  db_up (w_db w) = true ->
  find (Resume.has_id id) (db_docs (w_db w)) = Some old ->
  Resume.email_clash (db_docs (w_db w)) id old
    (Js.assign old (Cast.update sent (w_now w))) = false ->
  changeTrackers w !! u = Some t ->
  Json.stringify (lastData t)
  <> Json.stringify (VObj (Js.assign old (Cast.update sent (w_now w)))) ->
  Cast.fields E
    (update_of (Js.assign old (Cast.update sent (w_now w)))
       (w_now w + AUTO_SAVE_DEBOUNCE)) = Ok again ->
  Resume.email_clash
    (Resume.replace id (Js.assign old (Cast.update sent (w_now w)))
       (db_docs (w_db w)))
    id (Js.assign old (Cast.update sent (w_now w)))
    (Js.assign (Js.assign old (Cast.update sent (w_now w)))
       (Cast.update again (w_now w + AUTO_SAVE_DEBOUNCE))) = false ->
  w_now w + AUTO_SAVE_DEBOUNCE <= t3 ->
  let new := Js.assign old (Cast.update sent (w_now w)) in
  let w1 := snd (handle (saveResume E (VObj o) u) w) in
  let w2 := snd (advance E t3 w1) in
  db_writes (w_db w2)
  = (db_writes (w_db w)
     ++ [WUpdate id (Cast.update sent (w_now w));
         WUpdate id (Cast.update again (w_now w + AUTO_SAVE_DEBOUNCE))])%list
  /\ changeTrackers w2 !! u
     = Some (settled (VObj new) (w_now w + AUTO_SAVE_DEBOUNCE))
  /\ w_timer w2 = None.
Proof.
  intros Hwf Hwfold Hval Hid Hne Hsent Hupd Hup Hfind Hclash Ht Hdiff Hagain
    Hclash' Hdue new w1 w2.
  fold new in Hdiff, Hagain, Hclash'.
  assert (forall k, k <> "updatedAt" -> Js.lookup new k = merged E o old k)
    as Hframe.
  { intros k Hk. unfold new. rewrite (lookup_saved E o) by done.
    by destruct (decide (k = "updatedAt")). }
  destruct (valid_strings o Hval) as (name & phone & Hname & Hphone).
  assert (exists errs, validateResumeData (VObj new) = Ok errs)
    as [errs Hvalnew].
  { unfold validateResumeData. cbn [Js.get]. rewrite !Hframe by done.
    unfold merged. rewrite Hname, Hphone.
    cbn [Cast.path Cast.strings existsb String.eqb Ascii.eqb Bool.eqb orb
         Cast.trimmed Cast.text default from_option Datatypes.id].
    rewrite !is_blank_string. by eexists. }
  assert (Js.lookup new "_id" = Some (VStr id)) as Hnewid.
  { rewrite Hframe by done. unfold merged. by rewrite Hid. }
  set (now' := w_now w + AUTO_SAVE_DEBOUNCE) in *.
  assert (w1
          = tracked
              (add_console
                 (with_db w
                    (db_updated (w_db w) id (Cast.update sent (w_now w))
                       new))
                 (saved_line false new))
              u (VObj new)) as Hw1.
  { unfold w1, handle, saveResume, try_catch, bind, lift. rewrite Hval.
    cbn [Js.truthy negb length Nat.ltb Nat.leb].
    rewrite (saveResumeData_by_id E o false u w id old [] sent) by done.
    fold new. by rewrite trackChanges_tracked. }
  unfold w2. rewrite Hw1. clear Hw1.
  erewrite advance_due; [|reflexivity|cbn; lia].
  unfold tracked, add_console, with_db.
  cbn [w_db w_console changeTrackers w_timer w_now due call_userId
         call_resumeData].
  rewrite (first_track_tracked _ u _ t) by exact Ht.
  fold now'.
  set (ws := {| w_db := db_updated (w_db w) id (Cast.update sent (w_now w))
                          new;
                w_console := (w_console w ++ [saved_line false new])%list;
                changeTrackers := <[u := marked t]> (changeTrackers w);
                w_timer := None; w_now := now' |}).
  assert (changeTrackers ws !! u = Some (marked t)) as Hts
    by apply lookup_insert_eq.
  unfold bind.
  erewrite (autoSave_attempt E u (VObj new) ws (marked t)); [|done|done|done|].
  2: { apply (saveResumeData_by_id E new true u _ id new errs again);
         try done.
       unfold ws, add_console, db_updated. cbn [w_db db_docs].
       eapply find_replace; [done|]. by apply has_id_true. }
  unfold ws, add_console, with_db, db_updated, with_tracker, set_now.
  cbn [w_db w_console changeTrackers w_timer w_now db_writes snd].
  split; [by rewrite <- app_assoc|]. split; [|done].
  by rewrite lookup_insert_eq.
Qed.

(** ** enhanceField: failures and odd requests *)

(** X20. Whatever the request and the world, an answer of the
    enhancement handler has status 200, 400, 404 or 500, and when the
    handler gives no answer the promise is rejected with the
    [ReferenceError] of its own [catch] block, never with the failure
    that led there. *)
Theorem X20_enhance_reports_no_failure E req w :
  match handle (enhanceField E req) w with
  | (Responded r, _) => status r ∈ [200; 400; 404; 500]
  | (Rejected e, _) => e = ReferenceError "field is not defined"
  end.
Proof.
  unfold handle, enhanceField, try_catch, out_of_scope, throw.
  match goal with
  | |- context [(if negb (Js.truthy (resumeId req)) then ?a else ?b) w] =>
      destruct ((if negb (Js.truthy (resumeId req)) then a else b) w)
        as [[r|e] w'] eqn:Hrun
  end; [|done].
  revert Hrun.
  unfold enhanceEntry, enhanceWhole, bind, lift, json, ret,
    invalid_index, entry_unsupported, field_unsupported, parse_failure,
    console.
  intros Hrun. run_cases; cbn; set_solver.
Qed.

(** X21. A failure behind the handler, of the database or of the
    generation model, gets no answer: the promise is rejected and nothing
    is written, not even a line on the console. *)
Theorem X21_failure_behind_enhance_is_rejected E req w id :
  resumeId req = VStr id -> Js.truthy (VStr id) = true ->
  Js.truthy (field req) = true ->
  (db_up (w_db w) = false ->
   handle (enhanceField E req) w
   = (Rejected (ReferenceError "field is not defined"), w))
  /\ (forall resume entries i prompt err,
        db_up (w_db w) = true ->
        find (Resume.has_id id) (db_docs (w_db w)) = Some resume ->
        Js.lookup resume (Js.to_string (field req)) = Some (VArr entries) ->
        index req = Some i ->
        i < Z.of_nat (length entries) ->
        Prompt.for_entry (field req) (Js.get_index entries i)
        = Some (Ok prompt) ->
        generateContent E prompt = Throw err ->
        handle (enhanceField E req) w
        = (Rejected (ReferenceError "field is not defined"), w)).
Proof.
  intros Hid Hidt Hft. split.
  - intros Hdown. unfold handle, enhanceField, try_catch, bind.
    rewrite Hid, Hidt, Hft. cbn [negb].
    unfold Resume.findById, Resume.cast_id, Resume.connected, bind, ret,
      gets, throw.
    by rewrite Hdown.
  - intros resume entries i prompt err Hup Hfind Harr Hidx Hlt Hprompt Herr.
    unfold handle.
    rewrite (enhanceField_entry E req w id resume entries i) by done.
    unfold try_catch, enhanceEntry, bind, lift.
    by rewrite Hprompt, Herr.
Qed.

(** X22. The index of a request counts only when the field of the stored
    resume is an array: for a field that no stored resume has as an
    array, the handler does what it does for the request without the
    index. *)
Theorem X22_index_is_ignored_off_arrays E req w :
  (forall resume l,
      resume ∈ db_docs (w_db w) ->
      Js.lookup resume (Js.to_string (field req)) <> Some (VArr l)) ->
  enhanceField E req w = enhanceField E (whole req) w.
Proof.
  intros Hflat. unfold enhanceField, try_catch, bind.
  cbn [whole resumeId field index].
  destruct (negb (Js.truthy (resumeId req))); [done|].
  destruct (negb (Js.truthy (field req))); [done|].
  destruct (Resume.findById (resumeId req) w) as [[[resume|]|e] w'] eqn:Hrun;
    [|done..].
  assert (resume ∈ db_docs (w_db w)) as Hin.
  { unfold Resume.findById, Resume.cast_id, Resume.connected, bind, ret,
      gets, throw in Hrun.
    repeat case_match; simplify_eq.
    apply list_elem_of_In. by eapply find_some. }
  specialize (Hflat resume).
  destruct (index req) as [i|]; [|done].
  destruct (Js.lookup resume (Js.to_string (field req))) as [v|]; [|done].
  cbn [default from_option Datatypes.id].
  destruct v; try done. by destruct (Hflat l).
Qed.

(** X23. A reply that is valid JSON and has no property to spread, such
    as a number, a boolean or [null], is taken for an enhancement: the
    answer is 200 with the entry as it was, the array, stored as the
    schema casts it, is written back unchanged, and only the time of the
    update changes in the document. *)
Theorem X23_reply_without_fields_changes_nothing E req w id F keys resume
    entries i entry prompt text v :
  resumeId req = VStr id -> Js.truthy (VStr id) = true ->
  field req = VStr F -> (F, keys) ∈ Cast.arrays ->
  db_up (w_db w) = true ->
  find (Resume.has_id id) (db_docs (w_db w)) = Some resume ->
  Js.lookup resume F = Some (VArr entries) ->
  Cast.all (Cast.entry E keys) entries = Ok entries ->
  index req = Some i -> 0 <= i ->
  entries !! Z.to_nat i = Some (VObj entry) ->
  Prompt.for_entry (field req) (VObj entry) = Some (Ok prompt) ->
  generateContent E prompt = Ok text ->
  JSON_parse E text = Some v ->
  Js.spread v = [] ->
  let stored :=
    Js.set (Js.set resume F (VArr entries)) "updatedAt" (VNum (w_now w)) in
  exists w',
    handle (enhanceField E req) w
    = (Responded (entry_enhanced req i (VObj entry)), w')
    /\ db_writes (w_db w')
       = (db_writes (w_db w)
          ++ [WUpdate id [(F, VArr entries);
                          ("updatedAt", VNum (w_now w))]])%list
    /\ find (Resume.has_id id) (db_docs (w_db w')) = Some stored
    /\ forall k, k <> "updatedAt" -> Js.lookup stored k = Js.lookup resume k.
Proof.
  intros Hid Hidt Hf HF Hup Hfind Harr Hstable Hidx Hi Hentry Hprompt Hreply
    Hparse Hspread stored.
  pose proof (lookup_lt_Some _ _ _ Hentry) as Hlen.
  assert (i < Z.of_nat (length entries)) as Hlt by lia.
  pose proof (find_has_id _ _ _ Hfind) as Hhas.
  destruct (array_is_no_stamp F keys HF) as (Hstamp & Hmail & Hnoid & Hname).
  assert (Js.truthy (VStr F) = true) as Hft by (by destruct F).
  pose proof (fields_array E F keys entries entries HF Hstable) as Hsent.
  eexists. split.
  - unfold handle.
    rewrite (enhanceField_entry E req w id resume entries i);
      [|by rewrite ?Hf..].
    rewrite (get_index_lookup _ _ _ Hi Hentry).
    unfold try_catch, enhanceEntry, bind, lift.
    rewrite Hprompt, Hreply, Hparse. cbn [toObject].
    unfold updatedArray, updatedEntry. rewrite Hspread.
    change (Js.assign entry []) with entry.
    rewrite set_index_in_range by lia.
    rewrite list_insert_id by done.
    rewrite Hf, Hid. cbn [Js.to_string].
    rewrite (findByIdAndUpdate_one E id F _ _ w resume Hsent) by done.
    cbn [saved_value Js.get]. fold stored.
    assert (Js.lookup stored F = Some (VArr entries)) as ->.
    { unfold stored. rewrite lookup_set_ne by done. apply lookup_set_eq. }
    cbv [default from_option Datatypes.id at_index].
    rewrite (get_index_lookup _ _ _ Hi Hentry).
    unfold json, ret, entry_enhanced. rewrite Hf. reflexivity.
  - cbn [snd w_db db_docs db_writes with_db db_updated].
    split; [done|]. split.
    + eapply find_replace; [done|]. by do 2 (apply has_id_set_other; [|done]).
    + intros k Hk. unfold stored. rewrite lookup_set_ne by done.
      destruct (decide (F = k)) as [<-|Hne].
      * by rewrite lookup_set_eq.
      * by rewrite lookup_set_ne.
Qed.

(** ** generatePdf *)

(** X25. The page that [generatePdf] prints is made of the name and the
    summary alone: two resumes that agree on these get the same reply,
    whatever their other fields. The handler always replies, and never
    touches the collection, the trackers or the pending autosave. *)
Theorem X25_pdf_shows_name_and_summary_only E print o o' w :
  Js.lookup o "name" = Js.lookup o' "name" ->
  Js.lookup o "summary" = Js.lookup o' "summary" ->
  generatePdf E print (VObj o) w = generatePdf E print (VObj o') w
  /\ exists r w',
      generatePdf E print (VObj o) w = (Ok r, w')
      /\ w_db w' = w_db w /\ same_session w w'.
Proof.
  intros Hname Hsum.
  unfold generatePdf, htmlContent, try_catch, bind, lift, ret.
  cbn [Js.truthy negb Js.get]. rewrite Hname, Hsum. split; [done|].
  destruct (print _) as [pdf|e]; eexists _, _; by split.
Qed.

(** ** The other resume controller: getAIEnhancement *)

Lemma structured_not_skills field :
  Helper.structured field = true -> Prompt.case_of field "skills" = false.
Proof.
  unfold Helper.structured, Prompt.case_of. destruct field; try done.
  destruct (String.eqb_spec s "skills") as [->|]; done.
Qed.

(** X26. The helper [getAIEnhancement] never throws and never writes. It
    gives the content back as it got it when no API key is set, when the
    generation model fails, and when the reply for one of the list
    fields is not JSON. *)
Theorem X26_enhancement_helper_falls_back E apiKey content field role w :
  (exists v w',
      Helper.getAIEnhancement E apiKey content field role w = (Ok v, w')
      /\ w_db w' = w_db w /\ same_session w w')
  /\ (apiKey = false
      \/ (exists e,
             generateContent E (Helper.prompt content field role) = Throw e)
      -> fst (Helper.getAIEnhancement E apiKey content field role w)
         = Ok content)
  /\ (forall text,
        apiKey = true ->
        generateContent E (Helper.prompt content field role) = Ok text ->
        Helper.structured field = true ->
        JSON_parse E text = None ->
        Helper.getAIEnhancement E apiKey content field role w
        = (Ok content, w)).
Proof.
  unfold Helper.getAIEnhancement, try_catch, bind, lift, ret, throw, console.
  split; [|split].
  - destruct apiKey; cbn [negb]; [|by eexists _, _].
    destruct (generateContent E _) as [text|e]; [|by eexists _, _].
    destruct (Prompt.case_of field "skills"); [by eexists _, _|].
    destruct (Helper.structured field); [|by eexists _, _].
    destruct (JSON_parse E text); by eexists _, _.
  - intros [->|[e He]]; [done|]. rewrite He. by destruct apiKey.
  - intros text -> Htext Hstructured Hparse. cbn [negb].
    by rewrite Htext, (structured_not_skills _ Hstructured), Hstructured,
      Hparse.
Qed.

(** ** The schema and the [save] middleware *)

Lemma trim_all_map ss : Resume.trim_all (map VStr ss) = Ok (map Js.trim ss).
Proof. induction ss as [|s ss IH]; simpl; by rewrite ?IH. Qed.

Lemma filter_blank ss :
  Forall (fun s => Js.trim s = EmptyString) ss ->
  filter (fun skill => (0 < String.length skill)%nat) (map Js.trim ss) = [].
Proof.
  induction 1 as [|s ss Hs _ IH]; [done|]. cbn [map].
  rewrite filter_cons_False; [done|]. rewrite Hs. cbn. lia.
Qed.

Lemma all_text ss : Cast.all Cast.text (map VStr ss) = Ok (map VStr ss).
Proof. induction ss as [|s ss IH]; simpl; by rewrite ?IH. Qed.

(** X27. The schema asks for at least one skill and is checked before
    the [save] middleware runs: skills that are all blank pass it, the
    middleware then drops every one of them, and the document is stored
    with no skill, in a state that the schema itself refuses. *)
Theorem X27_blank_skills_pass_the_schema_and_are_dropped E data w doc w' ss :
  (forall d, schema_errors E d = Schema.validate d) ->
  Js.lookup data "skills" = Some (VArr (map VStr ss)) ->
  Forall (fun s => Js.trim s = EmptyString) ss ->
  Resume.save_new E data w = (Ok doc, w') ->
  exists sent,
    Cast.fields E data = Ok sent
    /\ Js.lookup sent "skills" = Some (VArr (map VStr ss))
    /\ Schema.validate sent = []
    /\ Js.lookup doc "skills" = Some (VArr [])
    /\ last (db_docs (w_db w')) = Some doc
    /\ "At least one skill is required" ∈ Schema.validate doc.
Proof.
  intros Hschema Hskills Hblank Hsave.
  destruct (save_new_cleans_skills _ _ _ _ _ Hsave) as (sent & Hsent & Hclean).
  assert (Js.lookup sent "skills" = Some (VArr (map VStr ss))) as Hsk.
  { apply (props_kept (Cast.path E) data sent "skills" (Cast.many Cast.text)
             (VArr (map VStr ss))); try done.
    cbn [Cast.many]. by rewrite all_text. }
  assert (Js.lookup doc "skills" = Some (VArr [])) as Hdoc.
  { destruct (Hclean _ Hsk) as (t & Ht & Hdoc).
    rewrite trim_all_map in Ht. simplify_eq.
    by rewrite Hdoc, filter_blank. }
  exists sent. split; [done|]. split; [done|].
  split; [|split; [done|split]].
  - rewrite <- Hschema. unfold Resume.save_new in Hsave.
    rewrite Hsent in Hsave. by destruct (schema_errors E sent).
  - unfold Resume.save_new, Resume.connected, bind, lift, ret, gets, throw,
      set_db in Hsave.
    run_cases. cbn. by rewrite last_snoc.
  - apply list_elem_of_In, in_flat_map.
    exists ("skills",
            Schema.strings "skills" "At least one skill is required").
    split; [unfold Schema.paths; cbn; tauto|].
    cbn [fst snd]. rewrite Hdoc. by left.
Qed.

(** ** The prompts of the entry branch *)

(** X28. The entry branch has a prompt for the five list fields and for
    no other, and building it fails exactly when the entry is
    [undefined] or [null], the case of a hole in the array or of an
    index that is no element. *)
Theorem X28_entry_prompts F entry :
  (Prompt.for_entry (VStr F) entry <> None
   <-> F ∈ ["experience"; "education"; "achievements"; "projects";
            "courses"])
  /\ (forall built,
        Prompt.for_entry (VStr F) entry = Some built ->
        (exists prompt, built = Ok prompt)
        <-> entry <> VUndef /\ entry <> VNull).
Proof.
  unfold Prompt.for_entry, Prompt.case_of. split.
  - split.
    + intros H. repeat case_match; try done.
      all: repeat match goal with
             | H : String.eqb _ _ = true |- _ =>
                 apply String.eqb_eq in H; subst
             end; set_solver.
    + intros H. set_unfold.
      by destruct H as [->|[->|[->|[->|[->|[]]]]]].
  - intros built H.
    assert (built = Prompt.experience entry \/ built = Prompt.education entry
            \/ built = Prompt.achievements entry
            \/ built = Prompt.projects entry
            \/ built = Prompt.courses entry) as Hbuilt
      by (repeat case_match; simplify_eq; auto).
    clear H.
    unfold Prompt.experience, Prompt.education, Prompt.achievements,
      Prompt.projects, Prompt.courses in Hbuilt.
    destruct entry; cbn [Js.get] in Hbuilt.
    all: split; [intros [prompt ->]|intros [? ?]]; try done.
    all: try (by destruct Hbuilt as [?|[?|[?|[?|?]]]]).
    all: destruct Hbuilt as [->|[->|[->|[->| ->]]]]; by eexists.
Qed.

(** ** The properties at concrete inputs *)

Lemma X4_witness :
  handle (createResume Case.node Case.numbered (Some "u1")) Sample.fresh
  = (Responded
       {| status := 500;
          body := [("success", VBool false);
                   ("message", VStr "Failed to create resume");
                   ("error",
                    error_detail Case.node
                      (TypeError "trim is not a function"))] |},
     add_console Sample.fresh
       "Error creating resume: trim is not a function").
Proof.
  apply (X4_create_with_odd_name_is_answered_500 Case.node Case.numbered
           (Some "u1") Sample.fresh (VNum 7)).
  - reflexivity.
  - by vm_compute.
  - reflexivity.
  - discriminate.
Defined.

Lemma X5_witness :
  let sent := Case.cast (created_data Case.bo (Some "u1") 0) in
  exists kept,
    Js.lookup Case.bo_cleaned "skills" = Some (VArr (map VStr kept))
    /\ Forall (fun skill => skill <> EmptyString /\ Text.trimmed skill) kept
    /\ (forall k, k <> "skills" ->
          Js.lookup Case.bo_cleaned k = Js.lookup sent k)
    /\ Resume.pre_save Case.bo_cleaned = Ok Case.bo_cleaned.
Proof.
  apply (X5_pre_save_cleans_skills
           (Case.cast (created_data Case.bo (Some "u1") 0))
           [VStr "Go"; VStr "  "; VStr " Rust "] Case.bo_cleaned).
  - by vm_compute.
  - by vm_compute.
Defined.

(** The text of the specification: blanks are dropped and what is twice
    in the text is twice in the list. *)
Lemma X7_witness :
  let ts := ["Python"; " "; " Go "; "Go"] in
  (Js.join "," ts = "Python, , Go ,Go"
   /\ getAIEnhancement_skills "Python, , Go ,Go" = ["Python"; "Go"; "Go"])
  /\ getAIEnhancement_skills (Js.join "," ts)
     = filter (fun skill => skill <> EmptyString) (map Js.trim ts)
  /\ parse_skills (Js.join "," ts) = map Js.trim ts
  /\ (forall s,
        getAIEnhancement_skills s
        = filter (fun skill => skill <> EmptyString) (parse_skills s))
  /\ Forall (fun skill => skill <> EmptyString /\ Text.trimmed skill)
       (getAIEnhancement_skills (Js.join "," ts)).
Proof.
  intros ts. split; [by vm_compute|].
  apply (X7_getAIEnhancement_skills_clean ts).
  - discriminate.
  - unfold Text.comma_free. apply (bool_decide_unpack _). by vm_compute.
Defined.

Lemma X8_witness :
  handle (saveResume Case.node (VObj Case.stray) (Some "u1")) Sample.fresh
  = (Responded (save_failed Case.node (JsError "Resume not found")),
     add_console
       (add_console Sample.fresh "Error saving resume: Resume not found")
       "Error saving resume: Resume not found").
Proof.
  apply (X8_save_unknown_id_is_answered_500 Case.node Case.stray (Some "u1")
           Sample.fresh "r9" (Case.cast (update_of Case.stray 0))).
  all: by vm_compute.
Defined.

(** A save of the stored resume a minute later, with a summary in blanks
    and the address in another case. *)
Lemma X9_witness :
  let E := Case.node in
  let o := Case.draft in
  let w := Case.returning in
  let old := Sample.asha in
  exists r w' new,
    handle (saveResume E (VObj o) (Some "u1")) w = (Responded r, w')
    /\ status r = 200
    /\ Js.lookup (body r) "data" = Some (VObj new)
    /\ find (Resume.has_id "r0") (db_docs (w_db w')) = Some new
    /\ Js.lookup new "updatedAt" = Some (VNum (w_now w))
    /\ (forall k, k <> "updatedAt" -> Js.lookup new k = merged E o old k)
    /\ Js.lookup new "lastSavedAt" = Js.lookup old "lastSavedAt"
    /\ Js.lookup (body r) "lastSavedAt"
       = Some (default VUndef (Js.lookup old "lastSavedAt"))
    /\ changeTrackers w' !! Some "u1"
       = Some (first_track w (Some "u1") (VObj new))
    /\ w_timer w'
       = Some {| due := w_now w + AUTO_SAVE_DEBOUNCE;
                 call_userId := Some "u1";
                 call_resumeData := VObj new |}.
Proof.
  apply (X9_save_by_id_merges_fields Case.node Case.draft (Some "u1")
           Case.returning "r0" Sample.asha
           (Case.cast (update_of Case.draft 60000))).
  - apply (bool_decide_unpack _). by vm_compute.
  - by vm_compute.
  - by vm_compute.
  - discriminate.
  - by vm_compute.
  - by vm_compute.
  - reflexivity.
  - by vm_compute.
  - by vm_compute.
Defined.

Lemma X10_witness :
  let sent := Case.cast (update_of Case.resent 0) in
  exists r w' new,
    handle (saveResume Case.node (VObj Case.resent) (Some "u1")) Sample.fresh
    = (Responded r, w')
    /\ status r = 200
    /\ length (db_docs (w_db w')) = length (db_docs (w_db Sample.fresh))
    /\ db_writes (w_db w')
       = (db_writes (w_db Sample.fresh)
          ++ [WUpdate "r0" (Cast.update sent (w_now Sample.fresh))])%list
    /\ find (Resume.has_id "r0") (db_docs (w_db w')) = Some new
    /\ Js.lookup new "_id" = Some (VStr "r0")
    /\ Js.lookup new "email"
       = Some (VStr (Cast.address Case.node "ASHA@Example.com")).
Proof.
  apply (X10_save_by_email_updates_in_place Case.node Case.resent (Some "u1")
           Sample.fresh "ASHA@Example.com" "r0" Sample.asha
           (Case.cast (update_of Case.resent 0))).
  - apply (bool_decide_unpack _). by vm_compute.
  - by vm_compute.
  - by vm_compute.
  - by vm_compute.
  - by vm_compute.
  - by vm_compute.
  - reflexivity.
  - by vm_compute.
  - by vm_compute.
  - by vm_compute.
Defined.

Lemma X11_witness :
  let sent := Case.cast (update_of Case.unnamed 0) in
  saveResumeData Case.node (VObj Case.unnamed) false (Some "u1") Sample.fresh
  = (Throw (JsError ("Validation failed: "
                     ++ Js.join ", " ["Name is required"])),
     add_console Sample.fresh
       ("Error saving resume: Validation failed: "
        ++ Js.join ", " ["Name is required"]))
  /\ exists new w',
      saveResumeData Case.node (VObj Case.unnamed) true (Some "u1")
        Sample.fresh
      = (Ok new, w')
      /\ db_writes (w_db w')
         = (db_writes (w_db Sample.fresh)
            ++ [WUpdate "r0" (Cast.update sent (w_now Sample.fresh))])%list
      /\ find (Resume.has_id "r0") (db_docs (w_db w'))
         = Some (Js.assign Sample.asha
                   (Cast.update sent (w_now Sample.fresh))).
Proof.
  apply (X11_autosave_skips_validation Case.node Case.unnamed (Some "u1")
           Sample.fresh "r0" Sample.asha ["Name is required"]
           (Case.cast (update_of Case.unnamed 0))).
  - apply (bool_decide_unpack _). by vm_compute.
  - by vm_compute.
  - discriminate.
  - by vm_compute.
  - discriminate.
  - by vm_compute.
  - reflexivity.
  - by vm_compute.
  - by vm_compute.
Defined.

Lemma X12_witness :
  let E := Case.node in
  let e := "bo@example.com" in
  exists doc w1,
    handle (createResume E (VObj Case.bo) (Some "u1")) Sample.fresh
    = (Responded (created_ok doc), w1)
    /\ db_docs (w_db w1) = (db_docs (w_db Sample.fresh) ++ [doc])%list
    /\ Js.lookup doc "email" = Some (VStr (Cast.address E e))
    /\ (forall e',
          e' <> EmptyString -> Cast.address E e' = Cast.address E e ->
          handle (loadResume E (VStr e') (Some "u2")) w1
          = (Responded (loaded_ok doc), tracked w1 (Some "u2") (VObj doc)))
    /\ handle (createResume E (VObj Case.bo) (Some "u2")) w1
       = (Responded (email_exists doc), w1).
Proof.
  apply (X12_created_resume_is_found_by_address Case.node Case.bo (Some "u1")
           (Some "u2") Sample.fresh "bo@example.com"
           (Case.cast (created_data Case.bo (Some "u1") 0)) Case.bo_cleaned).
  all: by vm_compute.
Defined.

Lemma X13_witness :
  exists doc w1,
    handle (createResume Case.node (VObj Case.bo) (Some "u1")) Sample.fresh
    = (Responded (created_ok doc), w1)
    /\ last (db_docs (w_db w1)) = Some doc
    /\ Js.lookup (created_data Case.bo (Some "u1") (w_now Sample.fresh))
         "createdBy" = Some VUndef
    /\ default VUndef (Js.lookup doc "createdBy") = VUndef
    /\ changeTrackers w1 !! Some "u1"
       = Some (first_track Sample.fresh (Some "u1") (VObj doc)).
Proof.
  apply (X13_create_loses_the_user Case.node Case.bo (Some "u1") Sample.fresh
           "bo@example.com"
           (Case.cast (created_data Case.bo (Some "u1") 0)) Case.bo_cleaned).
  all: by vm_compute.
Defined.

Lemma X14_witness :
  let errs := ["Phone number contains invalid characters"] in
  handle (createResume Case.node (VObj Case.chatty) (Some "u1")) Sample.fresh
  = (Responded (create_failed Case.node (ValidationError errs)),
     add_console
       (add_console Sample.fresh
          ("Error saving resume: " ++ message (ValidationError errs)))
       ("Error creating resume: " ++ message (ValidationError errs))).
Proof.
  apply (X14_create_refused_by_the_schema_is_answered_500 Case.node
           Case.chatty (Some "u1") Sample.fresh "bo@example.com"
           (Case.cast (created_data Case.chatty (Some "u1") 0))).
  - by vm_compute.
  - by vm_compute.
  - by vm_compute.
  - reflexivity.
  - by vm_compute.
  - by vm_compute.
  - by vm_compute.
  - discriminate.
Defined.

Lemma X15_witness :
  let E := Case.node in
  let o := Case.intruder in
  let old := Sample.asha in
  let sent :=
    Case.cast (update_of (Js.set o "createdBy" (uid_value (Some "u1"))) 0) in
  let fields := Cast.update sent (w_now Sample.fresh) in
  exists w1,
    handle (createResume E (VObj o) (Some "u1")) Sample.fresh
    = (Responded (created_ok (Js.assign old fields)), w1)
    /\ length (db_docs (w_db w1)) = length (db_docs (w_db Sample.fresh))
    /\ db_writes (w_db w1)
       = (db_writes (w_db Sample.fresh) ++ [WUpdate "r0" fields])%list
    /\ find (Resume.has_id "r0") (db_docs (w_db w1))
       = Some (Js.assign old fields)
    /\ (forall k, k <> "updatedAt" ->
          Js.lookup (Js.assign old fields) k = merged E o old k).
Proof.
  apply (X15_create_with_a_stored_id_overwrites Case.node Case.intruder
           (Some "u1") Sample.fresh "bo@example.com" "r0" Sample.asha
           (Case.cast
              (update_of
                 (Js.set Case.intruder "createdBy" (uid_value (Some "u1")))
                 0))).
  - apply (bool_decide_unpack _). by vm_compute.
  - by vm_compute.
  - by vm_compute.
  - discriminate.
  - by vm_compute.
  - reflexivity.
  - by vm_compute.
  - by vm_compute.
  - by vm_compute.
  - by vm_compute.
Defined.

Lemma X17_witness :
  let E := Case.node in
  let u1 := Some "u1" in
  let u2 := Some "u2" in
  let d1 := Sample.draft in
  let d2 := Sample.redraft in
  let w := Case.shared in
  let w1 := snd (trackChanges u1 d1 w) in
  let w2 := snd ((do advance E 1000 then trackChanges u2 d2) w1) in
  let w3 := snd (advance E 6000 w2) in
  w_timer w2
  = Some {| due := 1000 + AUTO_SAVE_DEBOUNCE; call_userId := u2;
            call_resumeData := d2 |}
  /\ changeTrackers w3 !! u1 = Some (marked Sample.loaded)
  /\ w_timer w3 = None
  /\ (w_db w3 = w_db w
      \/ exists wr,
          db_writes (w_db w3) = (db_writes (w_db w) ++ [wr])%list
          /\ write_of E d2 wr).
Proof.
  apply (X17_one_pending_autosave_for_all_users Case.node (Some "u1")
           (Some "u2") Sample.draft Sample.redraft Case.shared Sample.loaded
           1000 6000).
  - discriminate.
  - by vm_compute.
  - by vm_compute.
  - by vm_compute.
Defined.

Lemma X18_witness :
  let E := Case.node in
  let u := Some "u1" in
  let d := VObj Sample.asha in
  let w := Sample.idle in
  let w1 := snd (trackChanges u d w) in
  let w2 := snd (advance E 5000 w1) in
  w_db w2 = w_db w
  /\ w_console w2 = w_console w
  /\ w_timer w2 = None
  /\ changeTrackers w2 !! u = Some (first_track w u d)
  /\ pendingSave (first_track w u d)
     = bool_decide (is_Some (changeTrackers w !! u)).
Proof.
  apply (X18_notification_without_change_writes_nothing Case.node (Some "u1")
           (VObj Sample.asha) Sample.idle 5000).
  - by vm_compute.
  - by vm_compute.
Defined.

Lemma X19_witness :
  let E := Case.node in
  let o := Case.draft in
  let u := Some "u1" in
  let w := Case.returning in
  let sent := Case.cast (update_of o (w_now w)) in
  let new := Js.assign Sample.asha (Cast.update sent (w_now w)) in
  let again := Case.cast (update_of new (w_now w + AUTO_SAVE_DEBOUNCE)) in
  let w1 := snd (handle (saveResume E (VObj o) u) w) in
  let w2 := snd (advance E 65000 w1) in
  db_writes (w_db w2)
  = (db_writes (w_db w)
     ++ [WUpdate "r0" (Cast.update sent (w_now w));
         WUpdate "r0" (Cast.update again (w_now w + AUTO_SAVE_DEBOUNCE))])%list
  /\ changeTrackers w2 !! u
     = Some (settled (VObj new) (w_now w + AUTO_SAVE_DEBOUNCE))
  /\ w_timer w2 = None.
Proof.
  apply (X19_explicit_save_is_saved_again Case.node Case.draft (Some "u1")
           Case.returning "r0" Sample.asha Sample.loaded 65000
           (Case.cast (update_of Case.draft 60000))
           (Case.cast
              (update_of
                 (Js.assign Sample.asha
                    (Cast.update (Case.cast (update_of Case.draft 60000))
                       60000))
                 65000))).
  - apply (bool_decide_unpack _). by vm_compute.
  - apply (bool_decide_unpack _). by vm_compute.
  - by vm_compute.
  - by vm_compute.
  - discriminate.
  - by vm_compute.
  - by vm_compute.
  - reflexivity.
  - by vm_compute.
  - by vm_compute.
  - by vm_compute.
  - by vm_compute.
  - by vm_compute.
  - by vm_compute.
  - by vm_compute.
Defined.

Lemma X21_witness :
  handle (enhanceField Case.node (Sample.entry_request "experience" 0))
    Sample.offline
  = (Rejected (ReferenceError "field is not defined"), Sample.offline)
  /\ handle (enhanceField (Sample.node (Throw (ServiceError "quota")))
               (Sample.entry_request "experience" 0)) Sample.fresh
     = (Rejected (ReferenceError "field is not defined"), Sample.fresh).
Proof.
  split.
  - apply (X21_failure_behind_enhance_is_rejected Case.node
             (Sample.entry_request "experience" 0) Sample.offline "r0");
      reflexivity.
  - eapply (X21_failure_behind_enhance_is_rejected
              (Sample.node (Throw (ServiceError "quota")))
              (Sample.entry_request "experience" 0) Sample.fresh "r0");
      reflexivity.
Defined.

Lemma X22_witness :
  enhanceField (Sample.node (Ok "Builds reliable services."))
    (Sample.entry_request "summary" 0) Sample.fresh
  = enhanceField (Sample.node (Ok "Builds reliable services."))
      (whole (Sample.entry_request "summary" 0)) Sample.fresh.
Proof.
  apply (X22_index_is_ignored_off_arrays
           (Sample.node (Ok "Builds reliable services."))
           (Sample.entry_request "summary" 0) Sample.fresh).
  intros resume l Hin. apply list_elem_of_In in Hin.
  destruct Hin as [<-|[]]. by vm_compute.
Defined.

Lemma X23_witness :
  let E := Sample.node (Ok "42") in
  let req := Sample.entry_request "experience" 0 in
  let entry := Js.spread (Sample.job "Developer" "Wrote code") in
  let w := Sample.later in
  let stored :=
    Js.set (Js.set Sample.asha "experience" (VArr Sample.jobs)) "updatedAt"
      (VNum (w_now w)) in
  Reader.parse "42" = Some (VNum 42)
  /\ exists w',
    handle (enhanceField E req) w
    = (Responded (entry_enhanced req 0 (VObj entry)), w')
    /\ db_writes (w_db w')
       = (db_writes (w_db w)
          ++ [WUpdate "r0" [("experience", VArr Sample.jobs);
                            ("updatedAt", VNum (w_now w))]])%list
    /\ find (Resume.has_id "r0") (db_docs (w_db w')) = Some stored
    /\ forall k, k <> "updatedAt" ->
         Js.lookup stored k = Js.lookup Sample.asha k.
Proof.
  split; [by vm_compute|].
  eapply (X23_reply_without_fields_changes_nothing (Sample.node (Ok "42"))
            (Sample.entry_request "experience" 0) Sample.later "r0"
            "experience"
            ["title"; "companyName"; "date"; "companyLocation";
             "description"; "accomplishment"]
            Sample.asha Sample.jobs 0 _ _ "42" (VNum 42)).
  all: try reflexivity.
  apply list_elem_of_here.
Defined.

Lemma X25_witness :
  let o := Sample.asha in
  let o' := Js.set (Js.set Sample.asha "role" (VStr "Manager"))
              "skills" (VArr []) in
  generatePdf Case.node Case.printer (VObj o) Sample.fresh
  = generatePdf Case.node Case.printer (VObj o') Sample.fresh
  /\ exists r w',
      generatePdf Case.node Case.printer (VObj o) Sample.fresh = (Ok r, w')
      /\ w_db w' = w_db Sample.fresh /\ same_session Sample.fresh w'.
Proof.
  apply (X25_pdf_shows_name_and_summary_only Case.node Case.printer
           Sample.asha
           (Js.set (Js.set Sample.asha "role" (VStr "Manager"))
              "skills" (VArr []))
           Sample.fresh).
  - by vm_compute.
  - by vm_compute.
Defined.

Lemma X26_witness :
  fst (Helper.getAIEnhancement (Sample.node (Throw (ServiceError "quota")))
         true (VArr Sample.jobs) (VStr "experience") (VStr "Engineer")
         Sample.fresh)
  = Ok (VArr Sample.jobs)
  /\ Helper.getAIEnhancement (Sample.node (Ok Sample.bad_reply)) true
       (VArr Sample.jobs) (VStr "experience") (VStr "Engineer") Sample.fresh
     = (Ok (VArr Sample.jobs), Sample.fresh).
Proof.
  split.
  - destruct (X26_enhancement_helper_falls_back
                (Sample.node (Throw (ServiceError "quota"))) true
                (VArr Sample.jobs) (VStr "experience") (VStr "Engineer")
                Sample.fresh) as (_ & Hfails & _).
    apply Hfails. right. by eexists.
  - destruct (X26_enhancement_helper_falls_back
                (Sample.node (Ok Sample.bad_reply)) true
                (VArr Sample.jobs) (VStr "experience") (VStr "Engineer")
                Sample.fresh) as (_ & _ & Hreply).
    apply (Hreply Sample.bad_reply); by vm_compute.
Defined.

Lemma X27_witness :
  let run := Resume.save_new Case.node Case.unskilled Sample.fresh in
  let doc := match fst run with Ok d => d | Throw _ => [] end in
  fst run = Ok doc
  /\ exists sent,
      Cast.fields Case.node Case.unskilled = Ok sent
      /\ Js.lookup sent "skills" = Some (VArr (map VStr ["  "; " "]))
      /\ Schema.validate sent = []
      /\ Js.lookup doc "skills" = Some (VArr [])
      /\ last (db_docs (w_db (snd run))) = Some doc
      /\ "At least one skill is required" ∈ Schema.validate doc.
Proof.
  split; [by vm_compute|].
  eapply (X27_blank_skills_pass_the_schema_and_are_dropped Case.node
            Case.unskilled Sample.fresh _ _ ["  "; " "]).
  - reflexivity.
  - by vm_compute.
  - repeat constructor.
  - by vm_compute.
Defined.
